(** * Table extractor add-on: a shallow embedding of [main.py]

    The add-on fetches page images of the selected documents, submits each
    page to a layout-analysis service, reshapes the tables the service
    returns and packs one export file per document into [tables.zip].

    Python values are embedded as they are used: integers are unbounded
    ([Z]), a [str] is its sequence of Unicode code points, the configuration
    dict [self.data] is a finite map from keys to values, exceptions and
    [sys.exit] are results of a computation, and every call that leaves the
    process (messages, billing, downloads, the analysis service, the archive)
    is recorded as an event of the run, whether it goes through or raises.

    The calls that depend on the environment or on the network may raise:
    building the client of the analysis service from the credentials,
    creating the archive, downloading a page image, converting it,
    submitting it to the service, uploading the archive; so may the charge.
    Writing csv text raises when the text cannot be encoded. Writes into an
    archive that is open and into the working directory are taken to go
    through. *)

From Stdlib Require Import ZArith String Ascii List Sorted Lia.
From stdpp Require Import base option list list_numbers gmap strings.

Open Scope Z_scope.

(** ** Python values *)

(** A Python [str]: its code points, in order. *)
Abbreviation pystr := (list N).

(** A string literal of the source, as code points. *)
Definition lit (s : string) : pystr :=
  map N_of_ascii (list_ascii_of_string s).

Inductive pyval : Type :=
| PNone
| PInt (z : Z)
| PStr (s : pystr).

Global Instance pyval_eq_dec : EqDecision pyval.
Proof. solve_decision. Defined.

(** The exceptions: the built-in classes the code meets, the platform's
    [APIError], and any other class, by name (a network error, an error of
    the analysis service, an [OSError], an undecodable image). *)
Inductive exn : Type :=
| TypeError
| ValueError
| IndexError
| APIError
| UnicodeEncodeError
| OtherError (name : string).

Global Instance exn_eq_dec : EqDecision exn.
Proof. solve_decision. Defined.

(** The result of evaluating Python code: a value, an exception that is not
    caught, or [sys.exit(code)]. *)
Inductive result (A : Type) : Type :=
| Return (a : A)
| Raise (e : exn)
| SysExit (code : Z).
Arguments Return {A} a.
Arguments Raise {A} e.
Arguments SysExit {A} code.

Global Instance result_ret : MRet result := @Return.
Global Instance result_bind : MBind result := λ A B f m,
  match m with
  | Return a => f a
  | Raise e => Raise e
  | SysExit c => SysExit c
  end.

(** Truth value of an object, as [not x] and [if x] compute it. *)
Definition truthy (v : pyval) : bool :=
  match v with
  | PNone => false
  | PInt z => negb (z =? 0)
  | PStr s => match s with [] => false | _ => true end
  end.

(** Lexicographic order on code points, the order of [str]. *)
Fixpoint str_ltb (s t : pystr) : bool :=
  match s, t with
  | _, [] => false
  | [], _ :: _ => true
  | a :: s', b :: t' => if (a <? b)%N then true
                        else if (b <? a)%N then false
                        else str_ltb s' t'
  end.

(** [a < b]: defined between two ints and between two strs only. *)
Definition py_lt (a b : pyval) : result bool :=
  match a, b with
  | PInt x, PInt y => Return (x <? y)
  | PStr s, PStr t => Return (str_ltb s t)
  | _, _ => Raise TypeError
  end.

(** [a <= b] *)
Definition py_le (a b : pyval) : result bool :=
  match a, b with
  | PInt x, PInt y => Return (x <=? y)
  | PStr s, PStr t => Return (negb (str_ltb t s))
  | _, _ => Raise TypeError
  end.

(** [a > b] *)
Definition py_gt (a b : pyval) : result bool := py_lt b a.

(** [a - b]: ints only. *)
Definition py_sub (a b : pyval) : result pyval :=
  match a, b with
  | PInt x, PInt y => Return (PInt (x - y))
  | _, _ => Raise TypeError
  end.

(** [a + b]: sum of ints, concatenation of strs. *)
Definition py_add (a b : pyval) : result pyval :=
  match a, b with
  | PInt x, PInt y => Return (PInt (x + y))
  | PStr s, PStr t => Return (PStr (s ++ t))
  | _, _ => Raise TypeError
  end.

(** [a * b]: product of ints, repetition of a str. *)
Definition py_mul (a b : pyval) : result pyval :=
  match a, b with
  | PInt x, PInt y => Return (PInt (x * y))
  | PStr s, PInt n | PInt n, PStr s =>
      Return (PStr (concat (replicate (Z.to_nat n) s)))
  | _, _ => Raise TypeError
  end.

(** [a == b] never raises. *)
Definition py_eq (a b : pyval) : bool := bool_decide (a = b).

(** [range(a, b)]: both bounds must be ints. *)
Definition py_range (a b : pyval) : result (list Z) :=
  match a, b with
  | PInt x, PInt y => Return (seqZ x (y - x))
  | _, _ => Raise TypeError
  end.

(** [d.get(key)] and [d.get(key, default)] *)
Definition dict_get (d : gmap string pyval) (key : string) : pyval :=
  default PNone (d !! key).
Definition dict_get_default (d : gmap string pyval) (key : string)
    (dflt : pyval) : pyval :=
  default dflt (d !! key).

(** Decimal digits of a natural number, most significant first. *)
Fixpoint digits_go (fuel : nat) (n : N) (acc : pystr) : pystr :=
  let acc' := (48 + n mod 10)%N :: acc in
  match fuel with
  | O => acc'
  | S fuel' => if (n <? 10)%N then acc' else digits_go fuel' (n / 10)%N acc'
  end.
Definition digits (n : N) : pystr := digits_go (N.to_nat (N.log2 n)) n [].

(** [str(z)] for an int. *)
Definition str_of_int (z : Z) : pystr :=
  if z <? 0 then lit "-" ++ digits (Z.to_N (- z)) else digits (Z.to_N z).

(** [str(v)], as an f-string formats a value. *)
Definition py_str (v : pyval) : pystr :=
  match v with
  | PNone => lit "None"
  | PInt z => str_of_int z
  | PStr s => s
  end.

(** ** The collaborators *)

(** A document of the hosting platform: its identifier and its page count. *)
Record document : Type := {
  id : pyval;
  page_count : Z
}.

(** What the analysis service returns for one page image. *)
Module Service.

Record cell : Type := {
  row_index : Z;
  column_index : Z;
  content : pystr
}.

Record table : Type := { cells : list cell }.

Record analyze_result : Type := { tables : list table }.

End Service.

(** Outcome of the platform's credit charge: it goes through, or raises
    [ValueError] (not enough credits), or raises [APIError]. *)
Inductive charge_outcome : Type :=
| Charged
| InsufficientCredits
| BillingAPIError.

Global Instance charge_outcome_eq_dec : EqDecision charge_outcome.
Proof. solve_decision. Defined.

(** Everything a run does outside the process, in order. *)
Inductive event : Type :=
| EPrint (v : pyval)
| ESetMessage (message : pystr)
| EChargeCredits (amount : pyval)
| EAuthenticate
| EZipOpen (filename : pystr)
| EDownloadImage (doc : pyval) (page_number : Z) (filename : pystr)
| EConvertToPng (gif_filename png_filename : pystr)
| EAnalyze (doc : pyval) (page_number : Z) (png_filename : pystr)
| EZipWritestr (path text : pystr)
| ESaveToCsv (csv_data : list (list pyval)) (csv_filepath : pystr)
| EZipWrite (path : pystr)
| EZipClose
| EUploadFile (filename : pystr).

(** The add-on instance [self]: the configuration [self.data], what the
    platform answers, what the analysis service answers for the image of a
    page of a document when it answers, and what the environment does to
    the calls that depend on it: [fails self call] is the exception that
    [call] raises, if it raises. *)
Record addon : Type := {
  data : gmap string pyval;
  document_count : pyval;             (* self.get_document_count() *)
  org_id : pyval;                     (* self.org_id *)
  documents : list document;          (* self.get_documents() *)
  billing : pyval → charge_outcome;   (* self.charge_credits(amount) *)
  layout : pyval → Z → Service.analyze_result;
  fails : event → option exn
}.

(** ** Runs *)

(** A computation with effects: the events it emits and how it ends. *)
Definition io (A : Type) : Type := (list event * result A)%type.

Global Instance io_ret : MRet io := λ A a, ([], Return a).
Global Instance io_bind : MBind io := λ A B f m,
  match m.2 with
  | Return a => let r := f a in (m.1 ++ r.1, r.2)
  | Raise e => (m.1, Raise e)
  | SysExit c => (m.1, SysExit c)
  end.

Definition emit (e : event) : io unit := ([e], Return tt).
Definition lift {A} (r : result A) : io A := ([], r).
Definition sys_exit {A} (code : Z) : io A := ([], SysExit code).
Definition when (b : bool) (m : io unit) : io unit :=
  if b then m else mret tt.

(** [try: m  except ...: handler]: [handler e] is [None] when no clause
    catches [e]. *)
Definition try_except {A} (m : io A) (handler : exn → option (io A)) : io A :=
  match m.2 with
  | Raise e =>
      match handler e with
      | Some h => (m.1 ++ h.1, h.2)
      | None => m
      end
  | _ => m
  end.

(** [for x in xs: body], threading the variables the body assigns. *)
Fixpoint for_each {A S} (xs : list A) (body : A → S → io S) (s : S) : io S :=
  match xs with
  | [] => mret s
  | x :: xs' => s' ← body x s; for_each xs' body s'
  end.

Definition trace {A} (m : io A) : list event := m.1.
Definition outcome {A} (m : io A) : result A := m.2.

(** A call that depends on the environment: it is made, and then it
    returns or raises. *)
Definition call (self : addon) (e : event) : io unit :=
  ([e], match fails self e with
        | Some exn => Raise exn
        | None => Return tt
        end).

(** ** The add-on *)

Definition set_message (message : string) : io unit :=
  emit (ESetMessage (lit message)).

Definition charge_credits (self : addon) (amount : pyval) : io unit :=
  emit (EChargeCredits amount);;
  match billing self amount with
  | Charged => mret tt
  | InsufficientCredits => lift (Raise ValueError)
  | BillingAPIError => lift (Raise APIError)
  end.

(** [calculate_cost]: the loop over the documents, then the rate. *)
Definition calculate_cost_step (self : addon) (doc : document)
    (total_num_pages : pyval) : io pyval :=
  let start_page := dict_get_default (data self) "start_page" (PInt 1) in
  let end_page := dict_get (data self) "end_page" in
  b ← lift (py_le end_page (PInt (page_count doc)));
  let last_page := if b : bool then end_page else PInt (page_count doc) in
  d ← lift (py_sub last_page start_page);
  pages_to_analyze ← lift (py_add d (PInt 1));
  lift (py_add total_num_pages pages_to_analyze).

Definition calculate_cost (self : addon) (documents : list document) : io pyval :=
  total_num_pages ← for_each documents (calculate_cost_step self) (PInt 0);
  cost ← lift (py_mul total_num_pages (PInt 7));
  emit (EPrint cost);;
  mret cost.

(** [except ValueError] also catches the subclass [UnicodeEncodeError]. *)
Definition validate (self : addon) : io bool :=
  when (bool_decide (document_count self = PNone))
    (set_message
       ("It looks like no documents were selected. Search for some or " ++
        "select them and run again.");;
     sys_exit 0);;
  when (negb (truthy (org_id self)))
    (set_message "No organization to charge.";;
     sys_exit 0);;
  ai_credit_cost ← calculate_cost self (documents self);
  try_except
    (charge_credits self ai_credit_cost;; mret true)
    (λ e, match e with
          | ValueError | UnicodeEncodeError => Some (mret false)
          | APIError => Some (mret false)
          | _ => None
          end).

(** *** Table records *)

(** The dict built for a cell and the dict built for a table. *)
Record cell_info : Type := {
  row_index : Z;
  column_index : Z;
  content : pystr
}.
Record table_info : Type := {
  page_number : Z;
  cells : list cell_info
}.

Global Instance cell_info_eq_dec : EqDecision cell_info.
Proof. solve_decision. Defined.
Global Instance table_info_eq_dec : EqDecision table_info.
Proof. solve_decision. Defined.

(** [get_table_data]: one [table_info] per table, appended in turn; inside,
    one [cell_info] per cell, appended in turn. *)
Definition get_table_data (result : Service.analyze_result) (page_number : Z)
    : list table_info :=
  foldl (λ table_data table,
           let table_info :=
             foldl (λ cells cell,
                      let cell_info :=
                        {| row_index := Service.row_index cell;
                           column_index := Service.column_index cell;
                           content := Service.content cell |} in
                      cells ++ [cell_info])
                   [] (Service.cells table) in
           table_data ++ [ {| page_number := page_number; cells := table_info |} ])
        [] (Service.tables result).

(** *** The tabular export *)

(** [max(xs)]: [ValueError] on an empty sequence. *)
Definition py_max (xs : list Z) : result Z :=
  match xs with
  | [] => Raise ValueError
  | x :: xs' => Return (foldl Z.max x xs')
  end.

(** Position of [l[i]] in a list of length [len]: a negative index counts
    from the end, an index out of range raises [IndexError]. *)
Definition py_index (len : nat) (i : Z) : result nat :=
  if bool_decide (0 ≤ i < Z.of_nat len) then Return (Z.to_nat i)
  else if bool_decide (- Z.of_nat len ≤ i < 0) then Return (Z.to_nat (Z.of_nat len + i))
  else Raise IndexError.

(** [rows[row_index].append(content)] for each cell, in turn. *)
Fixpoint place_cells (cells : list cell_info) (rows : list (list pyval))
    : result (list (list pyval)) :=
  match cells with
  | [] => Return rows
  | cell :: cells' =>
      let row_index := row_index cell in
      let column_index := column_index cell in
      let content := content cell in
      k ← py_index (length rows) row_index;
      place_cells cells' (alter (λ row, row ++ [PStr content]) k rows)
  end.

(** [for x in xs: body] in code without effects. *)
Fixpoint for_in {A S} (xs : list A) (body : A → S → result S) (s : S)
    : result S :=
  match xs with
  | [] => Return s
  | x :: xs' => s' ← body x s; for_in xs' body s'
  end.

(** The body of the loop of [convert_to_csv]: what one table adds to
    [csv_data]. *)
Definition convert_to_csv_step (table_info : table_info)
    (csv_data : list (list pyval)) : result (list (list pyval)) :=
  let page_number := page_number table_info in
  m ← py_max (map row_index (cells table_info));
  let max_row_index := m + 1 in
  let rows := replicate (Z.to_nat max_row_index) [] in
  let first_row := [PStr (lit "Page Number:"); PInt page_number] in
  let csv_data := csv_data ++ [first_row] in
  rows ← place_cells (cells table_info) rows;
  let csv_data := foldl (λ csv_data csv_row, csv_data ++ [csv_row]) csv_data rows in
  Return (csv_data ++ [[]; []]).

Definition convert_to_csv (table_data : list table_info)
    : result (list (list pyval)) :=
  for_in table_data convert_to_csv_step [].

(** The file is opened with [encoding="utf-8"], whose encoder is strict: it
    has no encoding for the surrogate code points U+D800..U+DFFF, and writing
    a row that holds one raises [UnicodeEncodeError]. *)
Definition is_surrogate (c : N) : bool := ((55296 <=? c) && (c <=? 57343))%N.
Definition utf8_encodable (s : pystr) : bool :=
  forallb (λ c, negb (is_surrogate c)) s.
Definition row_encodable (row : list pyval) : bool :=
  forallb (λ v, match v with PStr s => utf8_encodable s | _ => true end) row.

Definition save_to_csv (csv_data : list (list pyval)) (csv_filepath : pystr)
    : io unit :=
  emit (ESaveToCsv csv_data csv_filepath);;
  if forallb row_encodable csv_data then mret tt
  else lift (Raise UnicodeEncodeError).

(** *** The structured export: [json.dumps(table_data, indent=4)] *)

(** The objects handed to [json.dumps]: ints, strs, lists, and dicts with
    str keys in insertion order. *)
#[warnings="-register-all"]
Inductive pyobj : Type :=
| OInt (z : Z)
| OStr (s : pystr)
| OList (items : list pyobj)
| ODict (items : list (pystr * pyobj)).

Definition cell_obj (c : cell_info) : pyobj :=
  ODict [ (lit "row_index", OInt (row_index c));
          (lit "column_index", OInt (column_index c));
          (lit "content", OStr (content c)) ].

Definition table_obj (t : table_info) : pyobj :=
  ODict [ (lit "page_number", OInt (page_number t));
          (lit "cells", OList (map cell_obj (cells t))) ].

Definition table_data_obj (table_data : list table_info) : pyobj :=
  OList (map table_obj table_data).

Definition hex_digit (d : N) : N :=
  if (d <? 10)%N then (48 + d)%N else (87 + d)%N.

(** ['{0:04x}'.format(n)] for [n < 0x10000]. *)
Definition hex4 (n : N) : pystr :=
  [ hex_digit (n / 4096 mod 16); hex_digit (n / 256 mod 16);
    hex_digit (n / 16 mod 16); hex_digit (n mod 16) ]%N.

Definition escape_u (n : N) : pystr := lit "\u" ++ hex4 n.

(** The replacement of one character in a JSON string ([ensure_ascii]):
    printable ASCII stays, except the quote and the backslash. *)
Definition escape_char (c : N) : pystr :=
  if (c =? 34)%N then [92; 34]%N
  else if (c =? 92)%N then lit "\\"
  else if (c =? 8)%N then lit "\b"
  else if (c =? 12)%N then lit "\f"
  else if (c =? 10)%N then lit "\n"
  else if (c =? 13)%N then lit "\r"
  else if (c =? 9)%N then lit "\t"
  else if ((32 <=? c) && (c <=? 126))%N then [c]
  else if (c <? 65536)%N then escape_u c
  else
    let n := (c - 65536)%N in
    let s1 := N.lor 55296 (N.land (N.shiftr n 10) 1023) in
    let s2 := N.lor 56320 (N.land n 1023) in
    escape_u s1 ++ escape_u s2.

Definition encode_basestring_ascii (s : pystr) : pystr :=
  [34%N] ++ concat (map escape_char s) ++ [34%N].

(** A line break followed by the indentation of a nesting level. *)
Definition newline_indent (level : nat) : pystr :=
  10%N :: replicate (4 * level) 32%N.

(** [sep.join(parts)] *)
Fixpoint join (sep : pystr) (parts : list pystr) : pystr :=
  match parts with
  | [] => []
  | [p] => p
  | p :: ps => p ++ sep ++ join sep ps
  end.

(** The encoder with [indent=4]: an empty list or dict stays on one line;
    otherwise every item goes on a line of its own, one level deeper,
    separated by commas; a key and its value are separated by [": "]. *)
Fixpoint json_encode (level : nat) (o : pyobj) : pystr :=
  match o with
  | OInt z => str_of_int z
  | OStr s => encode_basestring_ascii s
  | OList [] => lit "[]"
  | OList items =>
      lit "[" ++ newline_indent (S level)
      ++ join (lit "," ++ newline_indent (S level))
              (map (json_encode (S level)) items)
      ++ newline_indent level ++ lit "]"
  | ODict [] => lit "{}"
  | ODict items =>
      lit "{" ++ newline_indent (S level)
      ++ join (lit "," ++ newline_indent (S level))
              (map (λ kv, encode_basestring_ascii kv.1 ++ lit ": "
                          ++ json_encode (S level) kv.2) items)
      ++ newline_indent level ++ lit "}"
  end.

Definition json_dumps (o : pyobj) : pystr := json_encode 0 o.

(** *** The driver *)

Definition download_image (self : addon) (doc : pyval) (page_number : Z)
    (filename : pystr) : io unit :=
  call self (EDownloadImage doc page_number filename).

Definition convert_to_png (self : addon) (gif_filename png_filename : pystr)
    : io unit :=
  call self (EConvertToPng gif_filename png_filename).

(** The body of the loop over the pages of a document. *)
Definition main_page (self : addon) (document : document) (page_number : Z)
    (table_data : list table_info) : io (list table_info) :=
  let gif_filename :=
    py_str (id document) ++ lit "-page" ++ str_of_int page_number ++ lit ".gif" in
  download_image self (id document) page_number gif_filename;;
  let png_filename :=
    py_str (id document) ++ lit "-page" ++ str_of_int page_number ++ lit ".png" in
  convert_to_png self gif_filename png_filename;;
  call self (EAnalyze (id document) page_number png_filename);;
  let result := layout self (id document) page_number in
  mret (table_data ++ get_table_data result page_number).

(** The body of the loop over the documents. *)
Definition main_document (self : addon) (output_format start_page end_page : pyval)
    (document : document) (_ : unit) : io unit :=
  let table_data := [] in
  outer_bound ← lift (py_add end_page (PInt 1));
  gt ← lift (py_gt end_page (PInt (page_count document)));
  let outer_bound :=
    if gt : bool then PInt (page_count document + 1) else outer_bound in
  pages ← lift (py_range start_page outer_bound);
  table_data ← for_each pages (main_page self document) table_data;
  when (py_eq output_format (PStr (lit "json")))
    (let table_data_json := json_dumps (table_data_obj table_data) in
     let output_file_path := lit "tables-" ++ py_str (id document) ++ lit ".json" in
     emit (EZipWritestr output_file_path table_data_json));;
  when (py_eq output_format (PStr (lit "csv")))
    (let output_file_path := lit "tables-" ++ py_str (id document) ++ lit ".csv" in
     csv_data ← lift (convert_to_csv table_data);
     save_to_csv csv_data output_file_path;;
     emit (EZipWrite output_file_path)).

Definition main (self : addon) : io unit :=
  let output_format := dict_get_default (data self) "output_format" (PStr (lit "json")) in
  let start_page := dict_get_default (data self) "start_page" (PInt 1) in
  let end_page := dict_get_default (data self) "end_page" (PInt 1) in
  ok ← validate self;
  when (negb ok)
    (set_message
       "You do not have sufficient AI credits to run this Add-On on this document set";;
     sys_exit 0);;
  lt ← lift (py_lt end_page start_page);
  when lt
    (set_message
       "The end page you provided is smaller than the start page, try again";;
     sys_exit 0);;
  lt ← lift (py_lt start_page (PInt 1));
  when lt
    (set_message "Your start page is less than 1, please try again";;
     sys_exit 0);;
  call self EAuthenticate;;
  let zip_filename := lit "tables.zip" in
  call self (EZipOpen zip_filename);;
  for_each (documents self) (main_document self output_format start_page end_page) tt;;
  emit EZipClose;;
  call self (EUploadFile zip_filename).

(** * The vocabulary of the properties *)

(** ** Reading runs *)

(** The pages submitted to the analysis service, with their document, in
    the order of submission. *)
Definition analyzed_pages (t : list event) : list (pyval * Z) :=
  omap (λ e, match e with
             | EAnalyze doc page_number _ => Some (doc, page_number)
             | _ => None
             end) t.

(** The amounts charged to the organization. *)
Definition charged_amounts (t : list event) : list pyval :=
  omap (λ e, match e with EChargeCredits amount => Some amount | _ => None end) t.

(** Events that create, fill or deliver the archive. *)
Definition archive_event (e : event) : bool :=
  match e with
  | EZipOpen _ | EZipWritestr _ _ | EZipWrite _ | EZipClose | EUploadFile _ => true
  | _ => false
  end.

Definition Zsum (xs : list Z) : Z := foldr Z.add 0 xs.

(** Pages of a document inside the configured range, as the cost counts
    them. *)
Definition pages_costed (s e : Z) (doc : document) : Z :=
  Z.min e (page_count doc) - s + 1.

(** ** The table result shaper *)

(** The record built for one cell of the service. *)
Definition shape_cell (cell : Service.cell) : cell_info :=
  {| row_index := Service.row_index cell;
     column_index := Service.column_index cell;
     content := Service.content cell |}.

(** ** The tabular export *)

(** The contents of the cells of row [r], in the order of the cells. *)
Definition row_contents (cells : list cell_info) (r : Z) : list pyval :=
  map (λ c, PStr (content c)) (filter (λ c, row_index c = r) cells).

(** The block of a table whose greatest row index is [r]: the page line,
    rows 0 to [r], two empty rows. *)
Definition csv_block (t : table_info) (r : Z) : list (list pyval) :=
  [[PStr (lit "Page Number:"); PInt (page_number t)]]
  ++ map (row_contents (cells t)) (seqZ 0 (r + 1))
  ++ [[]; []].

(** [r] is the greatest row index among the cells of [t]. *)
Definition max_row_index_is (t : table_info) (r : Z) : Prop :=
  (∃ c, c ∈ cells t ∧ row_index c = r)
  ∧ Forall (λ c, row_index c ≤ r) (cells t).

(** Row indices are 0-based. *)
Definition zero_based (t : table_info) : Prop :=
  Forall (λ c, 0 ≤ row_index c) (cells t).

(** The greatest row index of a table with 0-based row indices and at least
    one cell. *)
Definition max_row_index (t : table_info) : Z :=
  foldr Z.max 0 (map row_index (cells t)).

(** A table with its column indices replaced: [f] gives the new column
    index of each cell. *)
Definition with_columns (f : cell_info → Z) (t : table_info) : table_info :=
  {| page_number := page_number t;
     cells := map (λ c, {| row_index := row_index c;
                           column_index := f c;
                           content := content c |}) (cells t) |}.

(** ** The gates of a run *)

Arguments lit : simpl never.

(** The cost charged for the documents of a run with start page [s] and end
    page [e]. *)
Definition run_cost (self : addon) (s e : Z) : Z :=
  Zsum (map (pages_costed s e) (documents self)) * 7.

(** What a run does once it is past the gates. *)
Definition main_analysis (self : addon) (output_format start_page end_page : pyval)
    : io unit :=
  call self EAuthenticate;;
  call self (EZipOpen (lit "tables.zip"));;
  for_each (documents self) (main_document self output_format start_page end_page) tt;;
  emit EZipClose;;
  call self (EUploadFile (lit "tables.zip")).

(** The run goes past the gates: it authenticates to the analysis service. *)
Definition reaches_analysis (t : list event) : Prop := EAuthenticate ∈ t.

(** The conditions under which the code stops a run with start page [s] and
    end page [e] at a gate. The first one is the test [validate] makes:
    [get_document_count()] is [None]. *)
Definition halt_condition (self : addon) (s e : Z) : Prop :=
  document_count self = PNone
  ∨ truthy (org_id self) = false
  ∨ (billing self (PInt (run_cost self s e)) = InsufficientCredits
     ∨ billing self (PInt (run_cost self s e)) = BillingAPIError)
  ∨ e < s
  ∨ s < 1.

(** ** The pages of a document *)

(** What the run does for one page before it reshapes the result. *)
Definition page_events (doc : document) (p : Z) : list event :=
  [ EDownloadImage (id doc) p
      (py_str (id doc) ++ lit "-page" ++ str_of_int p ++ lit ".gif");
    EConvertToPng
      (py_str (id doc) ++ lit "-page" ++ str_of_int p ++ lit ".gif")
      (py_str (id doc) ++ lit "-page" ++ str_of_int p ++ lit ".png");
    EAnalyze (id doc) p
      (py_str (id doc) ++ lit "-page" ++ str_of_int p ++ lit ".png") ].

(** The table records gathered over a sequence of pages. *)
Definition tables_of_pages (self : addon) (doc : document) (pages : list Z)
    : list table_info :=
  concat (map (λ p, get_table_data (layout self (id doc) p) p) pages).

(** The pages of a document that fall in the range from [s] to [e]. *)
Definition pages_in_range (s e : Z) (doc : document) : list Z :=
  seqZ s (Z.min e (page_count doc) - s + 1).

(** The export of the table records of a document, after its pages. *)
Definition export_document (output_format : pyval) (doc : document)
    (table_data : list table_info) : io unit :=
  when (py_eq output_format (PStr (lit "json")))
    (emit (EZipWritestr (lit "tables-" ++ py_str (id doc) ++ lit ".json")
                        (json_dumps (table_data_obj table_data))));;
  when (py_eq output_format (PStr (lit "csv")))
    (csv_data ← lift (convert_to_csv table_data);
     save_to_csv csv_data (lit "tables-" ++ py_str (id doc) ++ lit ".csv");;
     emit (EZipWrite (lit "tables-" ++ py_str (id doc) ++ lit ".csv"))).

(** ** Runs on concrete inputs *)

(** A service that finds no table on any page. *)
Definition no_tables (doc : pyval) (p : Z) : Service.analyze_result :=
  {| Service.tables := [] |}.

(** An add-on instance with an organization, enough credits, an environment
    in which no call fails, and the given configuration and documents. *)
Definition addon_of (data : gmap string pyval) (documents : list document) : addon :=
  {| data := data;
     document_count := PInt (Z.of_nat (length documents));
     org_id := PInt 1;
     documents := documents;
     billing := λ _, Charged;
     layout := no_tables;
     fails := λ _, None |}.

(** Pages 3 to 5 of a one-page document and of a ten-page document. *)
Definition short_document_run : addon :=
  addon_of {[ "start_page" := PInt 3; "end_page" := PInt 5 ]}
           [ {| id := PInt 1; page_count := 1 |};
             {| id := PInt 2; page_count := 10 |} ].

(** A one-page document, with no configuration at all and with the end page
    set to 1. *)
Definition no_end_page_run : addon :=
  addon_of ∅ [ {| id := PInt 1; page_count := 1 |} ].
Definition end_page_1_run : addon :=
  addon_of {[ "end_page" := PInt 1 ]} [ {| id := PInt 1; page_count := 1 |} ].

(** A run for which no documents were selected. *)
Definition no_selection_run : addon :=
  {| data := {[ "start_page" := PInt 1; "end_page" := PInt 2 ]};
     document_count := PNone;
     org_id := PInt 1;
     documents := [];
     billing := λ _, Charged;
     layout := no_tables;
     fails := λ _, None |}.

(** Pages 1 to 2 of a five-page document and of a one-page document, the
    start page left to its default. *)
Definition two_documents_run : addon :=
  addon_of {[ "end_page" := PInt 2 ]}
           [ {| id := PInt 1; page_count := 5 |};
             {| id := PInt 2; page_count := 1 |} ].

(** A table on page 4 whose cells come out of order: rows 2, 0, 2, 1. *)
Definition scattered_table : table_info :=
  {| page_number := 4;
     cells := [ {| row_index := 2; column_index := 0; content := lit "c" |};
                {| row_index := 0; column_index := 1; content := lit "b" |};
                {| row_index := 2; column_index := 1; content := lit "d" |};
                {| row_index := 1; column_index := 0; content := lit "a" |} ] |}.

(** *** Reading the structured export back: [json.loads]

    The decoder for documents made of arrays, objects, integers and
    strings, which is what the export holds. Anything else ([null], [true],
    [false], a number with a fraction or an exponent, [NaN]) is outside this
    fragment and reads as a failure, as malformed text does. *)

Definition is_ws (c : N) : bool :=
  ((c =? 32) || (c =? 9) || (c =? 10) || (c =? 13))%N.

Fixpoint skip_ws (s : pystr) : pystr :=
  match s with
  | c :: s' => if is_ws c then skip_ws s' else s
  | [] => []
  end.

Definition is_digit (c : N) : bool := ((48 <=? c) && (c <=? 57))%N.

Definition hex_value (c : N) : option N :=
  if ((48 <=? c) && (c <=? 57))%N then Some (c - 48)%N
  else if ((97 <=? c) && (c <=? 102))%N then Some (c - 87)%N
  else if ((65 <=? c) && (c <=? 70))%N then Some (c - 55)%N
  else None.

(** The four hex digits after a backslash-u. *)
Definition decode_uXXXX (a b c d : N) : option N :=
  a' ← hex_value a; b' ← hex_value b; c' ← hex_value c; d' ← hex_value d;
  Some (4096 * a' + 256 * b' + 16 * c' + d')%N.

Definition is_high_surrogate (c : N) : bool := ((55296 <=? c) && (c <=? 56319))%N.
Definition is_low_surrogate (c : N) : bool := ((56320 <=? c) && (c <=? 57343))%N.

(** The character a backslash and [esc] stand for. *)
Definition backslash (esc : N) : option N :=
  if (esc =? 34)%N then Some 34%N
  else if (esc =? 92)%N then Some 92%N
  else if (esc =? 47)%N then Some 47%N
  else if (esc =? 98)%N then Some 8%N
  else if (esc =? 102)%N then Some 12%N
  else if (esc =? 110)%N then Some 10%N
  else if (esc =? 114)%N then Some 13%N
  else if (esc =? 116)%N then Some 9%N
  else None.

(** [scanstring], from just after the opening quote: the string read and
    the text after its closing quote. A control character ends the parse
    (strict mode); an escaped high surrogate followed by an escaped low
    surrogate is read as the one character they encode. *)
Fixpoint scanstring (s : pystr) : option (pystr * pystr) :=
  match s with
  | [] => None
  | c :: rest =>
      if (c =? 34)%N then Some ([], rest)
      else if (c =? 92)%N then
        match rest with
        | [] => None
        | esc :: rest1 =>
            if (esc =? 117)%N then
              match rest1 with
              | a :: b :: c1 :: d :: rest2 =>
                  uni ← decode_uXXXX a b c1 d;
                  match rest2 with
                  | b1 :: u1 :: a2 :: b2 :: c2 :: d2 :: rest3 =>
                      if is_high_surrogate uni && (b1 =? 92)%N && (u1 =? 117)%N then
                        uni2 ← decode_uXXXX a2 b2 c2 d2;
                        if is_low_surrogate uni2 then
                          let uni' := (65536 + N.lor (N.shiftl (uni - 55296) 10)
                                                     (uni2 - 56320))%N in
                          prod_map (cons uni') (λ r, r) <$> scanstring rest3
                        else prod_map (cons uni) (λ r, r) <$> scanstring rest2
                      else prod_map (cons uni) (λ r, r) <$> scanstring rest2
                  | _ => prod_map (cons uni) (λ r, r) <$> scanstring rest2
                  end
              | _ => None
              end
            else
              char ← backslash esc;
              prod_map (cons char) (λ r, r) <$> scanstring rest1
        end
      else if (c <? 32)%N then None
      else prod_map (cons c) (λ r, r) <$> scanstring rest
  end.

Fixpoint scan_digits (s : pystr) (acc : N) : N * pystr :=
  match s with
  | c :: s' => if is_digit c then scan_digits s' (10 * acc + (c - 48))%N else (acc, s)
  | [] => (acc, [])
  end.

(** The integer part of a number: an optional minus sign, then a lone zero
    or a run of digits that does not start with zero. *)
Definition match_integer (s : pystr) : option (Z * pystr) :=
  let '(negative, s1) :=
    match s with
    | c :: s' => if (c =? 45)%N then (true, s') else (false, s)
    | [] => (false, [])
    end in
  match s1 with
  | c :: s2 =>
      if (c =? 48)%N then Some (0, s2)
      else if is_digit c then
        let '(n, s3) := scan_digits s1 0 in
        Some (if negative : bool then - Z.of_N n else Z.of_N n, s3)
      else None
  | [] => None
  end.

(** A fraction or an exponent follows: the number is a float. *)
Definition float_follows (s : pystr) : bool :=
  match s with
  | c :: d :: s' =>
      ((c =? 46)%N && is_digit d)
      || (((c =? 101) || (c =? 69))%N
          && (is_digit d
              || (((d =? 43) || (d =? 45))%N
                  && match s' with d' :: _ => is_digit d' | [] => false end)))
  | _ => false
  end.

(** [dict(pairs)]: a key met again keeps its place and takes the new
    value. *)
Fixpoint dict_set (key : pystr) (value : pyobj) (items : list (pystr * pyobj))
    : list (pystr * pyobj) :=
  match items with
  | [] => [(key, value)]
  | (k, v) :: items' =>
      if bool_decide (k = key) then (k, value) :: items'
      else (k, v) :: dict_set key value items'
  end.
Definition dict_of_pairs (pairs : list (pystr * pyobj)) : list (pystr * pyobj) :=
  foldl (λ items kv, dict_set kv.1 kv.2 items) [] pairs.

(** The scanner. [fuel] bounds the nesting of calls; twice the length of the
    text is always enough. [array_items] reads the values of an array from
    its first value on, [object_items] the pairs of an object from just
    after the opening quote of its first key. *)
Fixpoint scan_once (fuel : nat) (s : pystr) : option (pyobj * pystr) :=
  match fuel with
  | O => None
  | S fuel' =>
      match s with
      | [] => None
      | c :: rest =>
          if (c =? 34)%N then
            prod_map OStr (λ r, r) <$> scanstring rest
          else if (c =? 123)%N then
            match skip_ws rest with
            | c' :: rest' =>
                if (c' =? 125)%N then Some (ODict [], rest')
                else if (c' =? 34)%N then
                  prod_map (λ pairs, ODict (dict_of_pairs pairs)) (λ r, r)
                    <$> object_items fuel' rest'
                else None
            | [] => None
            end
          else if (c =? 91)%N then
            match skip_ws rest with
            | c' :: rest' =>
                if (c' =? 93)%N then Some (OList [], rest')
                else prod_map OList (λ r, r) <$> array_items fuel' (c' :: rest')
            | [] => None
            end
          else
            '(z, rest') ← match_integer s;
            if float_follows rest' then None else Some (OInt z, rest')
      end
  end
with array_items (fuel : nat) (s : pystr) : option (list pyobj * pystr) :=
  match fuel with
  | O => None
  | S fuel' =>
      '(value, s1) ← scan_once fuel' s;
      match skip_ws s1 with
      | c :: s2 =>
          if (c =? 93)%N then Some ([value], s2)
          else if (c =? 44)%N then
            prod_map (cons value) (λ r, r) <$> array_items fuel' (skip_ws s2)
          else None
      | [] => None
      end
  end
with object_items (fuel : nat) (s : pystr) : option (list (pystr * pyobj) * pystr) :=
  match fuel with
  | O => None
  | S fuel' =>
      '(key, s1) ← scanstring s;
      match skip_ws s1 with
      | c :: s2 =>
          if (c =? 58)%N then
            '(value, s3) ← scan_once fuel' (skip_ws s2);
            match skip_ws s3 with
            | c' :: s4 =>
                if (c' =? 125)%N then Some ([(key, value)], s4)
                else if (c' =? 44)%N then
                  match skip_ws s4 with
                  | q :: s5 =>
                      if (q =? 34)%N then
                        prod_map (cons (key, value)) (λ r, r) <$> object_items fuel' s5
                      else None
                  | [] => None
                  end
                else None
            | [] => None
            end
          else None
      | [] => None
      end
  end.

(** [json.loads]: one value, with nothing but white space around it. *)
Definition json_loads (s : pystr) : option pyobj :=
  let s0 := skip_ws s in
  '(o, rest) ← scan_once (2 * length s0) s0;
  match skip_ws rest with
  | [] => Some o
  | _ => None
  end.

(** ** The vocabulary of reading back *)

Arguments is_digit : simpl never.
Arguments is_ws : simpl never.
Arguments is_high_surrogate : simpl never.
Arguments is_low_surrogate : simpl never.

(** *** Integers *)

(** The value of a run of digits read after [a]. *)
Definition digits_value (ds : pystr) (a : N) : N :=
  foldl (λ a c, 10 * a + (c - 48))%N a ds.

(** The text after a number does not go on with a digit. *)
Definition no_digit_ahead (rest : pystr) : Prop :=
  match rest with
  | [] => True
  | c :: _ => is_digit c = false
  end.

(** *** Strings *)

(** A text of code points in which no high surrogate is immediately
    followed by a low surrogate. *)
Fixpoint text_ok (s : pystr) : bool :=
  match s with
  | [] => true
  | c :: s' =>
      (c <? 1114112)%N
      && negb (is_high_surrogate c
               && match s' with c' :: _ => is_low_surrogate c' | [] => false end)
      && text_ok s'
  end.

(** The text ahead does not start with the escape of a low surrogate. *)
Definition no_low_escape_ahead (t : pystr) : Prop :=
  match t with
  | b1 :: u1 :: a2 :: b2 :: c2 :: d2 :: _ =>
      (b1 =? 92)%N && (u1 =? 117)%N = true →
      ∃ uni2, decode_uXXXX a2 b2 c2 d2 = Some uni2
              ∧ is_low_surrogate uni2 = false
  | _ => True
  end.

(** *** Values *)

(** Induction on objects, with the hypothesis available for every item of a
    list and every value of a dict. *)
Definition pyobj_induction (P : pyobj → Prop)
    (Hint : ∀ z, P (OInt z))
    (Hstr : ∀ s, P (OStr s))
    (Hlist : ∀ items, Forall P items → P (OList items))
    (Hdict : ∀ items, Forall (λ kv, P kv.2) items → P (ODict items)) :
  ∀ o, P o :=
  fix go (o : pyobj) : P o :=
    match o with
    | OInt z => Hint z
    | OStr s => Hstr s
    | OList items =>
        Hlist items
          ((fix all (l : list pyobj) : Forall P l :=
              match l with
              | [] => List.Forall_nil P
              | x :: l' => @List.Forall_cons _ P x l' (go x) (all l')
              end) items)
    | ODict items =>
        Hdict items
          ((fix all (l : list (pystr * pyobj)) : Forall (λ kv, P kv.2) l :=
              match l with
              | [] => List.Forall_nil _
              | (k, v) :: l' =>
                  @List.Forall_cons _ (λ kv, P kv.2) (k, v) l' (go v) (all l')
              end) items)
    end.

(** An object that is a Python object and can be read back: its strings
    and keys are texts without a split surrogate pair, and the keys of a
    dict are distinct. *)
Fixpoint wf_obj (o : pyobj) : Prop :=
  match o with
  | OInt _ => True
  | OStr s => text_ok s = true
  | OList items => foldr (λ x acc, wf_obj x ∧ acc) True items
  | ODict items =>
      NoDup (map fst items)
      ∧ foldr (λ kv acc, (text_ok kv.1 = true ∧ wf_obj kv.2) ∧ acc) True items
  end.

(** The first character of a value. *)
Definition value_start (c : N) : bool :=
  is_digit c || (c =? 45)%N || (c =? 34)%N || (c =? 91)%N || (c =? 123)%N.

(** What may follow a value in the export: nothing, a comma, a line break. *)
Definition delimited (rest : pystr) : Prop :=
  match rest with
  | [] => True
  | c :: _ => c = 44%N ∨ c = 10%N
  end.

(** An object whose encoding, at any nesting level and before any
    delimited text, is read back as the object itself. *)
Definition reads_back (o : pyobj) : Prop :=
  ∀ (level fuel : nat) (rest : pystr),
    delimited rest →
    (2 * length (json_encode level o ++ rest) ≤ fuel)%nat →
    scan_once fuel (json_encode level o ++ rest) = Some (o, rest).

(** *** Table records *)

(** The contents of the cells are texts without a split surrogate pair. *)
Definition contents_ok (table_data : list table_info) : Prop :=
  Forall (λ t, Forall (λ c, text_ok (content c) = true) (cells t)) table_data.

(** A table whose one cell holds a high surrogate followed by a low
    surrogate, and the table with the character the two encode. *)
Definition split_pair_table : list table_info :=
  [ {| page_number := 1;
       cells := [ {| row_index := 0; column_index := 0;
                     content := [55357; 56832]%N |} ] |} ].
Definition joined_pair_table : list table_info :=
  [ {| page_number := 1;
       cells := [ {| row_index := 0; column_index := 0;
                     content := [128512]%N |} ] |} ].

(** A table with an empty cell, a cell of plain text with a quote and a
    line break, and a cell beyond the basic plane. *)
Definition plain_tables : list table_info :=
  [ {| page_number := 3;
       cells := [ {| row_index := 0; column_index := 0; content := [] |};
                  {| row_index := 0; column_index := 1;
                     content := [97; 34; 10; 233]%N |};
                  {| row_index := -1; column_index := 12;
                     content := [128512; 55357]%N |} ] |};
    {| page_number := 4; cells := [] |} ].

(** * Further vocabulary *)

(** ** More concrete inputs *)

(** A run with no organization and nothing configured. *)
Definition no_organization_run : addon :=
  {| data := ∅;
     document_count := PInt 1;
     org_id := PNone;
     documents := [ {| id := PInt 1; page_count := 4 |} ];
     billing := λ _, Charged;
     layout := no_tables;
     fails := λ _, None |}.

(** A run whose end page is below its start page. *)
Definition reversed_range_run : addon :=
  addon_of {[ "start_page" := PInt 4; "end_page" := PInt 2 ]}
           [ {| id := PInt 7; page_count := 9 |} ].

(** A run over a search that finds no document, nothing configured. *)
Definition empty_search_run : addon :=
  {| data := ∅;
     document_count := PInt 0;
     org_id := PInt 1;
     documents := [];
     billing := λ _, Charged;
     layout := no_tables;
     fails := λ _, None |}.

(** A run whose charge is refused. *)
Definition refused_charge_run : addon :=
  {| data := {[ "end_page" := PInt 2 ]};
     document_count := PInt 1;
     org_id := PInt 1;
     documents := [ {| id := PInt 1; page_count := 5 |} ];
     billing := λ _, BillingAPIError;
     layout := no_tables;
     fails := λ _, None |}.

(** ** Row indices that count from the end *)

(** The row that index [i] designates in a grid of [n] rows: a negative
    index counts from the last row. *)
Definition wrapped_row (n i : Z) : Z := if bool_decide (i < 0) then n + i else i.

(** A table on page 2 with three rows, whose second cell counts its row
    from the end. *)
Definition wrapping_table : table_info :=
  {| page_number := 2;
     cells := [ {| row_index := 0; column_index := 0; content := lit "a" |};
                {| row_index := -1; column_index := 0; content := lit "z" |};
                {| row_index := 2; column_index := 1; content := lit "y" |};
                {| row_index := -3; column_index := 1; content := lit "b" |} ] |}.

(** A table whose second cell lies before the first row. *)
Definition overshooting_table : table_info :=
  {| page_number := 2;
     cells := [ {| row_index := 1; column_index := 0; content := lit "a" |};
                {| row_index := -3; column_index := 0; content := lit "b" |} ] |}.

(** ** The text of the structured export *)

(** A line break or a printable ASCII character. *)
Definition plain_char (c : N) : bool :=
  ((c =? 10) || ((32 <=? c) && (c <=? 126)))%N.

(** ** File names *)

(** The names [main] gives to the image files of a page and to the export
    file of a document. *)
Definition gif_filename (doc : document) (p : Z) : pystr :=
  py_str (id doc) ++ lit "-page" ++ str_of_int p ++ lit ".gif".
Definition png_filename (doc : document) (p : Z) : pystr :=
  py_str (id doc) ++ lit "-page" ++ str_of_int p ++ lit ".png".
Definition json_path (doc : document) : pystr :=
  lit "tables-" ++ py_str (id doc) ++ lit ".json".
Definition csv_path (doc : document) : pystr :=
  lit "tables-" ++ py_str (id doc) ++ lit ".csv".


(** ** Reading runs, further *)

(** The entries written to the archive from memory: their names and
    texts, in order. *)
Definition archive_texts (t : list event) : list (pystr * pystr) :=
  omap (λ e, match e with EZipWritestr path text => Some (path, text) | _ => None end) t.

(** The csv files saved, and the files copied into the archive, in order. *)
Definition saved_csv (t : list event) : list (pystr * list (list pyval)) :=
  omap (λ e, match e with ESaveToCsv rows path => Some (path, rows) | _ => None end) t.
Definition archive_copies (t : list event) : list pystr :=
  omap (λ e, match e with EZipWrite path => Some path | _ => None end) t.

(** What the loop over the documents may do. *)
Definition document_event (e : event) : bool :=
  match e with
  | EDownloadImage _ _ _ | EConvertToPng _ _ | EAnalyze _ _ _
  | EZipWritestr _ _ | ESaveToCsv _ _ | EZipWrite _ => true
  | _ => false
  end.

(** A service that finds, on every page, a table with one cell and a table
    with none. *)
Definition one_empty_table (doc : pyval) (p : Z) : Service.analyze_result :=
  {| Service.tables :=
       [ {| Service.cells := [ {| Service.row_index := 0;
                                  Service.column_index := 0;
                                  Service.content := lit "x" |} ] |};
         {| Service.cells := [] |} ] |}.

(** A run whose output format is neither json nor csv. *)
Definition unknown_format_run : addon :=
  {| data := {[ "end_page" := PInt 2; "output_format" := PStr (lit "xml") ]};
     document_count := PInt 1;
     org_id := PInt 1;
     documents := [ {| id := PInt 5; page_count := 2 |} ];
     billing := λ _, Charged;
     layout := one_empty_table;
     fails := λ _, None |}.

(** A json run over two documents. *)
Definition json_run : addon :=
  {| data := {[ "start_page" := PInt 2; "end_page" := PInt 3 ]};
     document_count := PInt 2;
     org_id := PInt 1;
     documents := [ {| id := PInt 5; page_count := 2 |};
                    {| id := PInt 6; page_count := 7 |} ];
     billing := λ _, Charged;
     layout := one_empty_table;
     fails := λ _, None |}.

(** What a csv run does for a document whose conversion gives [rows]. *)
Definition csv_document_events (s e : Z) (doc : document)
    (rows : list (list pyval)) : list event :=
  concat (map (page_events doc) (pages_in_range s e doc))
  ++ [ESaveToCsv rows (csv_path doc); EZipWrite (csv_path doc)].

(** A service that finds one table of two cells on every page. *)
Definition one_table (doc : pyval) (p : Z) : Service.analyze_result :=
  {| Service.tables :=
       [ {| Service.cells := [ {| Service.row_index := 0;
                                  Service.column_index := 0;
                                  Service.content := lit "x" |};
                               {| Service.row_index := 1;
                                  Service.column_index := 0;
                                  Service.content := lit "y" |} ] |} ] |}.

(** A csv run over two documents, the second too short to have a page in
    range. *)
Definition csv_run : addon :=
  {| data := {[ "start_page" := PInt 2; "end_page" := PInt 2;
                "output_format" := PStr (lit "csv") ]};
     document_count := PInt 2;
     org_id := PInt 1;
     documents := [ {| id := PInt 5; page_count := 2 |};
                    {| id := PInt 6; page_count := 1 |} ];
     billing := λ _, Charged;
     layout := one_table;
     fails := λ _, None |}.

(** ** The work of a run *)

(** What a run in which no call fails does for a document: its pages, then
    the export. *)
Definition document_events (self : addon) (fmt : pyval) (s e : Z) (doc : document)
    : list event :=
  concat (map (page_events doc) (pages_in_range s e doc))
  ++ trace (export_document fmt doc (tables_of_pages self doc (pages_in_range s e doc))).

(** The pages in range of the documents, document after document. *)
Definition pages_of_run (s e : Z) (docs : list document) : list (pyval * Z) :=
  concat (map (λ doc, map (pair (id doc)) (pages_in_range s e doc)) docs).

(** ** Calls that fail *)

(** The same instance in an environment where no call fails. *)
Definition calm (self : addon) : addon :=
  {| data := data self;
     document_count := document_count self;
     org_id := org_id self;
     documents := documents self;
     billing := billing self;
     layout := layout self;
     fails := λ _, None |}.

(** No call of a trace fails. *)
Definition no_failure (self : addon) (t : list event) : Prop :=
  Forall (λ ev, fails self ev = None) t.

(** [r] runs like [r'] until a call fails: either the two are the same
    run, or [r] ends in the exception of a call that fails, and what it has
    done until then, that call included, is what [r'] does first. *)
Definition runs_like (self : addon) {A} (r r' : io A) : Prop :=
  r = r'
  ∨ ∃ t ev exn, r = (t ++ [ev], Raise exn)
                ∧ fails self ev = Some exn
                ∧ (t ++ [ev]) `prefix_of` trace r'.

(** ** The gate in the words of the specification *)

(** The conditions the specification gives for a halt; the first one is
    that no documents are selected. *)
Definition spec_halt_condition (self : addon) (s e : Z) : Prop :=
  documents self = []
  ∨ truthy (org_id self) = false
  ∨ (billing self (PInt (run_cost self s e)) = InsufficientCredits
     ∨ billing self (PInt (run_cost self s e)) = BillingAPIError)
  ∨ e < s
  ∨ s < 1.

(** ** Runs in which a call fails *)

(** The run of [two_documents_run] with no key in the environment: building
    the credential of the analysis service raises [TypeError]. *)
Definition no_key_run : addon :=
  {| data := data two_documents_run;
     document_count := document_count two_documents_run;
     org_id := org_id two_documents_run;
     documents := documents two_documents_run;
     billing := billing two_documents_run;
     layout := layout two_documents_run;
     fails := λ ev, match ev with
                    | EAuthenticate => Some TypeError
                    | _ => None
                    end |}.

(** The same run when the download of the second page fails. *)
Definition lost_page_run : addon :=
  {| data := data two_documents_run;
     document_count := document_count two_documents_run;
     org_id := org_id two_documents_run;
     documents := documents two_documents_run;
     billing := billing two_documents_run;
     layout := layout two_documents_run;
     fails := λ ev, match ev with
                    | EDownloadImage _ 2 _ => Some (OtherError "ConnectionError")
                    | _ => None
                    end |}.

(** A service that finds, on every page, one table of one cell whose
    content is a lone surrogate. *)
Definition surrogate_table (doc : pyval) (p : Z) : Service.analyze_result :=
  {| Service.tables :=
       [ {| Service.cells := [ {| Service.row_index := 0;
                                  Service.column_index := 0;
                                  Service.content := [55357%N] |} ] |} ] |}.

(** A csv run over a page with such a table. *)
Definition surrogate_csv_run : addon :=
  {| data := {[ "end_page" := PInt 1; "output_format" := PStr (lit "csv") ]};
     document_count := PInt 1;
     org_id := PInt 1;
     documents := [ {| id := PInt 5; page_count := 2 |} ];
     billing := λ _, Charged;
     layout := surrogate_table;
     fails := λ _, None |}.

(** * Properties *)

(** ** Laws of the run monad *)

Lemma io_bind_return {A B} (t : list event) (a : A) (f : A → io B) :
  (t, Return a) ≫= f = (t ++ (f a).1, (f a).2).
Proof. reflexivity. Qed.

Lemma io_bind_raise {A B} (t : list event) (e : exn) (f : A → io B) :
  (t, Raise e) ≫= f = (t, Raise e).
Proof. reflexivity. Qed.

Lemma io_bind_exit {A B} (t : list event) (c : Z) (f : A → io B) :
  (t, SysExit c) ≫= f = (t, SysExit c).
Proof. reflexivity. Qed.

Lemma lift_bind_return {A B} (a : A) (f : A → io B) :
  lift (Return a) ≫= f = f a.
Proof. unfold lift. rewrite io_bind_return. simpl. by destruct (f a). Qed.

(** ** The cost estimator *)

Lemma calculate_cost_step_eq (self : addon) (s e : Z) (doc : document) (acc : Z) :
  dict_get_default (data self) "start_page" (PInt 1) = PInt s →
  data self !! "end_page" = Some (PInt e) →
  calculate_cost_step self doc (PInt acc)
  = ([], Return (PInt (acc + pages_costed s e doc))).
Proof.
  intros Hs He. unfold calculate_cost_step, dict_get, pages_costed.
  rewrite Hs, He. cbn.
  destruct (Z.leb_spec e (page_count doc)); cbn; do 3 f_equal; lia.
Qed.

Lemma calculate_cost_loop (self : addon) (s e : Z) (docs : list document) (acc : Z) :
  dict_get_default (data self) "start_page" (PInt 1) = PInt s →
  data self !! "end_page" = Some (PInt e) →
  for_each docs (calculate_cost_step self) (PInt acc)
  = ([], Return (PInt (acc + Zsum (map (pages_costed s e) docs)))).
Proof.
  intros Hs He. revert acc.
  induction docs as [|doc docs IH]; intros acc.
  - cbn. rewrite Z.add_0_r. reflexivity.
  - cbn [for_each]. rewrite (calculate_cost_step_eq self s e doc acc Hs He).
    rewrite io_bind_return, IH. cbn. unfold Zsum. do 3 f_equal. lia.
Qed.

Lemma calculate_cost_eq (self : addon) (s e : Z) (docs : list document) :
  dict_get_default (data self) "start_page" (PInt 1) = PInt s →
  data self !! "end_page" = Some (PInt e) →
  calculate_cost self docs
  = ([EPrint (PInt (Zsum (map (pages_costed s e) docs) * 7))],
     Return (PInt (Zsum (map (pages_costed s e) docs) * 7))).
Proof.
  intros Hs He. unfold calculate_cost.
  rewrite (calculate_cost_loop self s e docs 0 Hs He).
  rewrite io_bind_return. simpl. reflexivity.
Qed.

(** Whatever the documents, as long as there is one, the cost estimate
    raises when the configuration has no [end_page]. *)
Lemma calculate_cost_without_end_page (self : addon) (doc : document)
    (docs : list document) :
  data self !! "end_page" = None →
  calculate_cost self (doc :: docs) = ([], Raise TypeError).
Proof.
  intros He.
  assert (Hstep : ∀ total, calculate_cost_step self doc total = ([], Raise TypeError)).
  { intros total. unfold calculate_cost_step, dict_get. by rewrite He. }
  unfold calculate_cost. cbn [for_each]. by rewrite Hstep.
Qed.

(** C1. With a start page [s] (configured, or 1 when the key is absent) and
    a configured end page [e], [calculate_cost] returns, and what it returns
    is the sum over the documents of [min(e, page_count) - s + 1], times 7.
    The only thing it does besides is print that number. A document shorter
    than [s - 1] pages contributes a negative number of pages. *)
Theorem calculate_cost_formula (self : addon) (s e : Z) (docs : list document) :
  dict_get_default (data self) "start_page" (PInt 1) = PInt s →
  data self !! "end_page" = Some (PInt e) →
  outcome (calculate_cost self docs)
  = Return (PInt (Zsum (map (λ doc, Z.min e (page_count doc) - s + 1) docs) * 7))
  ∧ trace (calculate_cost self docs)
    = [EPrint (PInt (Zsum (map (λ doc, Z.min e (page_count doc) - s + 1) docs) * 7))].
Proof.
  intros Hs He. rewrite (calculate_cost_eq self s e docs Hs He). by split.
Qed.

(** A loop that appends one item per element builds the image of the
    sequence, after what was there. *)
(** ** The table result shaper *)

Lemma foldl_append_map {A B} (f : A → B) (xs : list A) (acc : list B) :
  foldl (λ acc x, acc ++ [f x]) acc xs = acc ++ map f xs.
Proof.
  revert acc. induction xs as [|x xs IH]; intros acc; simpl.
  - by rewrite app_nil_r.
  - rewrite IH. by rewrite <- app_assoc.
Qed.

Lemma get_table_data_map (result : Service.analyze_result) (p : Z) :
  get_table_data result p
  = map (λ table, {| page_number := p;
                     cells := map shape_cell (Service.cells table) |})
        (Service.tables result).
Proof.
  unfold get_table_data.
  rewrite (foldl_append_map
             (λ table, {| page_number := p;
                          cells := foldl (λ cells cell, cells ++ [shape_cell cell])
                                         [] (Service.cells table) |})).
  simpl. apply map_ext. intros table.
  by rewrite foldl_append_map.
Qed.

(** C6. [get_table_data] is a function of the service result and the page
    number alone. For a result with N tables it returns N records, the i-th
    made from the i-th table: it carries the page number given, and as many
    cell records as the table has cells, the j-th holding the row index, the
    column index and the content of the j-th cell. *)
Theorem get_table_data_shape (result : Service.analyze_result) (p : Z) :
  length (get_table_data result p) = length (Service.tables result)
  ∧ ∀ (i : nat) (table : Service.table),
      Service.tables result !! i = Some table →
      ∃ record,
        get_table_data result p !! i = Some record
        ∧ page_number record = p
        ∧ length (cells record) = length (Service.cells table)
        ∧ ∀ (j : nat) (cell : Service.cell),
            Service.cells table !! j = Some cell →
            cells record !! j
            = Some {| row_index := Service.row_index cell;
                      column_index := Service.column_index cell;
                      content := Service.content cell |}.
Proof.
  rewrite get_table_data_map. split.
  - by rewrite length_map.
  - intros i table Hi.
    eexists. split.
    + rewrite list_lookup_fmap, Hi. reflexivity.
    + simpl. split; [reflexivity|]. split; [by rewrite length_map|].
      intros j cell Hj. by rewrite list_lookup_fmap, Hj.
Qed.

(** ** The tabular export *)

Lemma foldl_max_le (xs : list Z) (x : Z) :
  x ≤ foldl Z.max x xs ∧ Forall (λ y, y ≤ foldl Z.max x xs) xs.
Proof.
  revert x. induction xs as [|y xs IH]; intros x; simpl.
  - split; [lia | constructor].
  - destruct (IH (Z.max x y)) as [H1 H2]. split; [lia|].
    constructor; [lia | exact H2].
Qed.

Lemma foldl_max_elem (xs : list Z) (x : Z) :
  foldl Z.max x xs ∈ x :: xs.
Proof.
  revert x. induction xs as [|y xs IH]; intros x; simpl.
  - set_solver.
  - specialize (IH (Z.max x y)).
    apply elem_of_cons in IH as [IH | IH].
    + rewrite IH. destruct (Z.max_spec x y) as [[_ ->] | [_ ->]]; set_solver.
    + set_solver.
Qed.

Lemma py_max_is_max (t : table_info) (r : Z) :
  max_row_index_is t r → py_max (map row_index (cells t)) = Return r.
Proof.
  intros [(c & Hc & Hr) Hle].
  destruct (cells t) as [|c0 cs] eqn:E; [by apply elem_of_nil in Hc|].
  simpl. f_equal.
  pose proof (foldl_max_le (map row_index cs) (row_index c0)) as [H1 H2].
  pose proof (foldl_max_elem (map row_index cs) (row_index c0)) as H3.
  change (row_index c0 :: map row_index cs) with (map row_index (c0 :: cs)) in H3.
  apply list_elem_of_fmap in H3 as (c1 & Hc1 & Hin1).
  rewrite Forall_forall in Hle.
  assert (row_index c1 ≤ r) by (by apply Hle).
  assert (r ≤ foldl Z.max (row_index c0) (map row_index cs)).
  { subst r. apply elem_of_cons in Hc as [-> | Hc]; [exact H1|].
    rewrite Forall_forall in H2. apply H2.
    apply list_elem_of_fmap. eauto. }
  lia.
Qed.

Lemma py_index_in_range (len : nat) (i : Z) :
  0 ≤ i < Z.of_nat len → py_index len i = Return (Z.to_nat i).
Proof. intros H. unfold py_index. by rewrite bool_decide_eq_true_2. Qed.

Lemma place_cells_rows (cells : list cell_info) (rows : list (list pyval)) :
  Forall (λ c, 0 ≤ row_index c < Z.of_nat (length rows)) cells →
  place_cells cells rows
  = Return (imap (λ k row, row ++ row_contents cells (Z.of_nat k)) rows).
Proof.
  revert rows. induction cells as [|c cells IH]; intros rows Hall.
  - simpl. f_equal. apply list_eq. intros k.
    rewrite list_lookup_imap. destruct (rows !! k); simpl; [|done].
    by rewrite app_nil_r.
  - apply Forall_cons in Hall as [Hc Hall].
    cbn [place_cells]. rewrite py_index_in_range by exact Hc. cbn.
    rewrite IH by (by rewrite length_alter).
    f_equal. apply list_eq. intros k.
    rewrite !list_lookup_imap.
    unfold row_contents.
    destruct (decide (Z.to_nat (row_index c) = k)) as [<- | Hne].
    + rewrite list_lookup_alter_eq.
      destruct (rows !! Z.to_nat (row_index c)) as [row|]; simpl; [|done].
      rewrite decide_True by lia. simpl. by rewrite <- app_assoc.
    + rewrite list_lookup_alter_ne by done.
      destruct (rows !! k) as [row|]; simpl; [|done].
      by rewrite decide_False by lia.
Qed.

Lemma placed_rows_eq (cells : list cell_info) (n : nat) :
  imap (λ k row, row ++ row_contents cells (Z.of_nat k)) (replicate n [])
  = map (row_contents cells) (seqZ 0 (Z.of_nat n)).
Proof.
  apply list_eq. intros k.
  rewrite list_lookup_imap, list_lookup_fmap.
  destruct (decide (k < n)%nat) as [Hlt | Hge].
  - rewrite lookup_replicate_2 by done.
    rewrite lookup_seqZ_lt by lia. reflexivity.
  - rewrite (proj1 (lookup_replicate_None n [] k)) by lia.
    rewrite lookup_seqZ_ge by lia. reflexivity.
Qed.

Lemma convert_to_csv_step_eq (t : table_info) (r : Z) (csv_data : list (list pyval)) :
  max_row_index_is t r → zero_based t →
  convert_to_csv_step t csv_data = Return (csv_data ++ csv_block t r).
Proof.
  intros Hmax Hzero. unfold convert_to_csv_step.
  rewrite (py_max_is_max t r Hmax). cbn.
  assert (Hr : 0 ≤ r).
  { destruct Hmax as [(c & Hc & <-) _].
    unfold zero_based in Hzero. rewrite Forall_forall in Hzero. by apply Hzero. }
  rewrite place_cells_rows.
  - cbn. f_equal. rewrite placed_rows_eq.
    rewrite (foldl_append_map (λ row, row)), map_id.
    rewrite Z2Nat.id by lia. unfold csv_block.
    by rewrite <- !app_assoc.
  - rewrite length_replicate. destruct Hmax as [_ Hle].
    unfold zero_based in Hzero. rewrite Forall_forall in *.
    intros c Hc. specialize (Hle c Hc). specialize (Hzero c Hc). lia.
Qed.

Lemma convert_to_csv_loop (table_data : list table_info) (rs : list Z)
    (csv_data : list (list pyval)) :
  Forall2 (λ t r, max_row_index_is t r ∧ zero_based t) table_data rs →
  for_in table_data convert_to_csv_step csv_data
  = Return (csv_data ++ concat (zip_with csv_block table_data rs)).
Proof.
  intros Hall. revert csv_data.
  induction Hall as [|t r td rs' [Hmax Hzero] _ IH]; intros csv_data.
  - cbn. by rewrite app_nil_r.
  - cbn [for_in]. rewrite (convert_to_csv_step_eq t r csv_data Hmax Hzero).
    cbn. rewrite IH. by rewrite <- app_assoc.
Qed.

Lemma max_row_index_is_max (t : table_info) :
  cells t ≠ [] → zero_based t → max_row_index_is t (max_row_index t).
Proof.
  unfold max_row_index_is, max_row_index, zero_based.
  induction (cells t) as [|c cs IH]; intros Hne Hzero; [done|].
  apply Forall_cons in Hzero as [Hc Hzero].
  destruct cs as [|c' cs'].
  - simpl. split.
    + exists c. split; [apply elem_of_cons; by left | lia].
    + constructor; [lia | constructor].
  - destruct (IH ltac:(done) Hzero) as [(c1 & Hc1 & Hr1) Hle].
    cbn [map foldr] in *. split.
    + destruct (Z.max_spec (row_index c) (Z.max (row_index c') (foldr Z.max 0 (map row_index cs'))))
        as [[_ ->] | [_ ->]].
      * exists c1. split; [apply elem_of_cons; by right | done].
      * exists c. split; [apply elem_of_cons; by left | done].
    + constructor; [lia|].
      eapply Forall_impl; [exact Hle|]. simpl. intros; lia.
Qed.

Lemma place_cells_columns (f : cell_info → Z) (cells : list cell_info)
    (rows : list (list pyval)) :
  place_cells (map (λ c, {| row_index := row_index c;
                            column_index := f c;
                            content := content c |}) cells) rows
  = place_cells cells rows.
Proof.
  revert rows. induction cells as [|c cells IH]; intros rows; [done|].
  cbn. destruct (py_index (length rows) (row_index c)); cbn; [apply IH | done..].
Qed.

Lemma convert_to_csv_step_columns (f : cell_info → Z) (t : table_info)
    (csv_data : list (list pyval)) :
  convert_to_csv_step (with_columns f t) csv_data = convert_to_csv_step t csv_data.
Proof.
  unfold convert_to_csv_step, with_columns. cbn.
  rewrite map_map. cbn.
  destruct (py_max (map row_index (cells t))); cbn; [|done..].
  rewrite place_cells_columns. reflexivity.
Qed.

Lemma convert_to_csv_columns (f : cell_info → Z) (table_data : list table_info) :
  convert_to_csv (map (with_columns f) table_data) = convert_to_csv table_data.
Proof.
  unfold convert_to_csv. generalize (@nil (list pyval)) as csv_data.
  induction table_data as [|t td IH]; intros csv_data; [done|].
  cbn [map for_in]. rewrite convert_to_csv_step_columns.
  destruct (convert_to_csv_step t csv_data); cbn; [apply IH | done..].
Qed.

Lemma Forall2_max_row_index (table_data : list table_info) :
  Forall (λ t, cells t ≠ [] ∧ zero_based t) table_data →
  Forall2 (λ t r, max_row_index_is t r ∧ zero_based t)
          table_data (map max_row_index table_data).
Proof.
  induction 1 as [|t td [Hne Hzero] _ IH]; cbn; constructor; [|exact IH].
  split; [by apply max_row_index_is_max | done].
Qed.

(** C3. In the grid [convert_to_csv] returns for tables that have a cell and
    0-based row indices, row [r] of a table holds the contents of exactly
    the cells whose row index is [r], in the order in which the cells come
    in the record. The column index plays no part: replacing the column
    indices by any others gives the same grid. *)
Theorem convert_to_csv_rows_by_arrival (table_data : list table_info) :
  Forall (λ t, cells t ≠ [] ∧ zero_based t) table_data →
  convert_to_csv table_data
  = Return (concat (map (λ t,
      [[PStr (lit "Page Number:"); PInt (page_number t)]]
      ++ map (λ r, map (λ c, PStr (content c))
                       (filter (λ c, row_index c = r) (cells t)))
             (seqZ 0 (max_row_index t + 1))
      ++ [[]; []]) table_data))
  ∧ ∀ f : cell_info → Z,
      convert_to_csv (map (with_columns f) table_data)
      = convert_to_csv table_data.
Proof.
  intros Hwf. split; [|intros f; apply convert_to_csv_columns].
  unfold convert_to_csv.
  rewrite (convert_to_csv_loop table_data (map max_row_index table_data) [])
    by (by apply Forall2_max_row_index).
  cbn. do 2 f_equal.
  clear Hwf. induction table_data as [|t td IH]; [done|].
  cbn. by rewrite IH.
Qed.

(** C7. A table whose greatest row index is [r] (row indices 0-based) gives
    one block of the grid: the row ["Page Number:", page_number], then
    [r + 1] content rows, then two empty rows, [r + 4] rows in all; the grid
    is the blocks of the tables one after the other, in the order of the
    tables. *)
Theorem convert_to_csv_blocks (table_data : list table_info) (rs : list Z) :
  Forall2 (λ t r, max_row_index_is t r ∧ zero_based t) table_data rs →
  ∃ blocks : list (list (list pyval)),
    convert_to_csv table_data = Return (concat blocks)
    ∧ Forall3 (λ t r block,
                 ∃ rows,
                   block = [[PStr (lit "Page Number:"); PInt (page_number t)]]
                           ++ rows ++ [[]; []]
                   ∧ length rows = Z.to_nat (r + 1)
                   ∧ length block = Z.to_nat (r + 4))
              table_data rs blocks.
Proof.
  intros Hall. exists (zip_with csv_block table_data rs). split.
  - unfold convert_to_csv. by rewrite (convert_to_csv_loop table_data rs []).
  - induction Hall as [|t r td rs' [Hmax Hzero] _ IH]; cbn; constructor; [|exact IH].
    assert (Hr : 0 ≤ r).
    { destruct Hmax as [(c & Hc & <-) _].
      unfold zero_based in Hzero. rewrite Forall_forall in Hzero. by apply Hzero. }
    exists (map (row_contents (cells t)) (seqZ 0 (r + 1))).
    split; [reflexivity|]. split.
    + by rewrite length_map, length_seqZ.
    + unfold csv_block. cbn. rewrite length_app, length_map, length_seqZ. cbn. lia.
Qed.

(** ** The gates of a run *)

Lemma validate_eq (self : addon) (s e : Z) :
  dict_get_default (data self) "start_page" (PInt 1) = PInt s →
  data self !! "end_page" = Some (PInt e) →
  validate self
  = if bool_decide (document_count self = PNone) then
      ([ESetMessage (lit ("It looks like no documents were selected. Search for some or " ++
                          "select them and run again."))], SysExit 0)
    else if negb (truthy (org_id self)) then
      ([ESetMessage (lit "No organization to charge.")], SysExit 0)
    else
      ([EPrint (PInt (run_cost self s e)); EChargeCredits (PInt (run_cost self s e))],
       Return (bool_decide (billing self (PInt (run_cost self s e)) = Charged))).
Proof.
  intros Hs He. unfold validate.
  rewrite (calculate_cost_eq self s e (documents self) Hs He).
  fold (run_cost self s e).
  destruct (bool_decide (document_count self = PNone)); [reflexivity|].
  destruct (truthy (org_id self)); [|reflexivity].
  cbn. unfold charge_credits.
  destruct (billing self (PInt (run_cost self s e))); reflexivity.
Qed.

Lemma main_eq (self : addon) (s e : Z) :
  dict_get_default (data self) "start_page" (PInt 1) = PInt s →
  data self !! "end_page" = Some (PInt e) →
  main self
  = let charge := [EPrint (PInt (run_cost self s e));
                   EChargeCredits (PInt (run_cost self s e))] in
    if bool_decide (document_count self = PNone) then
      ([ESetMessage (lit ("It looks like no documents were selected. Search for some or " ++
                          "select them and run again."))], SysExit 0)
    else if negb (truthy (org_id self)) then
      ([ESetMessage (lit "No organization to charge.")], SysExit 0)
    else if negb (bool_decide (billing self (PInt (run_cost self s e)) = Charged)) then
      (charge ++ [ESetMessage (lit "You do not have sufficient AI credits to run this Add-On on this document set")],
       SysExit 0)
    else if e <? s then
      (charge ++ [ESetMessage (lit "The end page you provided is smaller than the start page, try again")],
       SysExit 0)
    else if s <? 1 then
      (charge ++ [ESetMessage (lit "Your start page is less than 1, please try again")],
       SysExit 0)
    else
      let rest := main_analysis self
                    (dict_get_default (data self) "output_format" (PStr (lit "json")))
                    (PInt s) (PInt e) in
      (charge ++ trace rest, outcome rest).
Proof.
  intros Hs He.
  assert (He' : dict_get_default (data self) "end_page" (PInt 1) = PInt e)
    by (unfold dict_get_default; by rewrite He).
  unfold main. rewrite (validate_eq self s e Hs He), Hs, He'.
  destruct (bool_decide (document_count self = PNone)); [reflexivity|].
  destruct (truthy (org_id self)); [|reflexivity].
  destruct (bool_decide (billing self (PInt (run_cost self s e)) = Charged));
    [|reflexivity].
  cbn [negb]. rewrite io_bind_return. cbn [when negb py_lt].
  destruct (e <? s); [reflexivity|].
  destruct (s <? 1); reflexivity.
Qed.

(** The same when the configuration has no [end_page] and there is no
    document: the cost estimate never reads the key then, and [main] reads
    it with the default 1. *)
Lemma validate_eq_read (self : addon) (s e : Z) :
  dict_get_default (data self) "start_page" (PInt 1) = PInt s →
  dict_get_default (data self) "end_page" (PInt 1) = PInt e →
  (data self !! "end_page" = None → documents self = []) →
  validate self
  = if bool_decide (document_count self = PNone) then
      ([ESetMessage (lit ("It looks like no documents were selected. Search for some or " ++
                          "select them and run again."))], SysExit 0)
    else if negb (truthy (org_id self)) then
      ([ESetMessage (lit "No organization to charge.")], SysExit 0)
    else
      ([EPrint (PInt (run_cost self s e)); EChargeCredits (PInt (run_cost self s e))],
       Return (bool_decide (billing self (PInt (run_cost self s e)) = Charged))).
Proof.
  intros Hs He Habsent.
  destruct (data self !! "end_page") as [v|] eqn:Hkey.
  { apply validate_eq; [exact Hs|].
    unfold dict_get_default in He. rewrite Hkey in He. cbn in He. by subst v. }
  specialize (Habsent eq_refl).
  assert (Hcost : run_cost self s e = 0) by (unfold run_cost; by rewrite Habsent).
  rewrite Hcost. unfold validate, calculate_cost. rewrite Habsent.
  destruct (bool_decide (document_count self = PNone)); [reflexivity|].
  destruct (truthy (org_id self)); [|reflexivity].
  cbn. unfold charge_credits.
  change (0 * 7) with 0.
  destruct (billing self (PInt 0)); reflexivity.
Qed.

Lemma main_eq_read (self : addon) (s e : Z) :
  dict_get_default (data self) "start_page" (PInt 1) = PInt s →
  dict_get_default (data self) "end_page" (PInt 1) = PInt e →
  (data self !! "end_page" = None → documents self = []) →
  main self
  = let charge := [EPrint (PInt (run_cost self s e));
                   EChargeCredits (PInt (run_cost self s e))] in
    if bool_decide (document_count self = PNone) then
      ([ESetMessage (lit ("It looks like no documents were selected. Search for some or " ++
                          "select them and run again."))], SysExit 0)
    else if negb (truthy (org_id self)) then
      ([ESetMessage (lit "No organization to charge.")], SysExit 0)
    else if negb (bool_decide (billing self (PInt (run_cost self s e)) = Charged)) then
      (charge ++ [ESetMessage (lit "You do not have sufficient AI credits to run this Add-On on this document set")],
       SysExit 0)
    else if e <? s then
      (charge ++ [ESetMessage (lit "The end page you provided is smaller than the start page, try again")],
       SysExit 0)
    else if s <? 1 then
      (charge ++ [ESetMessage (lit "Your start page is less than 1, please try again")],
       SysExit 0)
    else
      let rest := main_analysis self
                    (dict_get_default (data self) "output_format" (PStr (lit "json")))
                    (PInt s) (PInt e) in
      (charge ++ trace rest, outcome rest).
Proof.
  intros Hs He Habsent.
  unfold main. rewrite (validate_eq_read self s e Hs He Habsent), Hs, He.
  destruct (bool_decide (document_count self = PNone)); [reflexivity|].
  destruct (truthy (org_id self)); [|reflexivity].
  destruct (bool_decide (billing self (PInt (run_cost self s e)) = Charged));
    [|reflexivity].
  cbn [negb]. rewrite io_bind_return. cbn [when negb py_lt].
  destruct (e <? s); [reflexivity|].
  destruct (s <? 1); reflexivity.
Qed.

(** With a document and no [end_page] the run never gets to the analysis. *)
Lemma main_no_end_page (self : addon) :
  data self !! "end_page" = None →
  documents self ≠ [] →
  outcome (main self) ≠ Return tt
  ∧ analyzed_pages (trace (main self)) = []
  ∧ EAuthenticate ∉ trace (main self).
Proof.
  intros He Hdocs.
  destruct (documents self) as [|doc docs] eqn:Edocs; [done|].
  unfold main, validate. rewrite Edocs.
  rewrite (calculate_cost_without_end_page self doc docs He).
  destruct (bool_decide (document_count self = PNone)).
  { cbn. split; [done|]. split; [done|].
    rewrite elem_of_cons, elem_of_nil. intros [? | []]. discriminate. }
  destruct (truthy (org_id self)).
  - cbn. split; [done|]. split; [done|]. apply not_elem_of_nil.
  - cbn. split; [done|]. split; [done|].
    rewrite elem_of_cons, elem_of_nil. intros [? | []]. discriminate.
Qed.

(** Past the gates the first call is the authentication. *)
Lemma main_analysis_trace (self : addon) (fmt start_page end_page : pyval) :
  ∃ t, trace (main_analysis self fmt start_page end_page) = EAuthenticate :: t.
Proof.
  unfold main_analysis, call. destruct (fails self EAuthenticate); cbn; eauto.
Qed.

Lemma lit_nonempty (m : string) : m ≠ EmptyString → lit m ≠ [].
Proof. destruct m; [done|]. intros _. unfold lit. cbn. discriminate. Qed.

(** A run that ends by setting a message and exiting, having done nothing
    about the analysis or the archive before. *)
Lemma halted_run (t : list event) (m : string) :
  EAuthenticate ∉ t →
  Forall (λ ev, archive_event ev = false) t →
  m ≠ EmptyString →
  let r : io unit := (t ++ [ESetMessage (lit m)], SysExit 0) in
  ¬ reaches_analysis (trace r)
  ∧ outcome r = SysExit 0
  ∧ (∃ message, last (trace r) = Some (ESetMessage message) ∧ message ≠ [])
  ∧ Forall (λ ev, archive_event ev = false) (trace r).
Proof.
  intros Hauth Harch Hm. cbn. unfold reaches_analysis, trace, outcome. cbn.
  split; [|split; [done|split]].
  - rewrite elem_of_app, list_elem_of_singleton. intros [? | ?]; [done | discriminate].
  - exists (lit m). split; [by rewrite last_snoc | by apply lit_nonempty].
  - apply Forall_app. split; [done | by repeat constructor].
Qed.

Lemma charge_events_quiet (c : pyval) :
  (EAuthenticate ∉ [EPrint c; EChargeCredits c])
  ∧ Forall (λ ev, archive_event ev = false) [EPrint c; EChargeCredits c].
Proof.
  split; [|by repeat constructor].
  rewrite !elem_of_cons, elem_of_nil. intros [? | [? | ?]]; done.
Qed.

(** C2 (as amended). For a configuration whose page bounds are integers
    (the start page 1 when absent; the end page present, or absent in a run
    over no document), the run stops before the analysis phase exactly when
    the platform reports no document count, or there is no organization to
    charge, or the charge of the cost fails (for lack of credits or on an
    API error), or the end page is below the start page, or the start page
    is below 1. Whenever it so stops it exits with status 0, the last thing
    it did was set a non-empty message, and it neither opened nor wrote nor
    uploaded an archive. *)
Theorem main_halts_iff (self : addon) (s e : Z) :
  dict_get_default (data self) "start_page" (PInt 1) = PInt s →
  dict_get_default (data self) "end_page" (PInt 1) = PInt e →
  (data self !! "end_page" = None → documents self = []) →
  (¬ reaches_analysis (trace (main self)) ↔ halt_condition self s e)
  ∧ (halt_condition self s e →
     outcome (main self) = SysExit 0
     ∧ (∃ message, last (trace (main self)) = Some (ESetMessage message)
                   ∧ message ≠ [])
     ∧ Forall (λ ev, archive_event ev = false) (trace (main self))).
Proof.
  intros Hs He Habsent. rewrite (main_eq_read self s e Hs He Habsent). cbn zeta.
  pose proof (charge_events_quiet (PInt (run_cost self s e))) as [Hq1 Hq2].
  assert (Hhalt : ∀ (t : list event) (m : string),
             EAuthenticate ∉ t → Forall (λ ev, archive_event ev = false) t →
             m ≠ EmptyString → halt_condition self s e →
             let r : io unit := (t ++ [ESetMessage (lit m)], SysExit 0) in
             (¬ reaches_analysis (trace r) ↔ halt_condition self s e)
             ∧ (halt_condition self s e →
                outcome r = SysExit 0
                ∧ (∃ message, last (trace r) = Some (ESetMessage message)
                              ∧ message ≠ [])
                ∧ Forall (λ ev, archive_event ev = false) (trace r))).
  { intros t m H1 H2 H3 Hc.
    destruct (halted_run t m H1 H2 H3) as (G1 & G2 & G3 & G4).
    split; [split; auto | auto]. }
  destruct (bool_decide_reflect (document_count self = PNone)) as [Hdoc | Hdoc].
  { apply (Hhalt []); [apply not_elem_of_nil | constructor | done |].
    by left. }
  destruct (truthy (org_id self)) eqn:Horg; cbn [negb].
  2:{ apply (Hhalt []); [apply not_elem_of_nil | constructor | done |].
      right. by left. }
  destruct (bool_decide_reflect (billing self (PInt (run_cost self s e)) = Charged))
    as [Hch | Hch]; cbn [negb].
  2:{ apply Hhalt; [done | done | done |].
      right. right. left.
      destruct (billing self (PInt (run_cost self s e))); auto. done. }
  destruct (Z.ltb_spec e s) as [Hes | Hes].
  { apply Hhalt; [done | done | done |]. do 3 right. by left. }
  destruct (Z.ltb_spec s 1) as [Hs1 | Hs1].
  { apply Hhalt; [done | done | done |]. do 4 right. done. }
  assert (Hno : ¬ halt_condition self s e).
  { unfold halt_condition. rewrite Horg, Hch.
    intros [?|[?|[[?|?]|[?|?]]]]; try done; lia. }
  split; [|done].
  split; [|done]. intros Hnot. exfalso. apply Hnot.
  unfold reaches_analysis, trace. cbn [fst].
  destruct (main_analysis_trace self
              (dict_get_default (data self) "output_format" (PStr (lit "json")))
              (PInt s) (PInt e)) as [t Ht].
  unfold trace in Ht. rewrite Ht.
  rewrite elem_of_app. right. apply elem_of_cons. by left.
Qed.

(** C2 (as stated) fails, twice. A search that finds no document selects
    no documents, and its run goes on to the analysis phase and uploads an
    archive. And the run of a document with no [end_page] configured meets
    none of the conditions (the end page defaults to 1), yet it stops before
    the analysis phase, in a [TypeError], with no message. *)
Lemma main_halts_iff_as_specified_fails :
  (spec_halt_condition empty_search_run 1 1
   ∧ reaches_analysis (trace (main empty_search_run))
   ∧ outcome (main empty_search_run) = Return tt)
  ∧ (¬ spec_halt_condition no_end_page_run 1 1
     ∧ ¬ reaches_analysis (trace (main no_end_page_run))
     ∧ outcome (main no_end_page_run) = Raise TypeError
     ∧ trace (main no_end_page_run) = []).
Proof.
  assert (H1 : main empty_search_run
               = ([EPrint (PInt 0); EChargeCredits (PInt 0); EAuthenticate;
                   EZipOpen (lit "tables.zip"); EZipClose;
                   EUploadFile (lit "tables.zip")], Return tt))
    by (vm_compute; reflexivity).
  assert (H2 : main no_end_page_run = ([], Raise TypeError))
    by (vm_compute; reflexivity).
  rewrite H1, H2. unfold reaches_analysis, trace, outcome. cbn [fst snd].
  split.
  - split; [by left|]. split; [|reflexivity].
    rewrite !elem_of_cons. tauto.
  - split; [|split; [apply not_elem_of_nil | done]].
    intros [H | [H | [[H | H] | [H | H]]]]; try discriminate; lia.
Qed.

(** ** Tables without cells *)

Lemma elem_of_concat {A} (x : A) (ls : list (list A)) :
  x ∈ concat ls ↔ ∃ l, x ∈ l ∧ l ∈ ls.
Proof.
  induction ls as [|l0 ls IH]; cbn.
  - split; [by intros ?%elem_of_nil | by intros (l & _ & ?%elem_of_nil)].
  - rewrite elem_of_app, IH. split.
    + intros [H | (l & H1 & H2)].
      * exists l0. split; [done | apply elem_of_cons; by left].
      * exists l. split; [done | apply elem_of_cons; by right].
    + intros (l & H1 & [-> | H2]%elem_of_cons); [by left | right; eauto].
Qed.

Lemma place_cells_not_exit (cells : list cell_info) (rows : list (list pyval)) (c : Z) :
  place_cells cells rows ≠ SysExit c.
Proof.
  revert rows. induction cells as [|cell cells IH]; intros rows; [done|].
  cbn. unfold py_index.
  repeat case_bool_decide; cbn; try done; apply IH.
Qed.

Lemma convert_to_csv_step_not_exit (t : table_info) (csv_data : list (list pyval))
    (c : Z) :
  convert_to_csv_step t csv_data ≠ SysExit c.
Proof.
  unfold convert_to_csv_step.
  destruct (py_max (map row_index (cells t))) as [m | e | c'] eqn:E; cbn;
    [| done | by destruct (map row_index (cells t))].
  pose proof (place_cells_not_exit (cells t) (replicate (Z.to_nat (m + 1)) [])) as Hne.
  destruct (place_cells (cells t) (replicate (Z.to_nat (m + 1)) [])); cbn;
    [done | done |].
  intros [= <-]. by eapply Hne.
Qed.

Lemma convert_to_csv_step_empty (t : table_info) (csv_data : list (list pyval)) :
  cells t = [] → convert_to_csv_step t csv_data = Raise ValueError.
Proof. intros H. unfold convert_to_csv_step. by rewrite H. Qed.

Lemma for_in_convert_raises (table_data : list table_info) (t : table_info)
    (csv_data : list (list pyval)) :
  t ∈ table_data → cells t = [] →
  ∃ e, for_in table_data convert_to_csv_step csv_data = Raise e.
Proof.
  intros Hin Hempty. revert csv_data.
  induction table_data as [|t0 td IH]; intros csv_data.
  - by apply elem_of_nil in Hin.
  - cbn [for_in].
    destruct (convert_to_csv_step t0 csv_data) as [csv' | e | c] eqn:E.
    + apply elem_of_cons in Hin as [<- | Hin].
      * rewrite (convert_to_csv_step_empty t csv_data Hempty) in E. discriminate.
      * cbn. by apply IH.
    + by exists e.
    + by apply convert_to_csv_step_not_exit in E.
Qed.

Lemma for_in_convert_value_error (pre post : list table_info) (t : table_info)
    (csv_data : list (list pyval)) :
  Forall (λ t, cells t ≠ [] ∧ zero_based t) pre → cells t = [] →
  for_in (pre ++ t :: post) convert_to_csv_step csv_data = Raise ValueError.
Proof.
  intros Hpre Hempty. revert csv_data.
  induction Hpre as [|t0 pre [Hne Hzero] _ IH]; intros csv_data.
  - cbn. by rewrite (convert_to_csv_step_empty t csv_data Hempty).
  - cbn [app for_in].
    rewrite (convert_to_csv_step_eq t0 (max_row_index t0) csv_data)
      by (by try apply max_row_index_is_max).
    cbn. apply IH.
Qed.

(** ** The pages of a document *)

(** *** When no call fails *)

Lemma main_pages_eq (self : addon) (doc : document) (pages : list Z)
    (table_data : list table_info) :
  for_each pages (main_page (calm self) doc) table_data
  = (concat (map (page_events doc) pages),
     Return (table_data ++ tables_of_pages self doc pages)).
Proof.
  revert table_data. induction pages as [|p pages IH]; intros table_data.
  - cbn. by rewrite app_nil_r.
  - cbn [for_each]. unfold main_page at 1. cbn.
    rewrite IH. cbn. unfold tables_of_pages. cbn. by rewrite <- app_assoc.
Qed.

Lemma main_document_eq (self : addon) (fmt : pyval) (s e : Z) (doc : document) :
  main_document (calm self) fmt (PInt s) (PInt e) doc tt
  = let export := export_document fmt doc
                    (tables_of_pages self doc (pages_in_range s e doc)) in
    (concat (map (page_events doc) (pages_in_range s e doc)) ++ trace export,
     outcome export).
Proof.
  unfold main_document. cbn [py_add py_gt py_lt].
  rewrite !lift_bind_return.
  assert (Hpages : py_range (PInt s)
            (if page_count doc <? e then PInt (page_count doc + 1) else PInt (e + 1))
          = Return (pages_in_range s e doc)).
  { unfold pages_in_range.
    destruct (Z.ltb_spec (page_count doc) e); cbn; do 2 f_equal; lia. }
  rewrite Hpages, lift_bind_return, main_pages_eq.
  rewrite io_bind_return. reflexivity.
Qed.

Lemma analyzed_pages_app (t1 t2 : list event) :
  analyzed_pages (t1 ++ t2) = analyzed_pages t1 ++ analyzed_pages t2.
Proof. unfold analyzed_pages. apply omap_app. Qed.

Lemma analyzed_pages_page_events (doc : document) (pages : list Z) :
  analyzed_pages (concat (map (page_events doc) pages)) = map (pair (id doc)) pages.
Proof.
  induction pages as [|p pages IH]; [done|].
  cbn [map concat]. rewrite analyzed_pages_app, IH. reflexivity.
Qed.

Lemma export_document_no_analysis (fmt : pyval) (doc : document)
    (table_data : list table_info) :
  analyzed_pages (trace (export_document fmt doc table_data)) = [].
Proof.
  unfold export_document, save_to_csv.
  destruct (py_eq fmt (PStr (lit "json"))), (py_eq fmt (PStr (lit "csv")));
    cbn; try reflexivity;
    destruct (convert_to_csv table_data) as [rows | |]; try reflexivity;
    cbn; destruct (forallb row_encodable rows); reflexivity.
Qed.

Lemma analyzed_pages_prefix (t1 t2 : list event) :
  t1 `prefix_of` t2 → analyzed_pages t1 `prefix_of` analyzed_pages t2.
Proof. intros [k ->]. rewrite analyzed_pages_app. by apply prefix_app_r. Qed.

Lemma Forall_prefix {A} (P : A → Prop) (l1 l2 : list A) :
  l1 `prefix_of` l2 → Forall P l2 → Forall P l1.
Proof. intros [k ->] H. by apply Forall_app in H as [H _]. Qed.

(** *** When a call fails *)

Lemma runs_like_refl (self : addon) {A} (r : io A) : runs_like self r r.
Proof. by left. Qed.

Lemma runs_like_call (self : addon) (ev : event) :
  runs_like self (call self ev) (call (calm self) ev).
Proof.
  unfold runs_like, call. cbn.
  destruct (fails self ev) as [exn|] eqn:Hev; [right | by left].
  exists [], ev, exn. by split.
Qed.

Lemma runs_like_bind (self : addon) {A B} (m m' : io A) (f f' : A → io B) :
  runs_like self m m' →
  (∀ a, runs_like self (f a) (f' a)) →
  runs_like self (m ≫= f) (m' ≫= f').
Proof.
  intros [-> | (t & ev & exn & -> & Hev & Hpre)] Hf.
  - destruct m' as [t [a | exn | c]]; [|by left..].
    rewrite !io_bind_return.
    destruct (Hf a) as [-> | (t' & ev & exn & Hfa & Hev & Hpre)]; [by left|].
    right. exists (t ++ t'), ev, exn. rewrite Hfa. cbn [fst snd].
    split; [by rewrite app_assoc|]. split; [done|].
    unfold trace. cbn [fst]. rewrite <- app_assoc. by apply prefix_app.
  - right. exists t, ev, exn. rewrite io_bind_raise.
    split; [done|]. split; [done|].
    etrans; [exact Hpre|].
    destruct m' as [t' [a | exn' | c]]; unfold trace; cbn; [|done..].
    by apply prefix_app_r.
Qed.

Lemma runs_like_for_each (self : addon) {A S} (xs : list A)
    (body body' : A → S → io S) (s : S) :
  (∀ x s, runs_like self (body x s) (body' x s)) →
  runs_like self (for_each xs body s) (for_each xs body' s).
Proof.
  intros Hbody. revert s.
  induction xs as [|x xs IH]; intros s; cbn [for_each]; [apply runs_like_refl|].
  apply runs_like_bind; [apply Hbody | intros s'; apply IH].
Qed.

(** A run that returns, a run that exits and a run none of whose calls
    fails are runs in which no call has failed. *)
Lemma runs_like_return (self : addon) {A} (r r' : io A) (a : A) :
  runs_like self r r' → outcome r = Return a → r = r'.
Proof. intros [-> | (t & ev & exn & -> & _)]; [done|]. discriminate. Qed.

Lemma runs_like_no_failure (self : addon) {A} (r r' : io A) :
  runs_like self r r' → no_failure self (trace r) → r = r'.
Proof.
  intros [-> | (t & ev & exn & -> & Hev & _)]; [done|].
  unfold no_failure, trace. cbn. intros Hquiet.
  apply Forall_app in Hquiet as [_ Hquiet]. apply Forall_cons in Hquiet as [Hquiet _].
  congruence.
Qed.

Lemma runs_like_prefix (self : addon) {A} (r r' : io A) :
  runs_like self r r' → trace r `prefix_of` trace r'.
Proof. intros [-> | (t & ev & exn & -> & _ & Hpre)]; [done|]. exact Hpre. Qed.

Lemma runs_like_outcome (self : addon) {A} (r r' : io A) :
  runs_like self r r' → r = r' ∨ ∃ exn, outcome r = Raise exn.
Proof. intros [-> | (t & ev & exn & -> & _)]; [by left|]. right. by exists exn. Qed.

Lemma main_page_runs_like (self : addon) (doc : document) (p : Z)
    (table_data : list table_info) :
  runs_like self (main_page self doc p table_data)
                 (main_page (calm self) doc p table_data).
Proof.
  unfold main_page, download_image, convert_to_png.
  repeat (apply runs_like_bind; [apply runs_like_call | intros _]).
  apply runs_like_refl.
Qed.

Lemma main_document_runs_like (self : addon) (fmt start_page end_page : pyval)
    (doc : document) :
  runs_like self (main_document self fmt start_page end_page doc tt)
                 (main_document (calm self) fmt start_page end_page doc tt).
Proof.
  unfold main_document.
  do 3 (apply runs_like_bind; [apply runs_like_refl | intros ?]).
  apply runs_like_bind; [|intros ?; apply runs_like_refl].
  apply runs_like_for_each. intros p td. apply main_page_runs_like.
Qed.

Lemma main_analysis_runs_like (self : addon) (fmt start_page end_page : pyval) :
  runs_like self (main_analysis self fmt start_page end_page)
                 (main_analysis (calm self) fmt start_page end_page).
Proof.
  unfold main_analysis.
  do 2 (apply runs_like_bind; [apply runs_like_call | intros _]).
  apply runs_like_bind.
  { apply (runs_like_for_each self (documents self)). intros doc [].
    apply main_document_runs_like. }
  intros _. apply runs_like_bind; [apply runs_like_refl | intros _].
  apply runs_like_call.
Qed.

(** *** The loop over the documents when no call fails *)

Lemma convert_to_csv_not_exit (table_data : list table_info) (c : Z) :
  convert_to_csv table_data ≠ SysExit c.
Proof.
  unfold convert_to_csv. generalize (@nil (list pyval)).
  induction table_data as [|t td IH]; intros csv_data; [done|].
  cbn [for_in].
  destruct (convert_to_csv_step t csv_data) as [csv' | exn | c'] eqn:E; cbn.
  - apply IH.
  - done.
  - by apply convert_to_csv_step_not_exit in E.
Qed.

Lemma export_document_not_exit (fmt : pyval) (doc : document)
    (table_data : list table_info) (c : Z) :
  outcome (export_document fmt doc table_data) ≠ SysExit c.
Proof.
  unfold export_document, save_to_csv.
  destruct (py_eq fmt (PStr (lit "json"))), (py_eq fmt (PStr (lit "csv")));
    cbn; try done;
    destruct (convert_to_csv table_data) as [rows | exn | c'] eqn:E; cbn; try done;
    try (by apply convert_to_csv_not_exit in E);
    destruct (forallb row_encodable rows); done.
Qed.

(** Either every document is exported, or the loop ends in the exception
    of the first export that raises. *)
Lemma main_documents_calm (self : addon) (fmt : pyval) (s e : Z)
    (docs : list document) :
  let run := for_each docs (main_document (calm self) fmt (PInt s) (PInt e)) tt in
  (run = (concat (map (document_events self fmt s e) docs), Return tt)
   ∧ Forall (λ doc, outcome (export_document fmt doc
                               (tables_of_pages self doc (pages_in_range s e doc)))
                    = Return tt) docs)
  ∨ (∃ pre doc post exn,
        docs = pre ++ doc :: post
        ∧ Forall (λ doc, outcome (export_document fmt doc
                                    (tables_of_pages self doc (pages_in_range s e doc)))
                         = Return tt) pre
        ∧ outcome (export_document fmt doc
                     (tables_of_pages self doc (pages_in_range s e doc)))
          = Raise exn
        ∧ run = (concat (map (document_events self fmt s e) pre)
                 ++ document_events self fmt s e doc, Raise exn)).
Proof.
  cbv zeta. induction docs as [|doc docs IH]; [left; by split|].
  cbn [for_each]. rewrite main_document_eq. cbv zeta.
  fold (document_events self fmt s e doc).
  destruct (outcome (export_document fmt doc
                       (tables_of_pages self doc (pages_in_range s e doc))))
    as [[] | exn | c] eqn:Hexport.
  - rewrite io_bind_return.
    destruct IH as [[-> Hall] | (pre & d & post & exn & -> & Hpre & Hd & ->)].
    + left. split; [reflexivity | by constructor].
    + right. exists (doc :: pre), d, post, exn. split; [done|].
      split; [by constructor|]. split; [done|].
      cbn [map concat fst snd]. by rewrite app_assoc.
  - right. exists [], doc, docs, exn. rewrite io_bind_raise.
    split; [done|]. split; [constructor|]. split; [done|]. reflexivity.
  - by apply export_document_not_exit in Hexport.
Qed.

Lemma main_analysis_calm (self : addon) (fmt : pyval) (s e : Z) :
  main_analysis (calm self) fmt (PInt s) (PInt e)
  = let run := for_each (documents self)
                 (main_document (calm self) fmt (PInt s) (PInt e)) tt in
    match outcome run with
    | Return _ =>
        ([EAuthenticate; EZipOpen (lit "tables.zip")] ++ trace run
         ++ [EZipClose; EUploadFile (lit "tables.zip")], Return tt)
    | Raise exn => ([EAuthenticate; EZipOpen (lit "tables.zip")] ++ trace run, Raise exn)
    | SysExit c => ([EAuthenticate; EZipOpen (lit "tables.zip")] ++ trace run, SysExit c)
    end.
Proof.
  unfold main_analysis. change (documents (calm self)) with (documents self).
  generalize (for_each (documents self)
                (main_document (calm self) fmt (PInt s) (PInt e)) tt).
  intros [t [[] | exn | c]]; unfold trace, outcome; cbn -[lit]; reflexivity.
Qed.

(** *** The pages submitted *)

Lemma document_events_pages (self : addon) (fmt : pyval) (s e : Z) (doc : document) :
  analyzed_pages (document_events self fmt s e doc)
  = map (pair (id doc)) (pages_in_range s e doc).
Proof.
  unfold document_events.
  by rewrite analyzed_pages_app, analyzed_pages_page_events,
    export_document_no_analysis, app_nil_r.
Qed.

Lemma documents_events_pages (self : addon) (fmt : pyval) (s e : Z)
    (docs : list document) :
  analyzed_pages (concat (map (document_events self fmt s e) docs))
  = pages_of_run s e docs.
Proof.
  unfold pages_of_run. induction docs as [|doc docs IH]; [done|].
  cbn [map concat]. by rewrite analyzed_pages_app, document_events_pages, IH.
Qed.

Lemma main_analysis_calm_pages (self : addon) (fmt : pyval) (s e : Z) :
  let rest := main_analysis (calm self) fmt (PInt s) (PInt e) in
  analyzed_pages (trace rest) `prefix_of` pages_of_run s e (documents self)
  ∧ (outcome rest = Return tt →
     analyzed_pages (trace rest) = pages_of_run s e (documents self)).
Proof.
  cbv zeta. rewrite main_analysis_calm. cbv zeta.
  destruct (main_documents_calm self fmt s e (documents self))
    as [[-> _] | (pre & doc & post & exn & Hdocs & _ & _ & ->)];
    unfold trace, outcome; cbn [fst snd].
  - rewrite !analyzed_pages_app, documents_events_pages. cbn.
    rewrite app_nil_r. done.
  - split; [|discriminate].
    rewrite !analyzed_pages_app, documents_events_pages, document_events_pages.
    change (analyzed_pages [EAuthenticate; EZipOpen (lit "tables.zip")])
      with (@nil (pyval * Z)).
    cbn [app]. rewrite Hdocs. unfold pages_of_run.
    rewrite map_app, concat_app. cbn [map concat].
    apply prefix_app. by apply prefix_app_r.
Qed.

Lemma main_analysis_pages (self : addon) (fmt : pyval) (s e : Z) :
  let rest := main_analysis self fmt (PInt s) (PInt e) in
  analyzed_pages (trace rest) `prefix_of` pages_of_run s e (documents self)
  ∧ (outcome rest = Return tt →
     analyzed_pages (trace rest) = pages_of_run s e (documents self)).
Proof.
  cbv zeta.
  pose proof (main_analysis_runs_like self fmt (PInt s) (PInt e)) as Hlike.
  destruct (main_analysis_calm_pages self fmt s e) as [Hpre Heq]. cbv zeta in Hpre, Heq.
  split.
  - etrans; [|exact Hpre]. apply analyzed_pages_prefix. by eapply runs_like_prefix.
  - intros Hret. rewrite (runs_like_return self _ _ tt Hlike Hret) in Hret |- *.
    by apply Heq.
Qed.

(** C4. With a start page [s] and an end page [e] as [main] reads them
    (each 1 when not configured), the pages a run submits to the analysis
    service are, document after document in the order of the documents and
    for each document in increasing order, pages [s], [s + 1], ...,
    [min(e, page_count)] of the document, and none of a document with fewer
    than [s] pages: a run that completes has submitted exactly these, and a
    run that stops or fails has submitted the first of them, up to where it
    ended. *)
Theorem main_document_pages (self : addon) (s e : Z) :
  dict_get_default (data self) "start_page" (PInt 1) = PInt s →
  dict_get_default (data self) "end_page" (PInt 1) = PInt e →
  analyzed_pages (trace (main self))
    `prefix_of` concat (map (λ doc, map (pair (id doc))
                                        (seqZ s (Z.min e (page_count doc) - s + 1)))
                            (documents self))
  ∧ (outcome (main self) = Return tt →
     analyzed_pages (trace (main self))
     = concat (map (λ doc, map (pair (id doc))
                               (seqZ s (Z.min e (page_count doc) - s + 1)))
                   (documents self)))
  ∧ (Forall (λ doc, page_count doc < s) (documents self) →
     analyzed_pages (trace (main self)) = []).
Proof.
  intros Hs He.
  change (concat (map (λ doc, map (pair (id doc))
                                  (seqZ s (Z.min e (page_count doc) - s + 1)))
                      (documents self)))
    with (pages_of_run s e (documents self)).
  assert (Hshort : Forall (λ doc, page_count doc < s) (documents self) →
                   pages_of_run s e (documents self) = []).
  { unfold pages_of_run. induction 1 as [|doc docs Hdoc _ IH]; [done|].
    cbn [map concat]. rewrite IH. unfold pages_in_range.
    by rewrite seqZ_nil by lia. }
  assert (Hgoal : analyzed_pages (trace (main self))
                    `prefix_of` pages_of_run s e (documents self)
                  ∧ (outcome (main self) = Return tt →
                     analyzed_pages (trace (main self))
                     = pages_of_run s e (documents self))).
  2:{ destruct Hgoal as [Hpre Heq]. split; [done|]. split; [done|].
      intros Hall. rewrite (Hshort Hall) in Hpre. by apply prefix_nil_inv. }
  assert (Hread : (data self !! "end_page" = None → documents self = []) →
                  analyzed_pages (trace (main self))
                    `prefix_of` pages_of_run s e (documents self)
                  ∧ (outcome (main self) = Return tt →
                     analyzed_pages (trace (main self))
                     = pages_of_run s e (documents self))).
  { intros Habsent. rewrite (main_eq_read self s e Hs He Habsent). cbv zeta.
    destruct (bool_decide (document_count self = PNone));
      [split; [apply prefix_nil | discriminate]|].
    destruct (negb (truthy (org_id self)));
      [split; [apply prefix_nil | discriminate]|].
    destruct (negb (bool_decide (billing self (PInt (run_cost self s e)) = Charged)));
      [split; [apply prefix_nil | discriminate]|].
    destruct (e <? s); [split; [apply prefix_nil | discriminate]|].
    destruct (s <? 1); [split; [apply prefix_nil | discriminate]|].
    unfold trace at 1 3, outcome at 1. cbn [fst snd].
    rewrite analyzed_pages_app. cbn [analyzed_pages omap app].
    apply main_analysis_pages. }
  destruct (data self !! "end_page") as [v|] eqn:Hkey; [apply Hread; discriminate|].
  destruct (documents self) as [|doc docs] eqn:Hdocs; [by apply Hread|].
  destruct (main_no_end_page self Hkey) as (Hout & Hnone & _); [by rewrite Hdocs|].
  rewrite Hnone. split; [apply prefix_nil | done].
Qed.

(** C10. A table of the service with no cells becomes a record with no
    cells; [convert_to_csv] raises on every sequence of records that holds
    such a record, and what it raises is the [ValueError] of [max] on an
    empty sequence when the records before it have cells and 0-based row
    indices; so the body of the document loop, in csv format, ends in an
    exception, without saving a csv file or adding it to the archive,
    whenever a page of the range has a table without cells. *)
Theorem convert_to_csv_empty_cells :
  (∀ (result : Service.analyze_result) (p : Z) (table : Service.table),
     table ∈ Service.tables result → Service.cells table = [] →
     ∃ record, record ∈ get_table_data result p ∧ cells record = [])
  ∧ (∀ (table_data : list table_info) (t : table_info),
       t ∈ table_data → cells t = [] →
       ∃ e, convert_to_csv table_data = Raise e)
  ∧ (∀ (pre post : list table_info) (t : table_info),
       Forall (λ t, cells t ≠ [] ∧ zero_based t) pre → cells t = [] →
       convert_to_csv (pre ++ t :: post) = Raise ValueError)
  ∧ (∀ (self : addon) (s e : Z) (doc : document) (p : Z) (table : Service.table),
       p ∈ seqZ s (Z.min e (page_count doc) - s + 1) →
       table ∈ Service.tables (layout self (id doc) p) →
       Service.cells table = [] →
       (∃ exn, outcome (main_document self (PStr (lit "csv")) (PInt s) (PInt e) doc tt)
               = Raise exn)
       ∧ Forall (λ ev, archive_event ev = false
                       ∧ ∀ rows path, ev ≠ ESaveToCsv rows path)
                (trace (main_document self (PStr (lit "csv")) (PInt s) (PInt e) doc tt))).
Proof.
  assert (Hshape : ∀ (result : Service.analyze_result) (p : Z) (table : Service.table),
     table ∈ Service.tables result → Service.cells table = [] →
     ∃ record, record ∈ get_table_data result p ∧ cells record = []).
  { intros result p table Hin Hempty. rewrite get_table_data_map.
    eexists. split; [apply list_elem_of_fmap; eauto|].
    cbn. by rewrite Hempty. }
  split; [exact Hshape|].
  split; [intros td t; apply for_in_convert_raises|].
  split; [intros pre post t; apply for_in_convert_value_error|].
  intros self s e doc p table Hp Htable Hempty.
  assert (Hcalm : ∃ exn,
            main_document (calm self) (PStr (lit "csv")) (PInt s) (PInt e) doc tt
            = (concat (map (page_events doc) (pages_in_range s e doc)), Raise exn)).
  { rewrite main_document_eq. cbn zeta. unfold trace, outcome. cbn [fst snd].
    destruct (Hshape _ p _ Htable Hempty) as (record & Hrec & Hcells).
    assert (Hin : record ∈ tables_of_pages self doc (pages_in_range s e doc)).
    { unfold tables_of_pages. apply elem_of_concat.
      eexists. split; [exact Hrec|].
      apply list_elem_of_fmap. exists p. split; [reflexivity | exact Hp]. }
    destruct (for_in_convert_raises _ record [] Hin Hcells) as [exn Hexn].
    exists exn. unfold export_document.
    change (py_eq (PStr (lit "csv")) (PStr (lit "json"))) with false.
    change (py_eq (PStr (lit "csv")) (PStr (lit "csv"))) with true.
    unfold convert_to_csv. rewrite Hexn. cbn. by rewrite ?app_nil_r. }
  destruct Hcalm as [exn Hcalm].
  assert (Hquiet : Forall (λ ev, archive_event ev = false
                                 ∧ ∀ rows path, ev ≠ ESaveToCsv rows path)
                          (concat (map (page_events doc) (pages_in_range s e doc)))).
  { apply Forall_forall. intros ev Hev.
    apply elem_of_concat in Hev as (evs & Hev & Hevs).
    apply list_elem_of_fmap in Hevs as (q & -> & _).
    unfold page_events in Hev.
    rewrite !elem_of_cons, elem_of_nil in Hev.
    destruct Hev as [-> | [-> | [-> | []]]]; by split. }
  pose proof (main_document_runs_like self (PStr (lit "csv")) (PInt s) (PInt e) doc)
    as Hlike.
  pose proof (runs_like_prefix self _ _ Hlike) as Hpre.
  rewrite Hcalm in Hpre. unfold trace at 2 in Hpre. cbn [fst] in Hpre.
  split; [|by eapply Forall_prefix].
  destruct (runs_like_outcome self _ _ Hlike) as [-> | Hraise]; [|exact Hraise].
  rewrite Hcalm. by exists exn.
Qed.

(** ** The charge and the work of a run *)

Lemma charged_amounts_app (t1 t2 : list event) :
  charged_amounts (t1 ++ t2) = charged_amounts t1 ++ charged_amounts t2.
Proof. unfold charged_amounts. apply omap_app. Qed.

Lemma export_document_no_charge (fmt : pyval) (doc : document)
    (table_data : list table_info) :
  charged_amounts (trace (export_document fmt doc table_data)) = [].
Proof.
  unfold export_document, save_to_csv.
  destruct (py_eq fmt (PStr (lit "json"))), (py_eq fmt (PStr (lit "csv")));
    cbn; try reflexivity;
    destruct (convert_to_csv table_data) as [rows | |]; try reflexivity;
    cbn; destruct (forallb row_encodable rows); reflexivity.
Qed.

Lemma page_events_no_charge (doc : document) (pages : list Z) :
  charged_amounts (concat (map (page_events doc) pages)) = [].
Proof.
  induction pages as [|p pages IH]; [done|].
  cbn [map concat]. rewrite charged_amounts_app, IH. reflexivity.
Qed.

Lemma documents_events_no_charge (self : addon) (fmt : pyval) (s e : Z)
    (docs : list document) :
  charged_amounts (concat (map (document_events self fmt s e) docs)) = [].
Proof.
  induction docs as [|doc docs IH]; [done|].
  cbn [map concat]. rewrite charged_amounts_app, IH. unfold document_events.
  by rewrite charged_amounts_app, page_events_no_charge, export_document_no_charge.
Qed.

Lemma charged_amounts_prefix (t1 t2 : list event) :
  t1 `prefix_of` t2 → charged_amounts t2 = [] → charged_amounts t1 = [].
Proof.
  intros [k ->]. rewrite charged_amounts_app. by intros [-> _]%app_eq_nil.
Qed.

(** No charge is made past the gates. *)
Lemma main_analysis_no_charge (self : addon) (fmt : pyval) (s e : Z) :
  charged_amounts (trace (main_analysis self fmt (PInt s) (PInt e))) = [].
Proof.
  eapply charged_amounts_prefix.
  { eapply runs_like_prefix. apply main_analysis_runs_like. }
  rewrite main_analysis_calm. cbv zeta.
  destruct (main_documents_calm self fmt s e (documents self))
    as [[-> _] | (pre & doc & post & exn & Hdocs & _ & _ & ->)];
    unfold trace, outcome; cbn [fst snd].
  - rewrite !charged_amounts_app, documents_events_no_charge. reflexivity.
  - rewrite !charged_amounts_app, documents_events_no_charge.
    unfold document_events.
    by rewrite charged_amounts_app, page_events_no_charge, export_document_no_charge.
Qed.

(** A run that completes has passed the gates; it has charged the cost
    once and submitted the pages in range of every document, document
    after document. *)
Lemma main_charge_and_pages (self : addon) (s e : Z) :
  dict_get_default (data self) "start_page" (PInt 1) = PInt s →
  dict_get_default (data self) "end_page" (PInt 1) = PInt e →
  outcome (main self) = Return tt →
  ¬ halt_condition self s e
  ∧ (data self !! "end_page" = None → documents self = [])
  ∧ charged_amounts (trace (main self)) = [PInt (run_cost self s e)]
  ∧ analyzed_pages (trace (main self)) = pages_of_run s e (documents self).
Proof.
  intros Hs He Hret.
  assert (Habsent : data self !! "end_page" = None → documents self = []).
  { intros Hkey. destruct (documents self) as [|doc docs] eqn:Hdocs; [done|].
    destruct (main_no_end_page self Hkey) as (Hout & _); [by rewrite Hdocs | done]. }
  revert Hret. rewrite (main_eq_read self s e Hs He Habsent). cbv zeta.
  destruct (bool_decide_reflect (document_count self = PNone)) as [|Hcount];
    [discriminate|].
  destruct (truthy (org_id self)) eqn:Horg; [|discriminate]. cbn [negb].
  destruct (bool_decide_reflect (billing self (PInt (run_cost self s e)) = Charged))
    as [Hch|]; [|discriminate].
  cbn [negb].
  destruct (Z.ltb_spec e s); [discriminate|]. destruct (Z.ltb_spec s 1); [discriminate|].
  set (fmt := dict_get_default (data self) "output_format" (PStr (lit "json"))).
  pose proof (main_analysis_no_charge self fmt s e) as Hnone.
  destruct (main_analysis_pages self fmt s e) as [_ Hpages]. cbv zeta in Hpages.
  revert Hnone Hpages.
  generalize (main_analysis self fmt (PInt s) (PInt e)). intros [t r].
  unfold trace, outcome. cbn [fst snd]. intros Hnone Hpages Hret.
  split.
  { unfold halt_condition. rewrite Horg, Hch.
    intros [?|[?|[[?|?]|[?|?]]]]; try done; lia. }
  split; [exact Habsent|].
  rewrite charged_amounts_app, analyzed_pages_app, Hnone, (Hpages Hret).
  split; reflexivity.
Qed.

(** The cost is 7 credits per page submitted as soon as no document is
    shorter than [start_page - 1]. *)
Lemma run_cost_of_pages (self : addon) (s e : Z) :
  s - 1 ≤ e →
  Forall (λ doc, s - 1 ≤ page_count doc) (documents self) →
  run_cost self s e
  = 7 * Z.of_nat (length (concat (map (λ doc, map (pair (id doc)) (pages_in_range s e doc))
                                      (documents self)))).
Proof.
  intros Hse Hall. unfold run_cost.
  induction Hall as [|doc docs Hdoc _ IH]; [done|].
  cbn [map concat Zsum foldr]. rewrite length_app, length_map.
  unfold pages_in_range at 1. rewrite length_seqZ.
  unfold Zsum in IH. unfold pages_costed at 1. lia.
Qed.

(** So a run that completes, over documents none of which is shorter than
    [start_page - 1], has charged 7 credits per page it has submitted. *)
Lemma charge_matches_work (self : addon) (s e : Z) :
  dict_get_default (data self) "start_page" (PInt 1) = PInt s →
  dict_get_default (data self) "end_page" (PInt 1) = PInt e →
  outcome (main self) = Return tt →
  Forall (λ doc, s - 1 ≤ page_count doc) (documents self) →
  charged_amounts (trace (main self))
  = [PInt (7 * Z.of_nat (length (analyzed_pages (trace (main self)))))].
Proof.
  intros Hs He Hret Hall.
  destruct (main_charge_and_pages self s e Hs He Hret) as (Hgo & _ & -> & ->).
  unfold pages_of_run.
  rewrite (run_cost_of_pages self s e); [reflexivity | | exact Hall].
  unfold halt_condition in Hgo. lia.
Qed.

(** ** Runs on concrete inputs *)

(** C5. The run over pages 3 to 5 of a one-page document and a ten-page
    document passes every gate and completes; it charges 14 credits, the
    price of two pages, and submits three pages to the analysis service:
    the one-page document is counted as minus one page. *)
Theorem charged_cost_short_document :
  outcome (main short_document_run) = Return tt
  ∧ charged_amounts (trace (main short_document_run)) = [PInt 14]
  ∧ analyzed_pages (trace (main short_document_run))
    = [(PInt 2, 3); (PInt 2, 4); (PInt 2, 5)].
Proof. vm_compute. auto. Qed.

(** C9. Without an [end_page] in the configuration the run of a one-page
    document ends in a [TypeError] before it has done anything: the cost
    estimate reads the key with no default and compares [None] with the
    page count. With [end_page] set to 1 the same run completes, charges 7
    credits and submits page 1. *)
Theorem main_without_end_page :
  main no_end_page_run = ([], Raise TypeError)
  ∧ outcome (main end_page_1_run) = Return tt
  ∧ charged_amounts (trace (main end_page_1_run)) = [PInt 7]
  ∧ analyzed_pages (trace (main end_page_1_run)) = [(PInt 1, 1)].
Proof. vm_compute. auto. Qed.

Lemma calculate_cost_formula_witness :
  outcome (calculate_cost two_documents_run (documents two_documents_run))
  = Return (PInt 21)
  ∧ trace (calculate_cost two_documents_run (documents two_documents_run))
    = [EPrint (PInt 21)].
Proof.
  apply (calculate_cost_formula two_documents_run 1 2
           (documents two_documents_run)); reflexivity.
Defined.

Lemma main_document_pages_witness :
  analyzed_pages (trace (main two_documents_run))
  = [(PInt 1, 1); (PInt 1, 2); (PInt 2, 1)]
  ∧ analyzed_pages (trace (main lost_page_run))
      `prefix_of` [(PInt 1, 1); (PInt 1, 2); (PInt 2, 1)].
Proof.
  split.
  - apply (main_document_pages two_documents_run 1 2); reflexivity.
  - apply (main_document_pages lost_page_run 1 2); reflexivity.
Defined.

Lemma main_halts_iff_witness :
  (¬ reaches_analysis (trace (main no_selection_run))
   ↔ halt_condition no_selection_run 1 2)
  ∧ (halt_condition no_selection_run 1 2 →
     outcome (main no_selection_run) = SysExit 0
     ∧ (∃ message, last (trace (main no_selection_run)) = Some (ESetMessage message)
                   ∧ message ≠ [])
     ∧ Forall (λ ev, archive_event ev = false) (trace (main no_selection_run))).
Proof.
  apply (main_halts_iff no_selection_run 1 2); reflexivity.
Defined.

Lemma scattered_table_well_formed :
  Forall (λ t, cells t ≠ [] ∧ zero_based t) [scattered_table].
Proof.
  constructor; [|constructor]. split; [discriminate|].
  unfold zero_based. cbn. repeat constructor; cbn; lia.
Defined.

Lemma convert_to_csv_rows_by_arrival_witness :
  convert_to_csv [scattered_table]
  = Return [ [PStr (lit "Page Number:"); PInt 4];
             [PStr (lit "b")];
             [PStr (lit "a")];
             [PStr (lit "c"); PStr (lit "d")];
             [];
             [] ]
  ∧ ∀ f : cell_info → Z,
      convert_to_csv (map (with_columns f) [scattered_table])
      = convert_to_csv [scattered_table].
Proof.
  exact (convert_to_csv_rows_by_arrival [scattered_table] scattered_table_well_formed).
Defined.

Lemma scattered_table_max_row :
  Forall2 (λ t r, max_row_index_is t r ∧ zero_based t) [scattered_table] [2].
Proof.
  constructor; [|constructor]. split.
  - split.
    + eexists. split; [apply elem_of_cons; left; reflexivity | reflexivity].
    + cbn. repeat constructor; cbn; lia.
  - unfold zero_based. cbn. repeat constructor; cbn; lia.
Defined.

Lemma convert_to_csv_blocks_witness :
  ∃ blocks : list (list (list pyval)),
    convert_to_csv [scattered_table] = Return (concat blocks)
    ∧ Forall3 (λ t r block,
                 ∃ rows,
                   block = [[PStr (lit "Page Number:"); PInt (page_number t)]]
                           ++ rows ++ [[]; []]
                   ∧ length rows = Z.to_nat (r + 1)
                   ∧ length block = Z.to_nat (r + 4))
              [scattered_table] [2] blocks.
Proof.
  exact (convert_to_csv_blocks [scattered_table] [2] scattered_table_max_row).
Defined.

(** ** The structured export read back *)

(** *** Integers *)

Lemma is_digit_true (c : N) : is_digit c = true ↔ (48 ≤ c ≤ 57)%N.
Proof. unfold is_digit. rewrite andb_true_iff, !N.leb_le. done. Qed.

Lemma is_digit_add (n : N) : (n < 10)%N → is_digit (48 + n) = true.
Proof. intros. apply is_digit_true. lia. Qed.

Lemma digits_go_spec (fuel : nat) (n : N) (acc : pystr) :
  (n < 10 ^ N.of_nat (S fuel))%N →
  ∃ d ds, digits_go fuel n acc = (d :: ds) ++ acc
          ∧ Forall (λ c, is_digit c = true) (d :: ds)
          ∧ digits_value (d :: ds) 0 = n
          ∧ (0 < n → d ≠ 48)%N.
Proof.
  revert n acc. induction fuel as [|fuel IH]; intros n acc Hn.
  - change (10 ^ N.of_nat 1)%N with 10%N in Hn.
    exists (48 + n mod 10)%N, []. cbn.
    rewrite N.mod_small by lia.
    split; [done|]. split; [|split].
    + constructor; [|constructor]. by apply is_digit_add.
    + unfold digits_value. cbn. lia.
    + lia.
  - cbn [digits_go]. destruct (N.ltb_spec n 10) as [Hlt | Hge].
    + exists (48 + n mod 10)%N, []. rewrite N.mod_small by lia.
      split; [done|]. split; [|split].
      * constructor; [|constructor]. by apply is_digit_add.
      * unfold digits_value. cbn. lia.
      * lia.
    + assert (Hdiv : (n / 10 < 10 ^ N.of_nat (S fuel))%N).
      { apply N.Div0.div_lt_upper_bound.
        rewrite <- N.pow_succ_r'. by rewrite <- Nat2N.inj_succ. }
      destruct (IH (n / 10)%N ((48 + n mod 10)%N :: acc) Hdiv)
        as (d & ds & Heq & Hdig & Hval & Hhead).
      exists d, (ds ++ [(48 + n mod 10)%N]).
      split; [|split; [|split]].
      * rewrite Heq. cbn. by rewrite <- app_assoc.
      * rewrite app_comm_cons. apply Forall_app. split; [done|].
        constructor; [|constructor]. apply is_digit_add.
        apply N.mod_upper_bound. lia.
      * rewrite app_comm_cons. unfold digits_value in *. rewrite foldl_app, Hval.
        cbn. pose proof (N.div_mod' n 10) as Hdm.
        generalize dependent (n `mod` 10)%N. generalize dependent (n / 10)%N.
        intros; lia.
      * intros _. apply Hhead.
        apply N.div_str_pos. lia.
Qed.

Lemma digits_spec (n : N) :
  ∃ d ds, digits n = d :: ds
          ∧ Forall (λ c, is_digit c = true) (d :: ds)
          ∧ digits_value (d :: ds) 0 = n
          ∧ (0 < n → d ≠ 48)%N.
Proof.
  unfold digits.
  destruct (digits_go_spec (N.to_nat (N.log2 n)) n []) as (d & ds & Heq & H).
  - rewrite Nat2N.inj_succ, N2Nat.id.
    destruct (N.eq_dec n 0%N) as [-> | Hpos]; [done|].
    destruct (N.log2_spec n) as [_ Hlt]; [lia|].
    eapply N.lt_le_trans; [exact Hlt|].
    apply N.pow_le_mono_l. lia.
  - exists d, ds. rewrite Heq. by rewrite app_nil_r.
Qed.

Lemma scan_digits_app (ds rest : pystr) (a : N) :
  Forall (λ c, is_digit c = true) ds → no_digit_ahead rest →
  scan_digits (ds ++ rest) a = (digits_value ds a, rest).
Proof.
  intros Hds Hrest. revert a.
  induction Hds as [|d ds Hd _ IH]; intros a; cbn.
  - destruct rest as [|c rest]; [done|]. cbn in *. by rewrite Hrest.
  - rewrite Hd. apply IH.
Qed.

Lemma match_integer_str_of_int (z : Z) (rest : pystr) :
  no_digit_ahead rest →
  match_integer (str_of_int z ++ rest) = Some (z, rest).
Proof.
  intros Hrest. unfold str_of_int.
  destruct (Z.ltb_spec z 0) as [Hneg | Hpos].
  - destruct (digits_spec (Z.to_N (- z))) as (d & ds & Heq & Hdig & Hval & Hhead).
    rewrite Heq. change (lit "-") with [45%N]. cbn [app].
    unfold match_integer. cbn [N.eqb Pos.eqb].
    assert (Hd : d ≠ 48%N) by (apply Hhead; lia).
    apply N.eqb_neq in Hd. rewrite Hd.
    pose proof (Forall_inv Hdig) as Hd'. cbn in Hd'. rewrite Hd'.
    rewrite app_comm_cons, (scan_digits_app _ _ _ Hdig Hrest), Hval.
    do 2 f_equal. lia.
  - destruct (digits_spec (Z.to_N z)) as (d & ds & Heq & Hdig & Hval & Hhead).
    rewrite Heq. cbn [app]. unfold match_integer.
    pose proof (Forall_inv Hdig) as Hd'. cbn in Hd'.
    assert (Hminus : (d =? 45)%N = false).
    { apply is_digit_true in Hd'. apply N.eqb_neq. lia. }
    rewrite Hminus.
    destruct (N.eqb_spec d 48%N) as [-> | Hd].
    + assert (Hz : z = 0).
      { destruct (Z.eq_dec z 0) as [|Hnz]; [done|].
        exfalso. apply Hhead; [lia | done]. }
      subst z. vm_compute in Heq. injection Heq as <-. reflexivity.
    + rewrite Hd'.
      rewrite app_comm_cons, (scan_digits_app _ _ _ Hdig Hrest), Hval.
      do 2 f_equal. lia.
Qed.

(** *** Strings *)

Lemma forall_below (P : N → bool) (n : N) :
  forallb P (map N.of_nat (seq 0 (N.to_nat n))) = true →
  ∀ d, (d < n)%N → P d = true.
Proof.
  intros Hall d Hd. rewrite forallb_forall in Hall. apply Hall.
  apply in_map_iff. exists (N.to_nat d). split; [apply N2Nat.id|].
  apply in_seq. lia.
Qed.

Lemma hex_value_digit (d : N) : (d < 16)%N → hex_value (hex_digit d) = Some d.
Proof.
  intros Hd.
  pose proof (forall_below
                (λ d, match hex_value (hex_digit d) with
                      | Some m => (m =? d)%N
                      | None => false
                      end) 16 eq_refl d Hd) as H.
  cbv beta in H. destruct (hex_value (hex_digit d)) as [m|]; [|done].
  apply N.eqb_eq in H. by subst.
Qed.

Lemma decode_hex4 (n : N) :
  (n < 65536)%N →
  decode_uXXXX (hex_digit (n / 4096 mod 16)) (hex_digit (n / 256 mod 16))
               (hex_digit (n / 16 mod 16)) (hex_digit (n mod 16)) = Some n.
Proof.
  intros Hn. unfold decode_uXXXX.
  rewrite !hex_value_digit by (apply N.mod_upper_bound; lia). cbn.
  f_equal.
  pose proof (N.div_mod' n 16) as H0.
  pose proof (N.div_mod' (n / 16) 16) as H1.
  pose proof (N.div_mod' (n / 256) 16) as H2.
  replace (n / 16 / 16)%N with (n / 256)%N in H1
    by (rewrite N.Div0.div_div; reflexivity).
  replace (n / 256 / 16)%N with (n / 4096)%N in H2
    by (rewrite N.Div0.div_div; reflexivity).
  assert (H3 : (n / 4096 < 16)%N) by (apply N.Div0.div_lt_upper_bound; lia).
  rewrite (N.mod_small (n / 4096) 16) by exact H3.
  generalize dependent (n mod 16)%N.
  generalize dependent ((n / 16) mod 16)%N.
  generalize dependent ((n / 256) mod 16)%N.
  generalize dependent (n / 16)%N.
  generalize dependent (n / 256)%N.
  generalize dependent (n / 4096)%N.
  intros; lia.
Qed.

Lemma lor_shiftl_low (h l : N) :
  (l < 1024)%N → N.lor (N.shiftl h 10) l = (h * 1024 + l)%N.
Proof.
  intros Hl.
  assert (Hland : N.land (N.shiftl h 10) l = 0%N).
  { apply N.bits_inj. intros i. rewrite N.land_spec, N.bits_0.
    destruct (N.lt_ge_cases i 10) as [Hlo | Hhi].
    - by rewrite N.shiftl_spec_low.
    - destruct (N.eq_dec l 0%N) as [-> | Hpos];
        [by rewrite N.bits_0, andb_false_r|].
      rewrite (N.bits_above_log2 l i), andb_false_r; [done|].
      eapply N.lt_le_trans; [|exact Hhi].
      apply N.log2_lt_pow2; [lia|]. exact Hl. }
  rewrite <- N.lxor_lor, <- N.add_nocarry_lxor by exact Hland.
  by rewrite N.shiftl_mul_pow2.
Qed.

(** The two halves of a character beyond the basic plane, as the encoder
    computes them, and the character the decoder makes of them. *)
Lemma surrogate_pair (c : N) :
  (65536 ≤ c < 1114112)%N →
  let n := (c - 65536)%N in
  let s1 := N.lor 55296 (N.land (N.shiftr n 10) 1023) in
  let s2 := N.lor 56320 (N.land n 1023) in
  (s1 < 65536)%N ∧ (s2 < 65536)%N
  ∧ is_high_surrogate s1 = true ∧ is_low_surrogate s2 = true
  ∧ (65536 + N.lor (N.shiftl (s1 - 55296) 10) (s2 - 56320))%N = c.
Proof.
  intros Hc n s1 s2.
  assert (Hn : (n < 1048576)%N) by (unfold n; lia).
  assert (Hh : N.land (N.shiftr n 10) 1023 = (n / 1024)%N).
  { change 1023%N with (N.ones 10). rewrite N.land_ones, N.shiftr_div_pow2.
    change (2 ^ 10)%N with 1024%N. apply N.mod_small.
    apply N.Div0.div_lt_upper_bound. lia. }
  assert (Hl : N.land n 1023 = (n mod 1024)%N).
  { change 1023%N with (N.ones 10). by rewrite N.land_ones. }
  assert (Hq : (n / 1024 < 1024)%N) by (apply N.Div0.div_lt_upper_bound; lia).
  assert (Hr : (n mod 1024 < 1024)%N) by (apply N.mod_upper_bound; lia).
  assert (Hs1 : s1 = (55296 + n / 1024)%N).
  { unfold s1. rewrite Hh. change 55296%N with (N.shiftl 54 10).
    rewrite lor_shiftl_low by exact Hq. reflexivity. }
  assert (Hs2 : s2 = (56320 + n mod 1024)%N).
  { unfold s2. rewrite Hl. change 56320%N with (N.shiftl 55 10).
    rewrite lor_shiftl_low by exact Hr. reflexivity. }
  pose proof (N.div_mod' n 1024) as Hdm.
  rewrite Hs1, Hs2.
  replace (55296 + n / 1024 - 55296)%N with (n / 1024)%N by lia.
  replace (56320 + n `mod` 1024 - 56320)%N with (n mod 1024)%N by lia.
  rewrite lor_shiftl_low by exact Hr.
  unfold is_high_surrogate, is_low_surrogate.
  rewrite !andb_true_iff, !N.leb_le.
  generalize dependent (n mod 1024)%N. generalize dependent (n / 1024)%N.
  intros. unfold n in *. lia.
Qed.

Lemma scanstring_escape_u (c : N) (t : pystr) :
  (c < 65536)%N →
  (is_high_surrogate c = true → no_low_escape_ahead t) →
  scanstring (escape_u c ++ t) = prod_map (cons c) (λ r, r) <$> scanstring t.
Proof.
  intros Hc Hahead.
  remember (scanstring t) as R eqn:HR.
  change (escape_u c ++ t)
    with (92 :: 117 :: hex_digit (c / 4096 mod 16) :: hex_digit (c / 256 mod 16)
             :: hex_digit (c / 16 mod 16) :: hex_digit (c mod 16) :: t)%N.
  cbn [scanstring]. change (92 =? 34)%N with false. change (92 =? 92)%N with true.
  change (117 =? 117)%N with true. cbv iota.
  rewrite (decode_hex4 c Hc). cbn [mbind option_bind].
  destruct t as [|b1 [|u1 [|a2 [|b2 [|c2 [|d2 t']]]]]]; try (by rewrite HR).
  destruct (is_high_surrogate c) eqn:Hhigh; cbn [andb]; [|by rewrite HR].
  destruct ((b1 =? 92)%N && (u1 =? 117)%N) eqn:Hbu.
  - destruct (Hahead eq_refl Hbu) as (uni2 & Hdec & Hlow).
    rewrite Hdec. cbn [mbind option_bind]. rewrite Hlow. by rewrite HR.
  - by rewrite HR.
Qed.

Lemma scanstring_escape_pair (s1 s2 : N) (t : pystr) :
  (s1 < 65536)%N → (s2 < 65536)%N →
  is_high_surrogate s1 = true → is_low_surrogate s2 = true →
  scanstring (escape_u s1 ++ escape_u s2 ++ t)
  = prod_map (cons (65536 + N.lor (N.shiftl (s1 - 55296) 10) (s2 - 56320))%N)
             (λ r, r) <$> scanstring t.
Proof.
  intros H1 H2 Hhigh Hlow.
  remember (scanstring t) as R eqn:HR.
  change (escape_u s1 ++ escape_u s2 ++ t)
    with (92 :: 117 :: hex_digit (s1 / 4096 mod 16) :: hex_digit (s1 / 256 mod 16)
             :: hex_digit (s1 / 16 mod 16) :: hex_digit (s1 mod 16)
             :: 92 :: 117 :: hex_digit (s2 / 4096 mod 16) :: hex_digit (s2 / 256 mod 16)
             :: hex_digit (s2 / 16 mod 16) :: hex_digit (s2 mod 16) :: t)%N.
  cbn [scanstring]. change (92 =? 34)%N with false. change (92 =? 92)%N with true.
  change (117 =? 117)%N with true. cbv iota.
  rewrite (decode_hex4 s1 H1). cbn [mbind option_bind].
  rewrite Hhigh. cbn [andb].
  rewrite (decode_hex4 s2 H2). cbn [mbind option_bind].
  rewrite Hlow. by rewrite HR.
Qed.

Lemma scanstring_escape_char (c : N) (t : pystr) :
  (c < 1114112)%N →
  (is_high_surrogate c = true → no_low_escape_ahead t) →
  scanstring (escape_char c ++ t) = prod_map (cons c) (λ r, r) <$> scanstring t.
Proof.
  intros Hc Hahead. unfold escape_char.
  destruct (c =? 34)%N eqn:E34; [apply N.eqb_eq in E34 as ->; reflexivity|].
  destruct (c =? 92)%N eqn:E92; [apply N.eqb_eq in E92 as ->; reflexivity|].
  destruct (c =? 8)%N eqn:E8; [apply N.eqb_eq in E8 as ->; reflexivity|].
  destruct (c =? 12)%N eqn:E12; [apply N.eqb_eq in E12 as ->; reflexivity|].
  destruct (c =? 10)%N eqn:E10; [apply N.eqb_eq in E10 as ->; reflexivity|].
  destruct (c =? 13)%N eqn:E13; [apply N.eqb_eq in E13 as ->; reflexivity|].
  destruct (c =? 9)%N eqn:E9; [apply N.eqb_eq in E9 as ->; reflexivity|].
  destruct ((32 <=? c)%N && (c <=? 126)%N) eqn:Eprint.
  { apply andb_true_iff in Eprint as [Hlo _]. apply N.leb_le in Hlo.
    cbn [app scanstring]. rewrite E34, E92.
    destruct (N.ltb_spec c 32); [lia | reflexivity]. }
  destruct (N.ltb_spec c 65536) as [Hbmp | Hsup].
  { by apply scanstring_escape_u. }
  destruct (surrogate_pair c ltac:(lia)) as (H1 & H2 & Hhigh & Hlow & Hval).
  cbv zeta. rewrite <- app_assoc.
  rewrite (scanstring_escape_pair _ _ t H1 H2 Hhigh Hlow), Hval. reflexivity.
Qed.

Lemma no_low_escape_ahead_head (c : N) (t : pystr) :
  (c =? 92)%N = false → no_low_escape_ahead (c :: t).
Proof.
  intros Hc. destruct t as [|? [|? [|? [|? [|? ?]]]]]; cbn; try done.
  by rewrite Hc.
Qed.

Lemma escape_char_ahead (c : N) (t : pystr) :
  (c < 1114112)%N →
  is_low_surrogate c = false → no_low_escape_ahead (escape_char c ++ t).
Proof.
  intros Hcp Hlow. unfold escape_char.
  destruct (c =? 34)%N eqn:E34; [by destruct t as [|? [|? [|? [|? ?]]]]|].
  destruct (c =? 92)%N eqn:E92; [by destruct t as [|? [|? [|? [|? ?]]]]|].
  destruct (c =? 8)%N eqn:E8; [by destruct t as [|? [|? [|? [|? ?]]]]|].
  destruct (c =? 12)%N eqn:E12; [by destruct t as [|? [|? [|? [|? ?]]]]|].
  destruct (c =? 10)%N eqn:E10; [by destruct t as [|? [|? [|? [|? ?]]]]|].
  destruct (c =? 13)%N eqn:E13; [by destruct t as [|? [|? [|? [|? ?]]]]|].
  destruct (c =? 9)%N eqn:E9; [by destruct t as [|? [|? [|? [|? ?]]]]|].
  destruct ((32 <=? c)%N && (c <=? 126)%N) eqn:Eprint.
  { by apply no_low_escape_ahead_head. }
  destruct (N.ltb_spec c 65536) as [Hbmp | Hsup].
  { cbn. intros _. exists c. split; [by apply decode_hex4 | done]. }
  destruct (surrogate_pair c ltac:(lia)) as (H1 & H2 & Hhigh & _ & _).
  cbv zeta. cbn. intros _. eexists. split; [by apply decode_hex4|].
  revert Hhigh. generalize (N.lor 55296 (N.land (N.shiftr (c - 65536) 10) 1023)).
  intros s1. unfold is_high_surrogate, is_low_surrogate.
  rewrite andb_true_iff, andb_false_iff, !N.leb_le, !N.leb_gt.
  clear. intros [_ ?]. left. lia.
Qed.

Lemma scanstring_encoded (s rest : pystr) :
  text_ok s = true →
  scanstring (concat (map escape_char s) ++ 34%N :: rest) = Some (s, rest).
Proof.
  induction s as [|c s IH]; intros Hok; [reflexivity|].
  cbn [text_ok] in Hok.
  apply andb_true_iff in Hok as [Hok Hs]. apply andb_true_iff in Hok as [Hc Hpair].
  apply N.ltb_lt in Hc. apply negb_true_iff in Hpair.
  cbn [map concat]. rewrite <- app_assoc.
  rewrite scanstring_escape_char; [by rewrite (IH Hs) | exact Hc |].
  intros Hhigh. rewrite Hhigh in Hpair. cbn [andb] in Hpair.
  destruct s as [|c' s']; [by apply no_low_escape_ahead_head|].
  cbn [text_ok] in Hs. apply andb_true_iff in Hs as [Hs _].
  apply andb_true_iff in Hs as [Hc' _]. apply N.ltb_lt in Hc'.
  cbn [map concat]. rewrite <- app_assoc. by apply escape_char_ahead.
Qed.

Lemma scanstring_basestring (s rest : pystr) :
  text_ok s = true →
  ∃ body, encode_basestring_ascii s ++ rest = 34%N :: body
          ∧ scanstring body = Some (s, rest).
Proof.
  intros Hok. exists (concat (map escape_char s) ++ 34%N :: rest). split.
  - unfold encode_basestring_ascii. cbn. by rewrite <- app_assoc.
  - by apply scanstring_encoded.
Qed.

(** *** Values *)

Lemma str_of_int_start (z : Z) :
  ∃ c t, str_of_int z = c :: t ∧ value_start c = true.
Proof.
  unfold str_of_int. destruct (z <? 0).
  - exists 45%N, (digits (Z.to_N (- z))). done.
  - destruct (digits_spec (Z.to_N z)) as (d & ds & -> & Hdig & _).
    exists d, ds. split; [done|]. unfold value_start.
    by rewrite (Forall_inv Hdig).
Qed.

Lemma json_encode_start (level : nat) (o : pyobj) :
  ∃ c t, json_encode level o = c :: t ∧ value_start c = true.
Proof.
  destruct o as [z | s | [|x xs] | [|kv kvs]].
  - apply str_of_int_start.
  - by eexists 34%N, _.
  - by eexists 91%N, _.
  - by eexists 91%N, _.
  - by eexists 123%N, _.
  - by eexists 123%N, _.
Qed.

Lemma value_start_not_ws (c : N) : value_start c = true → is_ws c = false.
Proof.
  unfold value_start, is_ws, is_digit.
  rewrite !orb_true_iff, !orb_false_iff, andb_true_iff, !N.leb_le, !N.eqb_eq, !N.eqb_neq.
  lia.
Qed.

Lemma skip_ws_indent (level : nat) (t : pystr) :
  skip_ws (newline_indent level ++ t) = skip_ws t.
Proof.
  unfold newline_indent. cbn [app skip_ws]. change (is_ws 10) with true. cbv iota.
  induction (4 * level)%nat as [|n IH]; [done|].
  cbn [replicate app skip_ws]. change (is_ws 32) with true. exact IH.
Qed.

Lemma skip_ws_head (c : N) (t : pystr) :
  is_ws c = false → skip_ws (c :: t) = c :: t.
Proof. intros H. cbn. by rewrite H. Qed.

Lemma skip_ws_value (level : nat) (o : pyobj) (t : pystr) :
  skip_ws (json_encode level o ++ t) = json_encode level o ++ t.
Proof.
  destruct (json_encode_start level o) as (c & t' & -> & Hc).
  apply skip_ws_head. by apply value_start_not_ws.
Qed.

Lemma delimited_no_digit (rest : pystr) : delimited rest → no_digit_ahead rest.
Proof. destruct rest as [|c rest]; [done|]. by intros [-> | ->]. Qed.

Lemma delimited_no_float (rest : pystr) : delimited rest → float_follows rest = false.
Proof.
  destruct rest as [|c [|d rest]]; [done..|]. by intros [-> | ->].
Qed.

Lemma scan_once_int (fuel : nat) (z : Z) (rest : pystr) :
  delimited rest →
  scan_once (S fuel) (str_of_int z ++ rest) = Some (OInt z, rest).
Proof.
  intros Hrest.
  pose proof (match_integer_str_of_int z rest (delimited_no_digit rest Hrest)) as Hint.
  destruct (str_of_int_start z) as (c & t & Heq & Hc).
  rewrite Heq in *. cbn [app scan_once] in *.
  assert (Hnot : (c =? 34)%N = false ∧ (c =? 123)%N = false ∧ (c =? 91)%N = false).
  { revert Hint. unfold match_integer.
    destruct (c =? 45)%N eqn:E45.
    - apply N.eqb_eq in E45 as ->. done.
    - destruct (N.eqb_spec c 34) as [-> | _]; [done|].
      destruct (N.eqb_spec c 123) as [-> | _]; [done|].
      destruct (N.eqb_spec c 91) as [-> | _]; done. }
  destruct Hnot as (-> & -> & ->).
  rewrite Hint. cbn. by rewrite delimited_no_float.
Qed.

Lemma scan_once_str (fuel : nat) (s rest : pystr) :
  text_ok s = true →
  scan_once (S fuel) (encode_basestring_ascii s ++ rest) = Some (OStr s, rest).
Proof.
  intros Hok. destruct (scanstring_basestring s rest Hok) as (body & -> & Hbody).
  cbn [scan_once]. change (34 =? 34)%N with true. cbv iota. by rewrite Hbody.
Qed.

Lemma join_head (sep p : pystr) (ps : list pystr) :
  ∃ t, join sep (p :: ps) = p ++ t.
Proof.
  destruct ps as [|q ps]; [exists []; cbn; by rewrite app_nil_r|].
  by exists (sep ++ join sep (q :: ps)).
Qed.

Lemma array_items_encoded (level : nat) (items : list pyobj) (rest : pystr) :
  Forall reads_back items → items ≠ [] →
  ∀ fuel : nat,
    (2 * length (join (44%N :: newline_indent (S level))
                      (map (json_encode (S level)) items)
                 ++ newline_indent level ++ 93%N :: rest) + 1 ≤ fuel)%nat →
    array_items fuel
      (join (44%N :: newline_indent (S level)) (map (json_encode (S level)) items)
       ++ newline_indent level ++ 93%N :: rest)
    = Some (items, rest).
Proof.
  induction items as [|x xs IH]; [done|].
  intros Hall _ fuel Hfuel.
  apply Forall_cons in Hall as [Hx Hxs].
  destruct fuel as [|fuel]; [lia|].
  destruct xs as [|y ys].
  - cbn [map join] in *. cbn [array_items].
    rewrite (Hx (S level) fuel (newline_indent level ++ 93%N :: rest));
      [| by right | lia].
    cbn [mbind option_bind]. rewrite skip_ws_indent, skip_ws_head by done.
    reflexivity.
  - specialize (IH Hxs ltac:(done) fuel).
    remember (y :: ys) as more eqn:Hmore.
    assert (Hjoin : join (44%N :: newline_indent (S level))
                      (map (json_encode (S level)) (x :: more))
                    = json_encode (S level) x
                      ++ (44%N :: newline_indent (S level))
                      ++ join (44%N :: newline_indent (S level))
                              (map (json_encode (S level)) more)).
    { by rewrite Hmore. }
    rewrite Hjoin in *. clear Hjoin.
    set (J := join (44%N :: newline_indent (S level))
                   (map (json_encode (S level)) more)
              ++ newline_indent level ++ 93%N :: rest) in *.
    assert (Hassoc : (json_encode (S level) x
                      ++ (44%N :: newline_indent (S level))
                      ++ join (44%N :: newline_indent (S level))
                              (map (json_encode (S level)) more))
                     ++ newline_indent level ++ 93%N :: rest
                     = json_encode (S level) x
                       ++ 44%N :: newline_indent (S level) ++ J).
    { unfold J. by rewrite <- !app_assoc. }
    rewrite Hassoc in *. clear Hassoc.
    rewrite length_app in Hfuel. cbn [length] in Hfuel. rewrite length_app in Hfuel.
    cbn [array_items].
    rewrite (Hx (S level) fuel (44%N :: newline_indent (S level) ++ J));
      [| by left | rewrite length_app; cbn [length]; rewrite length_app; lia].
    cbn [mbind option_bind]. rewrite skip_ws_head by done.
    change (44 =? 93)%N with false. change (44 =? 44)%N with true. cbv iota.
    rewrite skip_ws_indent.
    assert (Hskip : skip_ws J = J).
    { unfold J. rewrite Hmore. cbn [map].
      destruct (join_head (44%N :: newline_indent (S level))
                  (json_encode (S level) y) (map (json_encode (S level)) ys))
        as [t ->].
      rewrite <- app_assoc. apply skip_ws_value. }
    rewrite Hskip, IH by lia. reflexivity.
Qed.

Lemma cons_eq_tail {A} (a : A) (l1 l2 : list A) : a :: l1 = a :: l2 → l1 = l2.
Proof. congruence. Qed.

Lemma pair_text_eq (level : nat) (k : pystr) (v : pyobj) (t : pystr) :
  (encode_basestring_ascii k ++ lit ": " ++ json_encode (S level) v) ++ t
  = 34%N :: (concat (map escape_char k)
             ++ 34%N :: 58%N :: 32%N :: json_encode (S level) v ++ t).
Proof.
  unfold encode_basestring_ascii. change (lit ": ") with [58%N; 32%N].
  cbn [app]. by rewrite <- !app_assoc.
Qed.

Lemma object_items_encoded (level : nat) (items : list (pystr * pyobj))
    (rest : pystr) :
  Forall (λ kv, text_ok kv.1 = true ∧ reads_back kv.2) items → items ≠ [] →
  ∀ (fuel : nat) (body : pystr),
    join (44%N :: newline_indent (S level))
         (map (λ kv, encode_basestring_ascii kv.1 ++ lit ": "
                     ++ json_encode (S level) kv.2) items)
    ++ newline_indent level ++ 125%N :: rest = 34%N :: body →
    (2 * length body + 1 ≤ fuel)%nat →
    object_items fuel body = Some (items, rest).
Proof.
  induction items as [|[k v] more IH]; [done|].
  intros Hall _ fuel body Hbody Hfuel.
  apply Forall_cons in Hall as [[Hk Hv] Hmore]. cbn [fst snd] in Hk, Hv.
  destruct fuel as [|fuel]; [lia|].
  destruct more as [|kv2 more'].
  - cbn [map join fst snd] in Hbody. rewrite pair_text_eq in Hbody.
    apply cons_eq_tail in Hbody. subst body.
    rewrite length_app in Hfuel. cbn [length] in Hfuel. rewrite length_app in Hfuel.
    cbn [object_items]. rewrite (scanstring_encoded k _ Hk).
    cbn [mbind option_bind]. rewrite skip_ws_head by done.
    change (58 =? 58)%N with true. cbv iota.
    cbn [skip_ws]. change (is_ws 32) with true. cbv iota.
    rewrite skip_ws_value.
    rewrite (Hv (S level) fuel (newline_indent level ++ 125%N :: rest));
      [| by right | rewrite length_app; lia].
    cbn [mbind option_bind]. rewrite skip_ws_indent, skip_ws_head by done.
    reflexivity.
  - remember (kv2 :: more') as others eqn:Hothers.
    set (sep := 44%N :: newline_indent (S level)) in *.
    set (text := λ kv : pystr * pyobj,
           encode_basestring_ascii kv.1 ++ lit ": " ++ json_encode (S level) kv.2) in *.
    set (J := join sep (map text others) ++ newline_indent level ++ 125%N :: rest).
    assert (Hshape : join sep (map text ((k, v) :: others))
                     ++ newline_indent level ++ 125%N :: rest
                     = (encode_basestring_ascii k ++ lit ": " ++ json_encode (S level) v)
                       ++ 44%N :: newline_indent (S level) ++ J).
    { rewrite Hothers. unfold J, sep. cbn [map join]. rewrite Hothers.
      unfold text at 1. cbn [fst snd]. by rewrite <- !app_assoc. }
    rewrite Hshape, pair_text_eq in Hbody. clear Hshape.
    apply cons_eq_tail in Hbody. subst body.
    assert (HJ : ∃ body2, J = 34%N :: body2).
    { unfold J. rewrite Hothers. cbn [map].
      destruct (join_head sep (text kv2) (map text more')) as [t ->].
      unfold text at 1, encode_basestring_ascii. cbn [app]. eauto. }
    destruct HJ as [body2 HJ].
    assert (Hne : others ≠ []) by (by rewrite Hothers).
    specialize (IH Hmore Hne fuel body2 HJ).
    rewrite length_app in Hfuel. cbn [length] in Hfuel.
    rewrite length_app in Hfuel. cbn [length] in Hfuel.
    rewrite length_app in Hfuel. rewrite HJ in Hfuel. cbn [length] in Hfuel.
    cbn [object_items]. rewrite (scanstring_encoded k _ Hk).
    cbn [mbind option_bind]. rewrite skip_ws_head by done.
    change (58 =? 58)%N with true. cbv iota.
    cbn [skip_ws]. change (is_ws 32) with true. cbv iota.
    rewrite skip_ws_value.
    rewrite (Hv (S level) fuel (44%N :: newline_indent (S level) ++ J));
      [| by left
       | rewrite length_app; cbn [length]; rewrite length_app, HJ; cbn [length]; lia].
    cbn [mbind option_bind]. rewrite skip_ws_head by done.
    change (44 =? 125)%N with false. change (44 =? 44)%N with true. cbv iota.
    rewrite skip_ws_indent, HJ, skip_ws_head by done.
    change (34 =? 34)%N with true. cbv iota.
    rewrite IH by lia. reflexivity.
Qed.

Lemma dict_set_fresh (key : pystr) (value : pyobj) (items : list (pystr * pyobj)) :
  key ∉ map fst items → dict_set key value items = items ++ [(key, value)].
Proof.
  induction items as [|[k v] items IH]; intros Hfresh; [done|].
  cbn [map fst] in Hfresh. apply not_elem_of_cons in Hfresh as [Hne Hfresh].
  cbn [dict_set app]. rewrite bool_decide_eq_false_2 by congruence.
  by rewrite IH.
Qed.

Lemma dict_of_pairs_from (acc pairs : list (pystr * pyobj)) :
  NoDup (map fst (acc ++ pairs)) →
  foldl (λ items kv, dict_set kv.1 kv.2 items) acc pairs = acc ++ pairs.
Proof.
  revert acc. induction pairs as [|[k v] pairs IH]; intros acc Hnodup.
  - by rewrite app_nil_r.
  - cbn [foldl fst snd].
    rewrite dict_set_fresh.
    + rewrite IH; rewrite <- app_assoc; [done|exact Hnodup].
    + rewrite map_app in Hnodup. apply NoDup_app in Hnodup as (_ & Hdisj & _).
      intros Hin. apply (Hdisj k Hin). cbn. apply elem_of_cons. by left.
Qed.

Lemma dict_of_pairs_nodup (pairs : list (pystr * pyobj)) :
  NoDup (map fst pairs) → dict_of_pairs pairs = pairs.
Proof. intros H. unfold dict_of_pairs. by rewrite dict_of_pairs_from. Qed.

Lemma wf_list_Forall (items : list pyobj) :
  foldr (λ x acc, wf_obj x ∧ acc) True items → Forall wf_obj items.
Proof.
  induction items as [|x xs IH]; [constructor|].
  cbn. intros [Hx Hxs]. constructor; auto.
Qed.

Lemma wf_dict_Forall (items : list (pystr * pyobj)) :
  foldr (λ kv acc, (text_ok kv.1 = true ∧ wf_obj kv.2) ∧ acc) True items →
  Forall (λ kv, text_ok kv.1 = true ∧ wf_obj kv.2) items.
Proof.
  induction items as [|x xs IH]; [constructor|].
  cbn. intros [Hx Hxs]. constructor; auto.
Qed.

Lemma value_start_not_close (c : N) :
  value_start c = true → (c =? 93)%N = false ∧ (c =? 125)%N = false.
Proof.
  unfold value_start, is_digit.
  rewrite !orb_true_iff, andb_true_iff, !N.leb_le, !N.eqb_eq, !N.eqb_neq. lia.
Qed.

(** Every well-formed object is read back from its encoding. *)
Lemma scan_once_encoded (o : pyobj) : wf_obj o → reads_back o.
Proof.
  induction o as [z | s | items IH | items IH] using pyobj_induction;
    intros Hwf level fuel rest Hrest Hfuel.
  - destruct (str_of_int_start z) as (c & t & Heq & _).
    cbn [json_encode] in *. destruct fuel as [|fuel].
    + rewrite Heq in Hfuel. cbn in Hfuel. lia.
    + by apply scan_once_int.
  - cbn [json_encode] in *. destruct fuel as [|fuel].
    + unfold encode_basestring_ascii in Hfuel. cbn in Hfuel. lia.
    + by apply scan_once_str.
  - destruct items as [|x xs].
    { change (json_encode level (OList [])) with [91%N; 93%N] in *.
      destruct fuel as [|fuel]; [cbn in Hfuel; lia|].
      cbn [app scan_once]. change (91 =? 34)%N with false.
      change (91 =? 123)%N with false. change (91 =? 91)%N with true. cbv iota.
      by rewrite skip_ws_head. }
    assert (Henc : json_encode level (OList (x :: xs)) ++ rest
                   = 91%N :: newline_indent (S level)
                     ++ (join (44%N :: newline_indent (S level))
                              (map (json_encode (S level)) (x :: xs))
                         ++ newline_indent level ++ 93%N :: rest)).
    { change (json_encode level (OList (x :: xs)))
        with ([91%N] ++ newline_indent (S level)
              ++ join ([44%N] ++ newline_indent (S level))
                      (map (json_encode (S level)) (x :: xs))
              ++ newline_indent level ++ [93%N]).
      cbn [app]. by rewrite <- !app_assoc. }
    rewrite Henc in *. clear Henc.
    cbn [length] in Hfuel. rewrite length_app in Hfuel.
    destruct fuel as [|fuel]; [lia|].
    cbn [scan_once]. change (91 =? 34)%N with false. change (91 =? 123)%N with false.
    change (91 =? 91)%N with true. cbv iota.
    rewrite skip_ws_indent.
    pose proof (array_items_encoded level (x :: xs) rest) as Hitems.
    set (T := join (44%N :: newline_indent (S level))
                   (map (json_encode (S level)) (x :: xs))
              ++ newline_indent level ++ 93%N :: rest) in *.
    assert (HT : ∃ c t, T = c :: t ∧ value_start c = true).
    { unfold T. cbn [map].
      destruct (join_head (44%N :: newline_indent (S level))
                  (json_encode (S level) x) (map (json_encode (S level)) xs))
        as [t ->].
      destruct (json_encode_start (S level) x) as (c & t' & -> & Hc).
      cbn [app]. eauto. }
    destruct HT as (c & t & HT & Hc).
    rewrite HT, skip_ws_head by (by apply value_start_not_ws).
    destruct (value_start_not_close c Hc) as [-> _].
    rewrite <- HT, Hitems; [reflexivity | | done | lia].
    apply wf_list_Forall in Hwf.
    rewrite Forall_forall in IH, Hwf. apply Forall_forall.
    intros y Hy. apply IH; [done | by apply Hwf].
  - destruct items as [|[k v] kvs].
    { change (json_encode level (ODict [])) with [123%N; 125%N] in *.
      destruct fuel as [|fuel]; [cbn in Hfuel; lia|].
      cbn [app scan_once]. change (123 =? 34)%N with false.
      change (123 =? 123)%N with true. cbv iota.
      by rewrite skip_ws_head. }
    destruct Hwf as [Hnodup Hwf]. apply wf_dict_Forall in Hwf.
    set (text := λ kv : pystr * pyobj,
           encode_basestring_ascii kv.1 ++ lit ": " ++ json_encode (S level) kv.2).
    assert (Henc : json_encode level (ODict ((k, v) :: kvs)) ++ rest
                   = 123%N :: newline_indent (S level)
                     ++ (join (44%N :: newline_indent (S level))
                              (map text ((k, v) :: kvs))
                         ++ newline_indent level ++ 125%N :: rest)).
    { change (json_encode level (ODict ((k, v) :: kvs)))
        with ([123%N] ++ newline_indent (S level)
              ++ join ([44%N] ++ newline_indent (S level))
                      (map text ((k, v) :: kvs))
              ++ newline_indent level ++ [125%N]).
      cbn [app]. by rewrite <- !app_assoc. }
    rewrite Henc in *. clear Henc.
    cbn [length] in Hfuel. rewrite length_app in Hfuel.
    destruct fuel as [|fuel]; [lia|].
    cbn [scan_once]. change (123 =? 34)%N with false. change (123 =? 123)%N with true.
    cbv iota. rewrite skip_ws_indent.
    pose proof (object_items_encoded level ((k, v) :: kvs) rest) as Hitems.
    fold text in Hitems.
    set (T := join (44%N :: newline_indent (S level)) (map text ((k, v) :: kvs))
              ++ newline_indent level ++ 125%N :: rest) in *.
    assert (HT : ∃ body, T = 34%N :: body).
    { unfold T. cbn [map].
      destruct (join_head (44%N :: newline_indent (S level))
                  (text (k, v)) (map text kvs)) as [t ->].
      unfold text at 1, encode_basestring_ascii. cbn [app]. eauto. }
    destruct HT as (body & HT).
    rewrite HT, skip_ws_head by done.
    change (34 =? 125)%N with false. change (34 =? 34)%N with true. cbv iota.
    assert (Hall : Forall (λ kv, text_ok kv.1 = true ∧ reads_back kv.2)
                          ((k, v) :: kvs)).
    { rewrite Forall_forall in IH, Hwf. apply Forall_forall.
      intros kv Hkv. destruct (Hwf kv Hkv) as [Hkey Hval].
      split; [done | by apply IH]. }
    rewrite (Hitems Hall ltac:(done) fuel body HT).
    + cbn -[dict_of_pairs]. by rewrite dict_of_pairs_nodup.
    + rewrite HT in Hfuel. cbn [length] in Hfuel. lia.
Qed.

Lemma json_loads_dumps (o : pyobj) :
  wf_obj o → json_loads (json_dumps o) = Some o.
Proof.
  intros Hwf. unfold json_loads, json_dumps.
  pose proof (skip_ws_value 0 o []) as Hskip. rewrite app_nil_r in Hskip.
  rewrite Hskip.
  pose proof (scan_once_encoded o Hwf 0%nat (2 * length (json_encode 0 o))%nat [] I)
    as Hscan.
  rewrite app_nil_r in Hscan. rewrite Hscan by lia. reflexivity.
Qed.

(** *** Table records *)

Lemma wf_list_of_Forall (items : list pyobj) :
  Forall wf_obj items → foldr (λ x acc, wf_obj x ∧ acc) True items.
Proof. induction 1; cbn; auto. Qed.

Lemma wf_cell_obj (c : cell_info) :
  text_ok (content c) = true → wf_obj (cell_obj c).
Proof.
  intros Hc. unfold cell_obj. cbn [wf_obj map fst foldr snd]. split.
  - apply (bool_decide_unpack _). reflexivity.
  - repeat split; try reflexivity. exact Hc.
Qed.

Lemma wf_table_obj (t : table_info) :
  Forall (λ c, text_ok (content c) = true) (cells t) → wf_obj (table_obj t).
Proof.
  intros Hcells. unfold table_obj. cbn [wf_obj map fst foldr snd]. split.
  - apply (bool_decide_unpack _). reflexivity.
  - repeat split; try reflexivity.
    apply wf_list_of_Forall. apply Forall_forall. intros o Ho.
    apply list_elem_of_fmap in Ho as (c & -> & Hc).
    apply wf_cell_obj. rewrite Forall_forall in Hcells. by apply Hcells.
Qed.

Lemma wf_table_data_obj (table_data : list table_info) :
  contents_ok table_data → wf_obj (table_data_obj table_data).
Proof.
  intros Hok. unfold table_data_obj. cbn [wf_obj].
  apply wf_list_of_Forall. apply Forall_forall. intros o Ho.
  apply list_elem_of_fmap in Ho as (t & -> & Ht).
  apply wf_table_obj. unfold contents_ok in Hok.
  rewrite Forall_forall in Hok. by apply Hok.
Qed.

Lemma map_injective {A B} (f : A → B) (l l' : list A) :
  (∀ x y, f x = f y → x = y) → map f l = map f l' → l = l'.
Proof.
  intros Hf. revert l'. induction l as [|x l IH]; intros [|y l'] Heq;
    try done.
  cbn in Heq. injection Heq as Hxy Hl. f_equal; auto.
Qed.

Lemma cell_obj_inj (c c' : cell_info) : cell_obj c = cell_obj c' → c = c'.
Proof.
  destruct c, c'. unfold cell_obj. cbn. intros [= -> -> ->]. reflexivity.
Qed.

Lemma table_obj_inj (t t' : table_info) : table_obj t = table_obj t' → t = t'.
Proof.
  destruct t as [p cs], t' as [p' cs']. unfold table_obj. cbn.
  intros [= -> Hcells]. f_equal.
  eapply map_injective; [apply cell_obj_inj | exact Hcells].
Qed.

Lemma table_data_obj_inj (td td' : list table_info) :
  table_data_obj td = table_data_obj td' → td = td'.
Proof.
  unfold table_data_obj. intros [= Heq].
  eapply map_injective; [apply table_obj_inj | exact Heq].
Qed.

(** C8 (as amended). For table records whose cell contents are texts in
    which no high surrogate is immediately followed by a low surrogate,
    reading back the text of the json export gives the very list of
    page-number-and-cells records that was written: the object read is the
    object of the records, and no other list of records has that object. *)
Theorem json_export_round_trip (table_data : list table_info) :
  contents_ok table_data →
  json_loads (json_dumps (table_data_obj table_data))
  = Some (table_data_obj table_data)
  ∧ ∀ table_data',
      table_data_obj table_data' = table_data_obj table_data →
      table_data' = table_data.
Proof.
  intros Hok. split.
  - apply json_loads_dumps. by apply wf_table_data_obj.
  - intros td' Heq. by apply table_data_obj_inj.
Qed.

Lemma plain_tables_ok : contents_ok plain_tables.
Proof. unfold contents_ok, plain_tables. repeat constructor. Defined.

Lemma json_export_round_trip_witness :
  json_loads (json_dumps (table_data_obj plain_tables))
  = Some (table_data_obj plain_tables)
  ∧ ∀ table_data',
      table_data_obj table_data' = table_data_obj plain_tables →
      table_data' = plain_tables.
Proof. exact (json_export_round_trip plain_tables plain_tables_ok). Defined.

(** C8 (as stated) fails: the export of a cell that holds a high surrogate
    followed by a low surrogate reads back as a cell that holds the single
    character the pair encodes. *)
Lemma split_pair_reads_joined :
  json_loads (json_dumps (table_data_obj split_pair_table))
  = Some (table_data_obj joined_pair_table)
  ∧ json_loads (json_dumps (table_data_obj split_pair_table))
    ≠ Some (table_data_obj split_pair_table).
Proof.
  assert (H : json_loads (json_dumps (table_data_obj split_pair_table))
              = Some (table_data_obj joined_pair_table)) by (by vm_compute).
  split; [exact H|]. rewrite H. intros [= ].
Qed.

(** * Further properties *)

(** ** The gates, one by one *)

(** X1. Whatever the configuration, a run with no documents selected or
    with no organization does one thing only: it sets a message; then it
    exits with status 0. Nothing is computed, printed or charged. *)
Theorem main_stops_before_the_cost (self : addon) :
  document_count self = PNone ∨ truthy (org_id self) = false →
  outcome (main self) = SysExit 0
  ∧ (∃ message, trace (main self) = [ESetMessage message])
  ∧ charged_amounts (trace (main self)) = [].
Proof.
  intros Hgate. unfold main, validate.
  destruct (bool_decide (document_count self = PNone)) eqn:Hdoc.
  - cbn. eauto.
  - destruct Hgate as [Hnone | Horg];
      [by apply bool_decide_eq_false_1 in Hdoc|].
    rewrite Horg. cbn. eauto.
Qed.

Lemma main_stops_before_the_cost_witness :
  outcome (main no_organization_run) = SysExit 0
  ∧ (∃ message, trace (main no_organization_run) = [ESetMessage message])
  ∧ charged_amounts (trace (main no_organization_run)) = [].
Proof.
  apply (main_stops_before_the_cost no_organization_run). right. reflexivity.
Defined.

(** X2. The page range is checked after the charge: a run with documents,
    an organization and an accepted charge whose end page is below its
    start page, or whose start page is below 1, has charged the cost when
    it stops, and it stops without analysing a page or touching the
    archive. *)
Theorem main_charges_before_range_check (self : addon) (s e : Z) :
  dict_get_default (data self) "start_page" (PInt 1) = PInt s →
  data self !! "end_page" = Some (PInt e) →
  document_count self ≠ PNone →
  truthy (org_id self) = true →
  billing self (PInt (run_cost self s e)) = Charged →
  e < s ∨ s < 1 →
  outcome (main self) = SysExit 0
  ∧ charged_amounts (trace (main self)) = [PInt (run_cost self s e)]
  ∧ analyzed_pages (trace (main self)) = []
  ∧ Forall (λ ev, archive_event ev = false) (trace (main self)).
Proof.
  intros Hs He Hdoc Horg Hch Hrange.
  rewrite (main_eq self s e Hs He). cbv zeta.
  rewrite (bool_decide_eq_false_2 _ Hdoc), Horg, Hch. cbn [negb].
  rewrite bool_decide_eq_true_2 by done. cbn [negb].
  destruct (Z.ltb_spec e s) as [Hes | Hes].
  - cbn. split; [done|]. split; [done|]. split; [done|]. by repeat constructor.
  - destruct (Z.ltb_spec s 1) as [Hs1 | Hs1]; [|lia].
    cbn. split; [done|]. split; [done|]. split; [done|]. by repeat constructor.
Qed.

Lemma main_charges_before_range_check_witness :
  outcome (main reversed_range_run) = SysExit 0
  ∧ charged_amounts (trace (main reversed_range_run))
    = [PInt (run_cost reversed_range_run 4 2)]
  ∧ analyzed_pages (trace (main reversed_range_run)) = []
  ∧ Forall (λ ev, archive_event ev = false) (trace (main reversed_range_run)).
Proof.
  apply (main_charges_before_range_check reversed_range_run 4 2);
    try reflexivity; try discriminate. left. lia.
Defined.

(** X3. With documents and an organization, [validate] never raises and
    never exits: it prints the cost, asks for the charge of that cost once,
    and returns [True] when the charge goes through and [False] when it
    raises [ValueError] or [APIError]. *)
Theorem validate_charges_once (self : addon) (s e : Z) :
  dict_get_default (data self) "start_page" (PInt 1) = PInt s →
  data self !! "end_page" = Some (PInt e) →
  document_count self ≠ PNone →
  truthy (org_id self) = true →
  trace (validate self)
  = [EPrint (PInt (run_cost self s e)); EChargeCredits (PInt (run_cost self s e))]
  ∧ match billing self (PInt (run_cost self s e)) with
    | Charged => outcome (validate self) = Return true
    | InsufficientCredits | BillingAPIError => outcome (validate self) = Return false
    end.
Proof.
  intros Hs He Hdoc Horg. rewrite (validate_eq self s e Hs He).
  rewrite (bool_decide_eq_false_2 _ Hdoc), Horg. cbn [negb].
  split; [reflexivity|].
  by destruct (billing self (PInt (run_cost self s e))).
Qed.

Lemma validate_charges_once_witness :
  trace (validate refused_charge_run)
  = [EPrint (PInt (run_cost refused_charge_run 1 2));
     EChargeCredits (PInt (run_cost refused_charge_run 1 2))]
  ∧ match billing refused_charge_run (PInt (run_cost refused_charge_run 1 2)) with
    | Charged => outcome (validate refused_charge_run) = Return true
    | InsufficientCredits | BillingAPIError =>
        outcome (validate refused_charge_run) = Return false
    end.
Proof.
  apply (validate_charges_once refused_charge_run 1 2);
    try reflexivity; discriminate.
Defined.

(** X4. A run over no document at all (a search that finds nothing) with a
    valid range costs 0 and charges 0; when the authentication, the
    creation of the archive and the upload go through, it uploads an
    archive it opened and closed without writing to it. The cost estimate
    does not read the configuration then, so the run goes through even
    without an [end_page]. *)
Theorem main_without_documents (self : addon) (s e : Z) :
  documents self = [] →
  document_count self ≠ PNone →
  truthy (org_id self) = true →
  billing self (PInt 0) = Charged →
  dict_get_default (data self) "start_page" (PInt 1) = PInt s →
  dict_get_default (data self) "end_page" (PInt 1) = PInt e →
  1 ≤ s ≤ e →
  fails self EAuthenticate = None →
  fails self (EZipOpen (lit "tables.zip")) = None →
  fails self (EUploadFile (lit "tables.zip")) = None →
  main self
  = ([EPrint (PInt 0); EChargeCredits (PInt 0); EAuthenticate;
      EZipOpen (lit "tables.zip"); EZipClose; EUploadFile (lit "tables.zip")],
     Return tt).
Proof.
  intros Hdocs Hcount Horg Hch Hs He Hrange Hauth Hopen Hupload.
  rewrite (main_eq_read self s e Hs He (λ _, Hdocs)). cbv zeta.
  assert (Hcost : run_cost self s e = 0) by (unfold run_cost; by rewrite Hdocs).
  rewrite Hcost, (bool_decide_eq_false_2 _ Hcount), Horg, Hch. cbn [negb].
  rewrite bool_decide_eq_true_2 by done. cbn [negb].
  destruct (Z.ltb_spec e s); [lia|]. destruct (Z.ltb_spec s 1); [lia|].
  unfold main_analysis, call. rewrite Hdocs, Hauth, Hopen, Hupload. reflexivity.
Qed.

Lemma main_without_documents_witness :
  main empty_search_run
  = ([EPrint (PInt 0); EChargeCredits (PInt 0); EAuthenticate;
      EZipOpen (lit "tables.zip"); EZipClose; EUploadFile (lit "tables.zip")],
     Return tt).
Proof.
  apply (main_without_documents empty_search_run 1 1);
    try reflexivity; try discriminate. lia.
Defined.

(** ** The size of the cost *)

Lemma Zsum_pages_bounds (s e : Z) (docs : list document) :
  Zsum (map (pages_costed s e) docs) ≤ Z.of_nat (length docs) * (e - s + 1)
  ∧ (Forall (λ doc, e ≤ page_count doc) docs →
     Zsum (map (pages_costed s e) docs) = Z.of_nat (length docs) * (e - s + 1))
  ∧ (s - 1 ≤ e → Forall (λ doc, s - 1 ≤ page_count doc) docs →
     0 ≤ Zsum (map (pages_costed s e) docs)).
Proof.
  unfold Zsum, pages_costed.
  induction docs as [|doc docs (IH1 & IH2 & IH3)]; cbn [map foldr length].
  - split; [lia|]. split; [intros; lia | intros; lia].
  - split; [lia|]. split.
    + intros [Hd Hall]%Forall_cons. specialize (IH2 Hall). lia.
    + intros Hse [Hd Hall]%Forall_cons. specialize (IH3 Hse Hall). lia.
Qed.

(** X5. The cost never exceeds 7 credits for every page of the range and
    every document; it is exactly that when every document reaches the end
    page; and it is not negative when no document is shorter than
    [start_page - 1] and the end page is not below that either. *)
Theorem calculate_cost_bounds (self : addon) (s e : Z) (docs : list document) :
  dict_get_default (data self) "start_page" (PInt 1) = PInt s →
  data self !! "end_page" = Some (PInt e) →
  ∃ cost,
    outcome (calculate_cost self docs) = Return (PInt cost)
    ∧ cost ≤ 7 * (Z.of_nat (length docs) * (e - s + 1))
    ∧ (Forall (λ doc, e ≤ page_count doc) docs →
       cost = 7 * (Z.of_nat (length docs) * (e - s + 1)))
    ∧ (s - 1 ≤ e → Forall (λ doc, s - 1 ≤ page_count doc) docs → 0 ≤ cost).
Proof.
  intros Hs He. rewrite (calculate_cost_eq self s e docs Hs He).
  destruct (Zsum_pages_bounds s e docs) as (H1 & H2 & H3).
  eexists. split; [reflexivity|]. split; [lia|]. split.
  - intros Hall. specialize (H2 Hall). lia.
  - intros Hse Hall. specialize (H3 Hse Hall). lia.
Qed.

Lemma calculate_cost_bounds_witness :
  ∃ cost,
    outcome (calculate_cost two_documents_run (documents two_documents_run))
    = Return (PInt cost)
    ∧ cost ≤ 7 * (Z.of_nat (length (documents two_documents_run)) * (2 - 1 + 1))
    ∧ (Forall (λ doc, 2 ≤ page_count doc) (documents two_documents_run) →
       cost = 7 * (Z.of_nat (length (documents two_documents_run)) * (2 - 1 + 1)))
    ∧ (1 - 1 ≤ 2 →
       Forall (λ doc, 1 - 1 ≤ page_count doc) (documents two_documents_run) →
       0 ≤ cost).
Proof.
  apply (calculate_cost_bounds two_documents_run 1 2 (documents two_documents_run));
    reflexivity.
Defined.

(** ** A configuration without an end page *)

(** X6. With at least one document, an organization and a selection, a
    run whose configuration has no [end_page] ends in a [TypeError] before
    it has printed, charged or analysed anything, whatever else is
    configured. *)
Theorem main_raises_without_end_page (self : addon) :
  data self !! "end_page" = None →
  documents self ≠ [] →
  document_count self ≠ PNone →
  truthy (org_id self) = true →
  main self = ([], Raise TypeError).
Proof.
  intros He Hdocs Hcount Horg.
  destruct (documents self) as [|doc docs] eqn:Edocs; [done|].
  unfold main, validate. rewrite Edocs.
  rewrite (calculate_cost_without_end_page self doc docs He).
  rewrite (bool_decide_eq_false_2 _ Hcount), Horg. reflexivity.
Qed.

Lemma main_raises_without_end_page_witness :
  main no_end_page_run = ([], Raise TypeError).
Proof.
  apply (main_raises_without_end_page no_end_page_run);
    try reflexivity; discriminate.
Defined.

(** ** The charge and the pages analysed *)

Lemma pages_costed_le_pages (s e : Z) (docs : list document) :
  s - 1 ≤ e →
  let pages := concat (map (λ doc, map (pair (id doc)) (pages_in_range s e doc)) docs) in
  Zsum (map (pages_costed s e) docs) ≤ Z.of_nat (length pages)
  ∧ (Zsum (map (pages_costed s e) docs) = Z.of_nat (length pages)
     ↔ Forall (λ doc, s - 1 ≤ page_count doc) docs).
Proof.
  intros Hse. cbv zeta. unfold Zsum.
  induction docs as [|doc docs [IHle IHeq]]; [split; [done | by split]|].
  cbn [map concat foldr]. rewrite length_app, length_map.
  unfold pages_in_range at 1 3. rewrite length_seqZ.
  unfold pages_costed at 1 3. rewrite Forall_cons.
  split; [lia|]. split.
  - intros Heq. split; [lia|]. apply IHeq. lia.
  - intros [Hdoc Hall]. apply IHeq in Hall. lia.
Qed.

(** X7. A run that completes, in whatever format, has charged once, and
    not more than 7 credits per page it has submitted to the analysis
    service. It has charged exactly that much if and only if no document is
    shorter than [start_page - 1]: every shorter document lowers the
    charge. *)
Theorem main_never_overcharges (self : addon) (s e : Z) :
  dict_get_default (data self) "start_page" (PInt 1) = PInt s →
  dict_get_default (data self) "end_page" (PInt 1) = PInt e →
  outcome (main self) = Return tt →
  ∃ amount,
    charged_amounts (trace (main self)) = [PInt amount]
    ∧ amount ≤ 7 * Z.of_nat (length (analyzed_pages (trace (main self))))
    ∧ (amount = 7 * Z.of_nat (length (analyzed_pages (trace (main self))))
       ↔ Forall (λ doc, s - 1 ≤ page_count doc) (documents self)).
Proof.
  intros Hs He Hret.
  destruct (main_charge_and_pages self s e Hs He Hret) as (Hgo & _ & -> & ->).
  exists (run_cost self s e). split; [reflexivity|].
  assert (Hse : s - 1 ≤ e) by (unfold halt_condition in Hgo; lia).
  destruct (pages_costed_le_pages s e (documents self) Hse) as [Hle Heq].
  cbv zeta in Hle, Heq. unfold run_cost, pages_of_run. split; [lia|].
  rewrite <- Heq. lia.
Qed.

Lemma main_never_overcharges_witness :
  ∃ amount,
    charged_amounts (trace (main two_documents_run)) = [PInt amount]
    ∧ amount ≤ 7 * Z.of_nat (length (analyzed_pages (trace (main two_documents_run))))
    ∧ (amount = 7 * Z.of_nat (length (analyzed_pages (trace (main two_documents_run))))
       ↔ Forall (λ doc, 1 - 1 ≤ page_count doc) (documents two_documents_run)).
Proof.
  apply (main_never_overcharges two_documents_run 1 2); reflexivity.
Defined.

(** ** The tabular export, further *)

Lemma convert_to_csv_step_from (t : table_info) (csv_data : list (list pyval)) :
  convert_to_csv_step t csv_data
  = block ← convert_to_csv_step t []; Return (csv_data ++ block).
Proof.
  unfold convert_to_csv_step.
  destruct (py_max (map row_index (cells t))) as [m | e | c]; cbn; [|done..].
  destruct (place_cells (cells t) (replicate (Z.to_nat (m + 1)) []))
    as [rows | e | c]; cbn; [|done..].
  rewrite !(foldl_append_map (λ row, row)), !map_id. cbn.
  by rewrite <- !app_assoc.
Qed.

Lemma for_in_convert_from (table_data : list table_info)
    (csv_data : list (list pyval)) :
  for_in table_data convert_to_csv_step csv_data
  = rows ← convert_to_csv table_data; Return (csv_data ++ rows).
Proof.
  unfold convert_to_csv. revert csv_data.
  induction table_data as [|t td IH]; intros csv_data.
  - cbn. by rewrite app_nil_r.
  - cbn [for_in]. rewrite (convert_to_csv_step_from t csv_data).
    destruct (convert_to_csv_step t []) as [block | e | c]; cbn; [|done..].
    rewrite (IH (csv_data ++ block)), (IH block).
    destruct (for_in td convert_to_csv_step []); cbn; [|done..].
    by rewrite <- app_assoc.
Qed.

(** X8. Converting a sequence of table records gives the rows of its first
    part followed by the rows of the rest; it raises what the first part
    raises, or else what the rest raises. So the grid of a document is the
    grids of its pages one after the other. *)
Theorem convert_to_csv_app (td1 td2 : list table_info) :
  convert_to_csv (td1 ++ td2)
  = rows1 ← convert_to_csv td1; rows2 ← convert_to_csv td2; Return (rows1 ++ rows2).
Proof.
  unfold convert_to_csv at 1.
  assert (Happ : ∀ csv_data,
            for_in (td1 ++ td2) convert_to_csv_step csv_data
            = csv ← for_in td1 convert_to_csv_step csv_data;
              for_in td2 convert_to_csv_step csv).
  { induction td1 as [|t td1 IH]; intros csv_data; [done|].
    cbn [app for_in].
    destruct (convert_to_csv_step t csv_data); cbn; [apply IH | done..]. }
  rewrite Happ. fold (convert_to_csv td1).
  destruct (convert_to_csv td1) as [rows1 | e | c]; cbn; [|done..].
  rewrite for_in_convert_from. reflexivity.
Qed.

Lemma py_index_wrapped (len : nat) (i : Z) :
  - Z.of_nat len ≤ i < Z.of_nat len →
  py_index len i = Return (Z.to_nat (wrapped_row (Z.of_nat len) i)).
Proof.
  intros Hi. unfold py_index, wrapped_row.
  destruct (decide (i < 0)) as [Hneg | Hpos].
  - rewrite bool_decide_eq_false_2 by lia.
    rewrite bool_decide_eq_true_2 by lia.
    by rewrite (bool_decide_eq_true_2 (i < 0)) by lia.
  - rewrite bool_decide_eq_true_2 by lia.
    by rewrite (bool_decide_eq_false_2 (i < 0)) by lia.
Qed.

Lemma py_index_out_of_range (len : nat) (i : Z) :
  ¬ (- Z.of_nat len ≤ i < Z.of_nat len) → py_index len i = Raise IndexError.
Proof.
  intros Hi. unfold py_index.
  rewrite bool_decide_eq_false_2 by lia. by rewrite bool_decide_eq_false_2 by lia.
Qed.

(** The contents of the cells that land in row [k] of [n]. *)
Lemma place_cells_wrapped (cells : list cell_info) (rows : list (list pyval)) :
  Forall (λ c, - Z.of_nat (length rows) ≤ row_index c < Z.of_nat (length rows)) cells →
  place_cells cells rows
  = Return (imap (λ k row,
                    row ++ map (λ c, PStr (content c))
                               (filter (λ c, wrapped_row (Z.of_nat (length rows))
                                                         (row_index c) = Z.of_nat k)
                                       cells))
                 rows).
Proof.
  revert rows. induction cells as [|c cells IH]; intros rows Hall.
  - cbn. f_equal. apply list_eq. intros k.
    rewrite list_lookup_imap. destruct (rows !! k); cbn; [|done].
    by rewrite app_nil_r.
  - apply Forall_cons in Hall as [Hc Hall].
    cbn [place_cells]. rewrite py_index_wrapped by exact Hc. cbn [mbind result_bind].
    rewrite IH by (by rewrite length_alter). rewrite length_alter.
    f_equal. apply list_eq. intros k.
    rewrite !list_lookup_imap, filter_cons.
    set (n := Z.of_nat (length rows)) in *.
    assert (Hw : 0 ≤ wrapped_row n (row_index c) < n).
    { unfold wrapped_row. case_bool_decide; lia. }
    destruct (decide (Z.to_nat (wrapped_row n (row_index c)) = k)) as [<- | Hne].
    + rewrite list_lookup_alter_eq.
      destruct (rows !! Z.to_nat (wrapped_row n (row_index c))) as [row|]; cbn; [|done].
      rewrite decide_True by lia. cbn. by rewrite <- app_assoc.
    + rewrite list_lookup_alter_ne by done.
      destruct (rows !! k) as [row|]; cbn; [|done].
      by rewrite decide_False by lia.
Qed.

Lemma place_cells_out_of_range (cells : list cell_info) (rows : list (list pyval)) :
  Exists (λ c, ¬ (- Z.of_nat (length rows) ≤ row_index c < Z.of_nat (length rows)))
         cells →
  place_cells cells rows = Raise IndexError.
Proof.
  revert rows. induction cells as [|c cells IH]; intros rows Hex.
  - by apply Exists_nil in Hex.
  - cbn [place_cells].
    destruct (decide (- Z.of_nat (length rows) ≤ row_index c < Z.of_nat (length rows)))
      as [Hin | Hout].
    + rewrite py_index_wrapped by exact Hin. cbn [mbind result_bind].
      apply IH. rewrite length_alter.
      apply Exists_cons in Hex as [Hc | Hex]; [done | exact Hex].
    + by rewrite py_index_out_of_range.
Qed.

Lemma wrapped_rows_eq (cells : list cell_info) (n : nat) :
  imap (λ k row,
          row ++ map (λ c, PStr (content c))
                     (filter (λ c, wrapped_row (Z.of_nat n) (row_index c) = Z.of_nat k)
                             cells))
       (replicate n [])
  = map (λ k, map (λ c, PStr (content c))
                  (filter (λ c, wrapped_row (Z.of_nat n) (row_index c) = k) cells))
        (seqZ 0 (Z.of_nat n)).
Proof.
  apply list_eq. intros k.
  rewrite list_lookup_imap, list_lookup_fmap.
  destruct (decide (k < n)%nat) as [Hlt | Hge].
  - rewrite lookup_replicate_2 by done.
    rewrite lookup_seqZ_lt by lia. reflexivity.
  - rewrite (proj1 (lookup_replicate_None n [] k)) by lia.
    rewrite lookup_seqZ_ge by lia. reflexivity.
Qed.

Lemma convert_to_csv_step_wrapped (t : table_info) (r : Z) :
  max_row_index_is t r →
  Forall (λ c, - (r + 1) ≤ row_index c) (cells t) →
  0 ≤ r
  ∧ convert_to_csv_step t []
    = Return ([[PStr (lit "Page Number:"); PInt (page_number t)]]
              ++ map (λ k, map (λ c, PStr (content c))
                               (filter (λ c, wrapped_row (r + 1) (row_index c) = k)
                                       (cells t)))
                     (seqZ 0 (r + 1))
              ++ [[]; []]).
Proof.
  intros Hmax Hlow.
  assert (Hr : 0 ≤ r).
  { destruct Hmax as [(c & Hc & <-) _].
    rewrite Forall_forall in Hlow. specialize (Hlow c Hc). lia. }
  split; [exact Hr|].
  unfold convert_to_csv_step. rewrite (py_max_is_max t r Hmax). cbn [mbind result_bind].
  rewrite place_cells_wrapped.
  - cbn [mbind result_bind]. rewrite length_replicate, wrapped_rows_eq.
    rewrite (foldl_append_map (λ row, row)), map_id.
    rewrite Z2Nat.id by lia. reflexivity.
  - rewrite length_replicate. destruct Hmax as [_ Hle].
    rewrite Forall_forall in *. intros c Hc.
    specialize (Hle c Hc). specialize (Hlow c Hc). lia.
Qed.

(** X9. A negative row index counts from the last row. For a table whose
    greatest row index is [r] and whose row indices are all at least
    [-(r + 1)], the block has [r + 1] content rows, and row [k] holds, in
    arrival order, the contents of the cells whose index is [k] or
    [k - (r + 1)]. *)
Theorem convert_to_csv_negative_index_wraps (t : table_info) (r : Z) :
  max_row_index_is t r →
  Forall (λ c, - (r + 1) ≤ row_index c) (cells t) →
  convert_to_csv [t]
  = Return ([[PStr (lit "Page Number:"); PInt (page_number t)]]
            ++ map (λ k, map (λ c, PStr (content c))
                             (filter (λ c, row_index c = k ∨ row_index c = k - (r + 1))
                                     (cells t)))
                   (seqZ 0 (r + 1))
            ++ [[]; []]).
Proof.
  intros Hmax Hlow.
  destruct (convert_to_csv_step_wrapped t r Hmax Hlow) as [Hr Hstep].
  unfold convert_to_csv. cbn [for_in]. rewrite Hstep. cbn [mbind result_bind for_in].
  do 3 f_equal. apply list_eq. intros i. rewrite !list_lookup_fmap.
  destruct (seqZ 0 (r + 1) !! i) as [k|] eqn:Hk; [|done]. cbn. do 2 f_equal.
  apply lookup_seqZ in Hk as [-> Hi].
  apply list_filter_iff. intros c. unfold wrapped_row.
  destruct Hmax as [_ Hle]. rewrite Forall_forall in Hle, Hlow.
  split.
  - case_bool_decide; lia.
  - intros Heq. case_bool_decide; [|lia].
    destruct Heq as [Heq | Heq]; lia.
Qed.

Lemma wrapping_table_max_row : max_row_index_is wrapping_table 2.
Proof.
  split.
  - eexists. split; [do 2 apply list_elem_of_further; apply list_elem_of_here|].
    reflexivity.
  - repeat constructor; cbn; lia.
Defined.

Lemma convert_to_csv_negative_index_wraps_witness :
  convert_to_csv [wrapping_table]
  = Return ([[PStr (lit "Page Number:"); PInt (page_number wrapping_table)]]
            ++ map (λ k, map (λ c, PStr (content c))
                             (filter (λ c, row_index c = k ∨ row_index c = k - (2 + 1))
                                     (cells wrapping_table)))
                   (seqZ 0 (2 + 1))
            ++ [[]; []]).
Proof.
  apply (convert_to_csv_negative_index_wraps wrapping_table 2).
  - exact wrapping_table_max_row.
  - repeat constructor; cbn; lia.
Defined.

(** X10. A cell whose row index lies before the first row (below
    [-(r + 1)], where [r] is the greatest row index of its table) makes
    [convert_to_csv] raise [IndexError]; this is so in particular for every
    table whose row indices are all negative. Tables before it that convert
    do not change that. *)
Theorem convert_to_csv_row_before_first (pre post : list table_info)
    (t : table_info) (r : Z) :
  Forall (λ t, cells t ≠ [] ∧ zero_based t) pre →
  max_row_index_is t r →
  r < 0 ∨ Exists (λ c, row_index c < - (r + 1)) (cells t) →
  convert_to_csv (pre ++ t :: post) = Raise IndexError.
Proof.
  intros Hpre Hmax Hbad.
  assert (Hstep : ∀ csv_data, convert_to_csv_step t csv_data = Raise IndexError).
  { intros csv_data. unfold convert_to_csv_step.
    rewrite (py_max_is_max t r Hmax). cbn [mbind result_bind].
    rewrite place_cells_out_of_range; [done|].
    rewrite length_replicate.
    destruct Hmax as [(c & Hc & Hcr) Hle].
    destruct Hbad as [Hneg | Hex].
    - apply Exists_exists. exists c. split; [exact Hc|]. lia.
    - apply Exists_exists in Hex as (c' & Hc' & Hlow).
      apply Exists_exists. exists c'. split; [exact Hc'|]. lia. }
  unfold convert_to_csv. generalize (@nil (list pyval)) as csv_data.
  induction Hpre as [|t0 pre [Hne Hzero] _ IH]; intros csv_data.
  - cbn [app for_in]. by rewrite Hstep.
  - cbn [app for_in].
    rewrite (convert_to_csv_step_eq t0 (max_row_index t0) csv_data)
      by (by try apply max_row_index_is_max).
    cbn [mbind result_bind]. apply IH.
Qed.

Lemma overshooting_table_max_row : max_row_index_is overshooting_table 1.
Proof.
  split.
  - eexists. split; [apply list_elem_of_here|]. reflexivity.
  - repeat constructor; cbn; lia.
Defined.

Lemma convert_to_csv_row_before_first_witness :
  convert_to_csv ([scattered_table] ++ overshooting_table :: [wrapping_table])
  = Raise IndexError.
Proof.
  apply (convert_to_csv_row_before_first [scattered_table] [wrapping_table]
           overshooting_table 1).
  - exact scattered_table_well_formed.
  - exact overshooting_table_max_row.
  - right. apply Exists_cons_tl, Exists_cons_hd. cbn. lia.
Defined.

Lemma concat_filter_cons {A} (g : A → Z) (x : A) (l : list A) (ks : list Z) :
  NoDup ks →
  concat (map (λ k, filter (λ y, g y = k) (x :: l)) ks)
  ≡ₚ (if decide (g x ∈ ks) then [x] else [])
     ++ concat (map (λ k, filter (λ y, g y = k) l) ks).
Proof.
  induction 1 as [|k ks Hk Hnodup IH].
  { cbn. by destruct (decide (g x ∈ [])) as [?%elem_of_nil|]. }
  cbn [map concat]. rewrite filter_cons, IH.
  destruct (decide (g x = k)) as [Heq | Hne];
    destruct (decide (g x ∈ k :: ks)) as [Hin' | Hout'];
    destruct (decide (g x ∈ ks)) as [Hin | Hout]; cbn [app].
  - exfalso. apply Hk. by rewrite <- Heq.
  - reflexivity.
  - exfalso. apply Hout'. apply elem_of_cons. by left.
  - exfalso. apply Hout'. apply elem_of_cons. by left.
  - by rewrite Permutation_middle.
  - apply elem_of_cons in Hin' as [? | ?]; done.
  - exfalso. apply Hout'. apply elem_of_cons. by right.
  - reflexivity.
Qed.

(** Sorting the elements of a list by a key, one bucket per key, loses and
    adds nothing. *)
Lemma concat_filter_permutation {A} (g : A → Z) (l : list A) (ks : list Z) :
  NoDup ks → Forall (λ x, g x ∈ ks) l →
  concat (map (λ k, filter (λ y, g y = k) l) ks) ≡ₚ l.
Proof.
  intros Hnodup. induction 1 as [|x l Hx _ IH].
  - induction ks as [|k ks IHk]; [done|].
    apply NoDup_cons in Hnodup as [_ Hnodup]. cbn. by apply IHk.
  - rewrite (concat_filter_cons g x l ks Hnodup), IH.
    by destruct (decide (g x ∈ ks)).
Qed.

(** X11. The grid of a table keeps every cell: when a table converts (its
    row indices are at least [-(r + 1)], [r] being the greatest), the
    contents in its content rows, read row after row, are the contents of
    its cells, each as many times as it occurs among the cells, in some
    order. *)
Theorem convert_to_csv_keeps_every_cell (t : table_info) (r : Z) :
  max_row_index_is t r →
  Forall (λ c, - (r + 1) ≤ row_index c) (cells t) →
  ∃ rows,
    convert_to_csv [t]
    = Return ([[PStr (lit "Page Number:"); PInt (page_number t)]] ++ rows ++ [[]; []])
    ∧ concat rows ≡ₚ map (λ c, PStr (content c)) (cells t).
Proof.
  intros Hmax Hlow.
  destruct (convert_to_csv_step_wrapped t r Hmax Hlow) as [Hr Hstep].
  eexists. split.
  - unfold convert_to_csv. cbn [for_in]. rewrite Hstep. reflexivity.
  - rewrite <- (map_map (λ k, filter (λ c, wrapped_row (r + 1) (row_index c) = k) (cells t))
                        (map (λ c, PStr (content c)))).
    rewrite <- concat_map.
    apply fmap_Permutation.
    apply (concat_filter_permutation (λ c, wrapped_row (r + 1) (row_index c)));
      [apply NoDup_seqZ|].
    destruct Hmax as [_ Hle]. rewrite Forall_forall in *. intros c Hc.
    specialize (Hle c Hc). specialize (Hlow c Hc).
    apply elem_of_seqZ. unfold wrapped_row. case_bool_decide; lia.
Qed.

Lemma convert_to_csv_keeps_every_cell_witness :
  ∃ rows,
    convert_to_csv [wrapping_table]
    = Return ([[PStr (lit "Page Number:"); PInt (page_number wrapping_table)]]
              ++ rows ++ [[]; []])
    ∧ concat rows ≡ₚ map (λ c, PStr (content c)) (cells wrapping_table).
Proof.
  apply (convert_to_csv_keeps_every_cell wrapping_table 2).
  - exact wrapping_table_max_row.
  - repeat constructor; cbn; lia.
Defined.

(** ** The text of the structured export *)

Lemma plain_hex_digit (d : N) : (d < 16)%N → plain_char (hex_digit d) = true.
Proof.
  intros Hd.
  exact (forall_below (λ d, plain_char (hex_digit d)) 16 eq_refl d Hd).
Qed.

Lemma plain_escape_u (n : N) : Forall (λ c, plain_char c = true) (escape_u n).
Proof.
  unfold escape_u, hex4. change (lit "\u") with [92%N; 117%N]. cbn [app].
  repeat constructor; apply plain_hex_digit; apply N.mod_upper_bound; done.
Qed.

Lemma plain_escape_char (c : N) : Forall (λ c, plain_char c = true) (escape_char c).
Proof.
  unfold escape_char.
  repeat (match goal with
          | |- context [if (c =? ?k)%N then _ else _] =>
              destruct (c =? k)%N; [by repeat constructor|]
          end).
  destruct ((32 <=? c)%N && (c <=? 126)%N) eqn:Hprint.
  { constructor; [|constructor]. unfold plain_char. by rewrite Hprint, orb_true_r. }
  destruct (c <? 65536)%N; [apply plain_escape_u|].
  cbv zeta. apply Forall_app. split; apply plain_escape_u.
Qed.

Lemma plain_basestring (s : pystr) :
  Forall (λ c, plain_char c = true) (encode_basestring_ascii s).
Proof.
  unfold encode_basestring_ascii. apply Forall_app. split; [by repeat constructor|].
  apply Forall_app. split; [|by repeat constructor].
  induction s as [|c s IH]; [constructor|].
  cbn [map concat]. apply Forall_app. split; [apply plain_escape_char | exact IH].
Qed.

Lemma plain_str_of_int (z : Z) : Forall (λ c, plain_char c = true) (str_of_int z).
Proof.
  assert (Hdigits : ∀ n, Forall (λ c, plain_char c = true) (digits n)).
  { intros n. destruct (digits_spec n) as (d & ds & -> & Hdig & _).
    eapply Forall_impl; [exact Hdig|]. cbn. intros c Hc.
    apply is_digit_true in Hc. unfold plain_char.
    apply orb_true_iff. right. apply andb_true_iff. rewrite !N.leb_le. lia. }
  unfold str_of_int. destruct (z <? 0); [|apply Hdigits].
  apply Forall_app. split; [by repeat constructor | apply Hdigits].
Qed.

Lemma plain_newline_indent (level : nat) :
  Forall (λ c, plain_char c = true) (newline_indent level).
Proof.
  unfold newline_indent. constructor; [done|].
  apply Forall_replicate. done.
Qed.

Lemma plain_join (sep : pystr) (parts : list pystr) :
  Forall (λ c, plain_char c = true) sep →
  Forall (Forall (λ c, plain_char c = true)) parts →
  Forall (λ c, plain_char c = true) (join sep parts).
Proof.
  intros Hsep. induction 1 as [|p ps Hp Hps IH]; [constructor|].
  destruct ps as [|q ps]; [exact Hp|].
  change (join sep (p :: q :: ps)) with (p ++ sep ++ join sep (q :: ps)).
  apply Forall_app. split; [exact Hp|]. apply Forall_app. split; [exact Hsep | exact IH].
Qed.

Lemma plain_json_encode (o : pyobj) (level : nat) :
  Forall (λ c, plain_char c = true) (json_encode level o).
Proof.
  revert level.
  induction o as [z | s | items IH | items IH] using pyobj_induction; intros level.
  - apply plain_str_of_int.
  - apply plain_basestring.
  - destruct items as [|x xs]; [by repeat constructor|].
    change (json_encode level (OList (x :: xs)))
      with ([91%N] ++ newline_indent (S level)
            ++ join ([44%N] ++ newline_indent (S level))
                    (map (json_encode (S level)) (x :: xs))
            ++ newline_indent level ++ [93%N]).
    repeat (apply Forall_app; split);
      try apply plain_newline_indent; try (by repeat constructor).
    apply plain_join.
    + apply Forall_app. split; [by repeat constructor | apply plain_newline_indent].
    + apply Forall_fmap. eapply Forall_impl; [exact IH|]. cbn. auto.
  - destruct items as [|kv kvs]; [by repeat constructor|].
    change (json_encode level (ODict (kv :: kvs)))
      with ([123%N] ++ newline_indent (S level)
            ++ join ([44%N] ++ newline_indent (S level))
                    (map (λ kv, encode_basestring_ascii kv.1 ++ [58%N; 32%N]
                                ++ json_encode (S level) kv.2) (kv :: kvs))
            ++ newline_indent level ++ [125%N]).
    repeat (apply Forall_app; split);
      try apply plain_newline_indent; try (by repeat constructor).
    apply plain_join.
    + apply Forall_app. split; [by repeat constructor | apply plain_newline_indent].
    + apply Forall_fmap. eapply Forall_impl; [exact IH|]. intros kv' Hkv.
      cbv beta. apply Forall_app. split; [apply plain_basestring|].
      apply Forall_app. split; [by repeat constructor | apply Hkv].
Qed.

(** X12. The text [json.dumps] writes for the table records of a document
    is made of printable ASCII characters and line breaks only, whatever
    characters the cell contents hold. *)
Theorem json_export_is_plain_ascii (table_data : list table_info) :
  Forall (λ c, plain_char c = true) (json_dumps (table_data_obj table_data)).
Proof. apply plain_json_encode. Qed.

(** ** File names *)





(** ** Runs past the gates *)

(** A run past the gates has printed and charged the cost; what follows is
    the analysis phase. *)
Lemma main_past_gates (self : addon) (s e : Z) :
  dict_get_default (data self) "start_page" (PInt 1) = PInt s →
  dict_get_default (data self) "end_page" (PInt 1) = PInt e →
  (data self !! "end_page" = None → documents self = []) →
  ¬ halt_condition self s e →
  main self
  = let rest := main_analysis self
                  (dict_get_default (data self) "output_format" (PStr (lit "json")))
                  (PInt s) (PInt e) in
    ([EPrint (PInt (run_cost self s e)); EChargeCredits (PInt (run_cost self s e))]
     ++ trace rest, outcome rest).
Proof.
  intros Hs He Habsent Hgo. rewrite (main_eq_read self s e Hs He Habsent). cbv zeta.
  unfold halt_condition in Hgo.
  destruct (bool_decide_reflect (document_count self = PNone)); [tauto|].
  destruct (truthy (org_id self)); [|tauto]. cbn [negb].
  destruct (bool_decide_reflect (billing self (PInt (run_cost self s e)) = Charged))
    as [_ | Hch];
    [|destruct (billing self (PInt (run_cost self s e))); tauto].
  cbn [negb].
  destruct (Z.ltb_spec e s); [tauto|]. destruct (Z.ltb_spec s 1); [tauto|].
  reflexivity.
Qed.

(** A run that completes has passed the gates, no call has failed and
    every document has been exported. *)
Lemma main_returns (self : addon) (s e : Z) :
  dict_get_default (data self) "start_page" (PInt 1) = PInt s →
  dict_get_default (data self) "end_page" (PInt 1) = PInt e →
  outcome (main self) = Return tt →
  let fmt := dict_get_default (data self) "output_format" (PStr (lit "json")) in
  main self
  = ([EPrint (PInt (run_cost self s e)); EChargeCredits (PInt (run_cost self s e));
      EAuthenticate; EZipOpen (lit "tables.zip")]
     ++ concat (map (document_events self fmt s e) (documents self))
     ++ [EZipClose; EUploadFile (lit "tables.zip")],
     Return tt)
  ∧ Forall (λ doc, outcome (export_document fmt doc
                              (tables_of_pages self doc (pages_in_range s e doc)))
                   = Return tt) (documents self).
Proof.
  intros Hs He Hret. cbv zeta.
  destruct (main_charge_and_pages self s e Hs He Hret) as (Hgo & Habsent & _).
  revert Hret. rewrite (main_past_gates self s e Hs He Habsent Hgo). cbv zeta.
  set (fmt := dict_get_default (data self) "output_format" (PStr (lit "json"))).
  unfold outcome at 1. cbn [snd]. intros Hret.
  rewrite (runs_like_return self _ _ tt (main_analysis_runs_like self fmt _ _) Hret)
    in Hret |- *.
  revert Hret. rewrite main_analysis_calm. cbv zeta.
  destruct (main_documents_calm self fmt s e (documents self))
    as [[-> Hall] | (pre & doc & post & exn & _ & _ & _ & ->)];
    unfold trace, outcome; cbn [fst snd]; [|discriminate].
  intros _. split; [reflexivity | exact Hall].
Qed.

(** A run past the gates none of whose calls fails and in which every
    document can be exported completes. *)
Lemma main_completes (self : addon) (s e : Z) :
  dict_get_default (data self) "start_page" (PInt 1) = PInt s →
  dict_get_default (data self) "end_page" (PInt 1) = PInt e →
  (data self !! "end_page" = None → documents self = []) →
  ¬ halt_condition self s e →
  no_failure self (trace (main self)) →
  let fmt := dict_get_default (data self) "output_format" (PStr (lit "json")) in
  Forall (λ doc, outcome (export_document fmt doc
                            (tables_of_pages self doc (pages_in_range s e doc)))
                 = Return tt) (documents self) →
  outcome (main self) = Return tt.
Proof.
  intros Hs He Habsent Hgo Hquiet. cbv zeta. intros Hall.
  revert Hquiet. rewrite (main_past_gates self s e Hs He Habsent Hgo). cbv zeta.
  set (fmt := dict_get_default (data self) "output_format" (PStr (lit "json"))) in *.
  unfold no_failure, trace at 1, outcome at 1. cbn [fst snd].
  intros [_ Hquiet]%Forall_app.
  rewrite (runs_like_no_failure self _ _ (main_analysis_runs_like self fmt _ _) Hquiet).
  rewrite main_analysis_calm. cbv zeta.
  destruct (main_documents_calm self fmt s e (documents self))
    as [[-> _] | (pre & doc & post & exn & Hdocs & _ & Hdoc & _)];
    unfold trace, outcome; cbn [fst snd]; [reflexivity|].
  rewrite Hdocs in Hall. apply Forall_app in Hall as [_ Hall].
  apply Forall_cons in Hall as [Hall _]. congruence.
Qed.

Lemma archive_texts_app (t1 t2 : list event) :
  archive_texts (t1 ++ t2) = archive_texts t1 ++ archive_texts t2.
Proof. apply omap_app. Qed.

Lemma archive_copies_app (t1 t2 : list event) :
  archive_copies (t1 ++ t2) = archive_copies t1 ++ archive_copies t2.
Proof. apply omap_app. Qed.

Lemma saved_csv_app (t1 t2 : list event) :
  saved_csv (t1 ++ t2) = saved_csv t1 ++ saved_csv t2.
Proof. apply omap_app. Qed.

Lemma page_events_write_nothing (doc : document) (pages : list Z) :
  archive_texts (concat (map (page_events doc) pages)) = []
  ∧ archive_copies (concat (map (page_events doc) pages)) = []
  ∧ saved_csv (concat (map (page_events doc) pages)) = [].
Proof.
  induction pages as [|p pages (IH1 & IH2 & IH3)]; [done|].
  cbn [map concat]. rewrite archive_texts_app, archive_copies_app, saved_csv_app.
  rewrite IH1, IH2, IH3. done.
Qed.

(** *** The structured export *)

Lemma export_document_json (doc : document) (table_data : list table_info) :
  export_document (PStr (lit "json")) doc table_data
  = ([EZipWritestr (json_path doc) (json_dumps (table_data_obj table_data))],
     Return tt).
Proof. reflexivity. Qed.

(** X14. A run in json format (the default) that completes has put into
    the archive, from memory, one entry per document, in the order of the
    documents: it is named [tables-<id>.json] and its text is the
    [json.dumps] of the table records of the pages in range, page after
    page. It has saved or copied no csv file, and it has ended by closing
    and uploading the archive. A json run past the gates completes when
    none of the calls it makes fails. *)
Theorem main_json_archive (self : addon) (s e : Z) :
  dict_get_default (data self) "start_page" (PInt 1) = PInt s →
  dict_get_default (data self) "end_page" (PInt 1) = PInt e →
  dict_get_default (data self) "output_format" (PStr (lit "json")) = PStr (lit "json") →
  (outcome (main self) = Return tt →
   archive_texts (trace (main self))
   = map (λ doc,
            (lit "tables-" ++ py_str (id doc) ++ lit ".json",
             json_dumps
               (table_data_obj
                  (concat (map (λ p, get_table_data (layout self (id doc) p) p)
                               (seqZ s (Z.min e (page_count doc) - s + 1)))))))
         (documents self)
   ∧ saved_csv (trace (main self)) = []
   ∧ archive_copies (trace (main self)) = []
   ∧ ∃ t, trace (main self) = t ++ [EZipClose; EUploadFile (lit "tables.zip")])
  ∧ ((data self !! "end_page" = None → documents self = []) →
     ¬ halt_condition self s e →
     Forall (λ ev, fails self ev = None) (trace (main self)) →
     outcome (main self) = Return tt).
Proof.
  intros Hs He Hfmt. split.
  - intros Hret. destruct (main_returns self s e Hs He Hret) as [-> _].
    rewrite Hfmt. unfold trace. cbn [fst].
    assert (Hdocs : ∀ docs,
      let t := concat (map (document_events self (PStr (lit "json")) s e) docs) in
      archive_texts t
      = map (λ doc, (json_path doc,
                     json_dumps (table_data_obj
                                   (tables_of_pages self doc (pages_in_range s e doc)))))
            docs
      ∧ saved_csv t = [] ∧ archive_copies t = []).
    { induction docs as [|doc docs (IH1 & IH2 & IH3)]; [done|].
      cbn zeta in *. cbn [map concat].
      rewrite archive_texts_app, saved_csv_app, archive_copies_app, IH1, IH2, IH3.
      unfold document_events. rewrite export_document_json. unfold trace. cbn [fst].
      rewrite archive_texts_app, saved_csv_app, archive_copies_app.
      destruct (page_events_write_nothing doc (pages_in_range s e doc))
        as (-> & -> & ->).
      done. }
    destruct (Hdocs (documents self)) as (H1 & H2 & H3). cbv zeta in H1, H2, H3.
    rewrite !archive_texts_app, !saved_csv_app, !archive_copies_app, H1, H2, H3.
    split; [by rewrite app_nil_r|]. split; [done|]. split; [done|].
    eexists. by rewrite app_assoc.
  - intros Habsent Hgo Hquiet.
    apply (main_completes self s e Hs He Habsent Hgo Hquiet).
    apply Forall_forall. intros doc _. by rewrite Hfmt.
Qed.

Lemma json_run_passes : ¬ halt_condition json_run 2 3.
Proof.
  unfold halt_condition. intros [H | [H | [[H | H] | [H | H]]]];
    try discriminate; lia.
Defined.

Lemma main_json_archive_witness :
  outcome (main json_run) = Return tt
  ∧ archive_texts (trace (main json_run))
    = map (λ doc,
             (lit "tables-" ++ py_str (id doc) ++ lit ".json",
              json_dumps
                (table_data_obj
                   (concat (map (λ p, get_table_data (layout json_run (id doc) p) p)
                                (seqZ 2 (Z.min 3 (page_count doc) - 2 + 1)))))))
          (documents json_run).
Proof.
  destruct (main_json_archive json_run 2 3) as [Harchive Hcompletes];
    try reflexivity.
  assert (Hret : outcome (main json_run) = Return tt).
  { apply Hcompletes; [discriminate | exact json_run_passes |].
    apply Forall_forall. intros ev _. reflexivity. }
  split; [exact Hret|]. by destruct (Harchive Hret) as [-> _].
Defined.

(** *** The tabular export *)

Lemma export_document_csv (doc : document) (table_data : list table_info) :
  export_document (PStr (lit "csv")) doc table_data
  = match convert_to_csv table_data with
    | Return rows =>
        if forallb row_encodable rows
        then ([ESaveToCsv rows (csv_path doc); EZipWrite (csv_path doc)], Return tt)
        else ([ESaveToCsv rows (csv_path doc)], Raise UnicodeEncodeError)
    | Raise exn => ([], Raise exn)
    | SysExit c => ([], SysExit c)
    end.
Proof.
  unfold export_document, save_to_csv.
  replace (py_eq (PStr (lit "csv")) (PStr (lit "json"))) with false by reflexivity.
  replace (py_eq (PStr (lit "csv")) (PStr (lit "csv"))) with true by reflexivity.
  destruct (convert_to_csv table_data) as [rows | |]; [|reflexivity..].
  cbn -[lit]. destruct (forallb row_encodable rows); reflexivity.
Qed.

(** The documents of a csv run all of which are exported, with their rows. *)
Lemma csv_exports (self : addon) (s e : Z) (docs : list document) :
  Forall (λ doc, outcome (export_document (PStr (lit "csv")) doc
                            (tables_of_pages self doc (pages_in_range s e doc)))
                 = Return tt) docs →
  ∃ rowss,
    Forall2 (λ doc rows,
               convert_to_csv (tables_of_pages self doc (pages_in_range s e doc))
               = Return rows
               ∧ forallb row_encodable rows = true) docs rowss
    ∧ concat (map (document_events self (PStr (lit "csv")) s e) docs)
      = concat (zip_with (csv_document_events s e) docs rowss).
Proof.
  induction 1 as [|doc docs Hdoc _ (rowss & Hrows & Heq)]; [by exists []|].
  rewrite export_document_csv in Hdoc.
  destruct (convert_to_csv (tables_of_pages self doc (pages_in_range s e doc)))
    as [rows | |] eqn:Hconv; [|discriminate..].
  destruct (forallb row_encodable rows) eqn:Henc; [|discriminate].
  exists (rows :: rowss). split; [by constructor|].
  cbn [map zip_with concat]. rewrite Heq. f_equal.
  unfold document_events, csv_document_events.
  by rewrite export_document_csv, Hconv, Henc.
Qed.

(** X15. A csv run that completes has done this, in order: it has printed
    and charged the cost, authenticated, opened the archive, then for every
    document downloaded, converted and submitted its pages in range,
    converted its records to rows, none of which holds a surrogate code
    point, saved the rows to [tables-<id>.csv] and copied that file into
    the archive, and at last closed and uploaded the archive. A csv run
    past the gates completes when none of the calls it makes fails and the
    records of every document convert to rows without surrogates. *)
Theorem main_csv_archive (self : addon) (s e : Z) :
  dict_get_default (data self) "start_page" (PInt 1) = PInt s →
  dict_get_default (data self) "end_page" (PInt 1) = PInt e →
  dict_get_default (data self) "output_format" (PStr (lit "json")) = PStr (lit "csv") →
  (outcome (main self) = Return tt →
   ∃ rowss,
     Forall2 (λ doc rows,
                convert_to_csv
                  (concat (map (λ p, get_table_data (layout self (id doc) p) p)
                               (seqZ s (Z.min e (page_count doc) - s + 1))))
                = Return rows
                ∧ forallb row_encodable rows = true)
             (documents self) rowss
     ∧ main self
       = ([EPrint (PInt (run_cost self s e)); EChargeCredits (PInt (run_cost self s e));
           EAuthenticate; EZipOpen (lit "tables.zip")]
          ++ concat (zip_with
                       (λ doc rows,
                          concat (map (page_events doc)
                                      (seqZ s (Z.min e (page_count doc) - s + 1)))
                          ++ [ESaveToCsv rows
                                (lit "tables-" ++ py_str (id doc) ++ lit ".csv");
                              EZipWrite (lit "tables-" ++ py_str (id doc) ++ lit ".csv")])
                       (documents self) rowss)
          ++ [EZipClose; EUploadFile (lit "tables.zip")],
          Return tt))
  ∧ (∀ rowss,
       (data self !! "end_page" = None → documents self = []) →
       ¬ halt_condition self s e →
       Forall (λ ev, fails self ev = None) (trace (main self)) →
       Forall2 (λ doc rows,
                  convert_to_csv
                    (concat (map (λ p, get_table_data (layout self (id doc) p) p)
                                 (seqZ s (Z.min e (page_count doc) - s + 1))))
                  = Return rows
                  ∧ forallb row_encodable rows = true)
               (documents self) rowss →
       outcome (main self) = Return tt).
Proof.
  intros Hs He Hfmt. split.
  - intros Hret. destruct (main_returns self s e Hs He Hret) as [-> Hall].
    rewrite Hfmt in Hall |- *.
    destruct (csv_exports self s e (documents self) Hall) as (rowss & Hrows & ->).
    exists rowss. split; [exact Hrows | reflexivity].
  - intros rowss Habsent Hgo Hquiet Hrows.
    apply (main_completes self s e Hs He Habsent Hgo Hquiet).
    rewrite Hfmt. apply Forall_forall. intros doc Hin.
    apply list_elem_of_lookup in Hin as [i Hi].
    destruct (Forall2_lookup_l _ _ _ _ _ Hrows Hi) as (rows & _ & Hconv & Henc).
    rewrite export_document_csv. unfold tables_of_pages, pages_in_range.
    by rewrite Hconv, Henc.
Qed.

Lemma csv_run_passes : ¬ halt_condition csv_run 2 2.
Proof.
  unfold halt_condition. intros [H | [H | [[H | H] | [H | H]]]];
    try discriminate; lia.
Defined.

Lemma main_csv_archive_witness :
  outcome (main csv_run) = Return tt
  ∧ ∃ rowss,
      length rowss = 2%nat
      ∧ main csv_run
        = ([EPrint (PInt (run_cost csv_run 2 2)); EChargeCredits (PInt (run_cost csv_run 2 2));
            EAuthenticate; EZipOpen (lit "tables.zip")]
           ++ concat (zip_with
                        (λ doc rows,
                           concat (map (page_events doc)
                                       (seqZ 2 (Z.min 2 (page_count doc) - 2 + 1)))
                           ++ [ESaveToCsv rows
                                 (lit "tables-" ++ py_str (id doc) ++ lit ".csv");
                               EZipWrite (lit "tables-" ++ py_str (id doc) ++ lit ".csv")])
                        (documents csv_run) rowss)
           ++ [EZipClose; EUploadFile (lit "tables.zip")],
           Return tt).
Proof.
  destruct (main_csv_archive csv_run 2 2) as [Harchive Hcompletes];
    try reflexivity.
  assert (Hret : outcome (main csv_run) = Return tt).
  { apply (Hcompletes
             [ [ [PStr (lit "Page Number:"); PInt 2]; [PStr (lit "x")];
                 [PStr (lit "y")]; []; [] ];
               [] ]);
      [discriminate | exact csv_run_passes | |].
    - apply Forall_forall. intros ev _. reflexivity.
    - repeat constructor. }
  split; [exact Hret|].
  destruct (Harchive Hret) as (rowss & Hrows & Hmain).
  exists rowss. split; [|exact Hmain].
  apply Forall2_length in Hrows. by rewrite <- Hrows.
Defined.

(** *** Runs that fail *)

Lemma document_events_quiet (self : addon) (fmt : pyval) (s e : Z) (doc : document) :
  Forall (λ ev, document_event ev = true) (document_events self fmt s e doc).
Proof.
  unfold document_events. apply Forall_app. split.
  - induction (pages_in_range s e doc) as [|p ps IHp]; [constructor|].
    cbn [map concat]. apply Forall_app. split; [by repeat constructor | done].
  - unfold export_document, save_to_csv.
    destruct (py_eq fmt (PStr (lit "json"))), (py_eq fmt (PStr (lit "csv")));
      cbn -[lit]; try (by repeat constructor);
      destruct (convert_to_csv _) as [rows | |]; cbn -[lit];
      try (by repeat constructor);
      destruct (forallb row_encodable rows); by repeat constructor.
Qed.

Lemma documents_events_quiet (self : addon) (fmt : pyval) (s e : Z)
    (docs : list document) :
  Forall (λ ev, document_event ev = true)
         (concat (map (document_events self fmt s e) docs)).
Proof.
  induction docs as [|doc docs IH]; [constructor|].
  cbn [map concat]. apply Forall_app. split; [apply document_events_quiet | done].
Qed.

(** X16. A csv run past the gates in which the records of some document
    do not convert, or convert to rows that hold a surrogate code point,
    ends in an exception, whatever the calls it makes do. By then the cost
    has been charged, in full. The archive is neither closed nor
    uploaded. *)
Theorem main_csv_failure_keeps_charge (self : addon) (s e : Z) :
  dict_get_default (data self) "start_page" (PInt 1) = PInt s →
  data self !! "end_page" = Some (PInt e) →
  ¬ halt_condition self s e →
  dict_get_default (data self) "output_format" (PStr (lit "json")) = PStr (lit "csv") →
  Exists (λ doc, ∀ rows,
            convert_to_csv
              (concat (map (λ p, get_table_data (layout self (id doc) p) p)
                           (seqZ s (Z.min e (page_count doc) - s + 1))))
            = Return rows →
            forallb row_encodable rows = false)
         (documents self) →
  ∃ exn,
    outcome (main self) = Raise exn
    ∧ charged_amounts (trace (main self)) = [PInt (run_cost self s e)]
    ∧ (EZipClose ∉ trace (main self))
    ∧ ∀ filename, EUploadFile filename ∉ trace (main self).
Proof.
  intros Hs Hkey Hgo Hfmt Hbad.
  assert (He : dict_get_default (data self) "end_page" (PInt 1) = PInt e)
    by (unfold dict_get_default; by rewrite Hkey).
  assert (Habsent : data self !! "end_page" = None → documents self = [])
    by (rewrite Hkey; discriminate).
  rewrite (main_past_gates self s e Hs He Habsent Hgo). cbv zeta. rewrite Hfmt.
  pose proof (main_analysis_runs_like self (PStr (lit "csv")) (PInt s) (PInt e))
    as Hlike.
  pose proof (main_analysis_no_charge self (PStr (lit "csv")) s e) as Hnone.
  assert (Hcalm : ∃ t exn,
            main_analysis (calm self) (PStr (lit "csv")) (PInt s) (PInt e)
            = (t, Raise exn)
            ∧ Forall (λ ev, ev ≠ EZipClose ∧ ∀ filename, ev ≠ EUploadFile filename) t).
  { rewrite main_analysis_calm. cbv zeta.
    destruct (main_documents_calm self (PStr (lit "csv")) s e (documents self))
      as [[_ Hall] | (pre & doc & post & exn & _ & _ & _ & ->)].
    - exfalso. apply Exists_exists in Hbad as (doc & Hin & Hdoc).
      rewrite Forall_forall in Hall. specialize (Hall doc Hin).
      rewrite export_document_csv in Hall.
      destruct (convert_to_csv (tables_of_pages self doc (pages_in_range s e doc)))
        as [rows | |] eqn:Hconv; [|discriminate..].
      rewrite (Hdoc rows Hconv) in Hall. discriminate.
    - unfold trace, outcome. cbn [fst snd]. eexists _, exn. split; [reflexivity|].
      apply Forall_app. split; [by repeat constructor|].
      apply Forall_app. split.
      + eapply Forall_impl; [apply documents_events_quiet|].
        intros ev Hev. split; [|intros filename]; intros ->; discriminate.
      + eapply Forall_impl; [apply document_events_quiet|].
        intros ev Hev. split; [|intros filename]; intros ->; discriminate. }
  destruct Hcalm as (t & exn & Hcalm & Hquiet).
  pose proof (runs_like_prefix self _ _ Hlike) as Hpre.
  rewrite Hcalm in Hpre. unfold trace at 2 in Hpre. cbn [fst] in Hpre.
  pose proof (Forall_prefix _ _ _ Hpre Hquiet) as Hquiet'.
  assert (Hraise : ∃ exn', outcome (main_analysis self (PStr (lit "csv")) (PInt s) (PInt e))
                           = Raise exn').
  { destruct (runs_like_outcome self _ _ Hlike) as [-> | Hraise]; [|exact Hraise].
    rewrite Hcalm. by exists exn. }
  destruct Hraise as [exn' Hraise]. exists exn'.
  revert Hnone Hquiet' Hraise.
  generalize (main_analysis self (PStr (lit "csv")) (PInt s) (PInt e)). intros [t' r].
  unfold trace, outcome. cbn [fst snd]. intros Hnone Hquiet' ->.
  split; [reflexivity|]. split.
  { rewrite charged_amounts_app, Hnone. reflexivity. }
  rewrite Forall_forall in Hquiet'.
  split.
  - intros [Hin | Hin]%elem_of_app.
    + rewrite !elem_of_cons, elem_of_nil in Hin. destruct Hin as [? | [? | []]]; done.
    + by destruct (Hquiet' _ Hin) as [Hne _].
  - intros filename [Hin | Hin]%elem_of_app.
    + rewrite !elem_of_cons, elem_of_nil in Hin. destruct Hin as [? | [? | []]]; done.
    + destruct (Hquiet' _ Hin) as [_ Hne]. by apply (Hne filename).
Qed.

Lemma surrogate_csv_run_passes : ¬ halt_condition surrogate_csv_run 1 1.
Proof.
  unfold halt_condition. intros [H | [H | [[H | H] | [H | H]]]];
    try discriminate; lia.
Defined.

Lemma main_csv_failure_keeps_charge_witness :
  ∃ exn,
    outcome (main surrogate_csv_run) = Raise exn
    ∧ charged_amounts (trace (main surrogate_csv_run))
      = [PInt (run_cost surrogate_csv_run 1 1)]
    ∧ (EZipClose ∉ trace (main surrogate_csv_run))
    ∧ ∀ filename, EUploadFile filename ∉ trace (main surrogate_csv_run).
Proof.
  apply (main_csv_failure_keeps_charge surrogate_csv_run 1 1); try reflexivity.
  - exact surrogate_csv_run_passes.
  - apply Exists_cons_hd. intros rows Hrows. vm_compute in Hrows.
    injection Hrows as <-. reflexivity.
Defined.

(** X20. A run past the gates has charged the cost, once and in full,
    whatever happens next, and it never exits: it completes or ends in an
    exception. When building the client of the analysis service raises (no
    key in the environment), the run ends in that exception right after the
    charge, with no page downloaded and no archive. *)
Theorem main_failure_after_charge (self : addon) (s e : Z) :
  dict_get_default (data self) "start_page" (PInt 1) = PInt s →
  dict_get_default (data self) "end_page" (PInt 1) = PInt e →
  (data self !! "end_page" = None → documents self = []) →
  ¬ halt_condition self s e →
  charged_amounts (trace (main self)) = [PInt (run_cost self s e)]
  ∧ (outcome (main self) = Return tt ∨ ∃ exn, outcome (main self) = Raise exn)
  ∧ (∀ exn, fails self EAuthenticate = Some exn →
       main self
       = ([EPrint (PInt (run_cost self s e)); EChargeCredits (PInt (run_cost self s e));
           EAuthenticate], Raise exn)).
Proof.
  intros Hs He Habsent Hgo.
  rewrite (main_past_gates self s e Hs He Habsent Hgo). cbv zeta.
  set (fmt := dict_get_default (data self) "output_format" (PStr (lit "json"))).
  split; [|split].
  - unfold trace at 1. cbn [fst].
    by rewrite charged_amounts_app, main_analysis_no_charge.
  - unfold outcome at 1 2. cbn [snd].
    destruct (runs_like_outcome self _ _ (main_analysis_runs_like self fmt (PInt s) (PInt e)))
      as [-> | Hraise]; [|by right].
    rewrite main_analysis_calm. cbv zeta.
    destruct (main_documents_calm self fmt s e (documents self))
      as [[-> _] | (pre & doc & post & exn & _ & _ & _ & ->)];
      unfold outcome; cbn [snd]; [by left | right; by exists exn].
  - intros exn Hauth. unfold main_analysis, call. rewrite Hauth. reflexivity.
Qed.

Lemma no_key_run_passes : ¬ halt_condition no_key_run 1 2.
Proof.
  unfold halt_condition. intros [H | [H | [[H | H] | [H | H]]]];
    try discriminate; lia.
Defined.

Lemma main_failure_after_charge_witness :
  charged_amounts (trace (main no_key_run)) = [PInt (run_cost no_key_run 1 2)]
  ∧ (outcome (main no_key_run) = Return tt ∨ ∃ exn, outcome (main no_key_run) = Raise exn)
  ∧ (∀ exn, fails no_key_run EAuthenticate = Some exn →
       main no_key_run
       = ([EPrint (PInt (run_cost no_key_run 1 2));
           EChargeCredits (PInt (run_cost no_key_run 1 2));
           EAuthenticate], Raise exn)).
Proof.
  apply (main_failure_after_charge no_key_run 1 2); try reflexivity.
  - discriminate.
  - exact no_key_run_passes.
Defined.

(** *** Another format *)

Lemma export_document_other (fmt : pyval) (doc : document)
    (table_data : list table_info) :
  py_eq fmt (PStr (lit "json")) = false →
  py_eq fmt (PStr (lit "csv")) = false →
  export_document fmt doc table_data = ([], Return tt).
Proof. intros Hj Hc. unfold export_document. by rewrite Hj, Hc. Qed.

(** X17. A run whose output format is neither json nor csv and that
    completes has done what any run does, charging the cost and submitting
    every page in range, and has written no file and put no entry into the
    archive, which it has uploaded all the same. Such a run, when it is
    past the gates, completes when none of the calls it makes fails. *)
Theorem main_other_format (self : addon) (s e : Z) :
  dict_get_default (data self) "start_page" (PInt 1) = PInt s →
  dict_get_default (data self) "end_page" (PInt 1) = PInt e →
  dict_get_default (data self) "output_format" (PStr (lit "json")) ≠ PStr (lit "json") →
  dict_get_default (data self) "output_format" (PStr (lit "json")) ≠ PStr (lit "csv") →
  (outcome (main self) = Return tt →
   main self
   = ([EPrint (PInt (run_cost self s e)); EChargeCredits (PInt (run_cost self s e));
       EAuthenticate; EZipOpen (lit "tables.zip")]
      ++ concat (map (λ doc, concat (map (page_events doc)
                                         (seqZ s (Z.min e (page_count doc) - s + 1))))
                     (documents self))
      ++ [EZipClose; EUploadFile (lit "tables.zip")],
      Return tt))
  ∧ ((data self !! "end_page" = None → documents self = []) →
     ¬ halt_condition self s e →
     Forall (λ ev, fails self ev = None) (trace (main self)) →
     outcome (main self) = Return tt).
Proof.
  intros Hs He Hjson Hcsv.
  set (fmt := dict_get_default (data self) "output_format" (PStr (lit "json"))) in *.
  assert (Hj : py_eq fmt (PStr (lit "json")) = false) by by apply bool_decide_eq_false.
  assert (Hc : py_eq fmt (PStr (lit "csv")) = false) by by apply bool_decide_eq_false.
  split.
  - intros Hret. destruct (main_returns self s e Hs He Hret) as [-> _].
    fold fmt. do 2 f_equal. f_equal. f_equal. apply map_ext. intros doc.
    unfold document_events. rewrite (export_document_other fmt doc _ Hj Hc).
    unfold trace. cbn [fst]. by rewrite app_nil_r.
  - intros Habsent Hgo Hquiet.
    apply (main_completes self s e Hs He Habsent Hgo Hquiet).
    apply Forall_forall. intros doc _. fold fmt.
    by rewrite (export_document_other fmt doc _ Hj Hc).
Qed.

Lemma unknown_format_run_passes : ¬ halt_condition unknown_format_run 1 2.
Proof.
  unfold halt_condition. intros [H | [H | [[H | H] | [H | H]]]];
    try discriminate; lia.
Defined.

Lemma main_other_format_witness :
  main unknown_format_run
  = ([EPrint (PInt (run_cost unknown_format_run 1 2));
      EChargeCredits (PInt (run_cost unknown_format_run 1 2));
      EAuthenticate; EZipOpen (lit "tables.zip")]
     ++ concat (map (λ doc, concat (map (page_events doc)
                                        (seqZ 1 (Z.min 2 (page_count doc) - 1 + 1))))
                    (documents unknown_format_run))
     ++ [EZipClose; EUploadFile (lit "tables.zip")],
     Return tt).
Proof.
  assert (Hjson : dict_get_default (data unknown_format_run) "output_format"
                    (PStr (lit "json")) ≠ PStr (lit "json"))
    by (vm_compute; discriminate).
  assert (Hcsv : dict_get_default (data unknown_format_run) "output_format"
                   (PStr (lit "json")) ≠ PStr (lit "csv"))
    by (vm_compute; discriminate).
  destruct (main_other_format unknown_format_run 1 2 eq_refl eq_refl Hjson Hcsv)
    as [Htrace Hcompletes].
  apply Htrace. apply Hcompletes; [discriminate | exact unknown_format_run_passes |].
  apply Forall_forall. intros ev _. reflexivity.
Defined.

(** *** Documents and pages *)

(** X18. A document with no page in range (it is shorter than the start
    page) is exported all the same, with no page downloaded or submitted:
    in json format the archive gets the entry [tables-<id>.json] with the
    text of an empty array, in csv format a csv file with no row is saved
    and copied into the archive. *)
Theorem main_document_without_pages (self : addon) (fmt : pyval) (s e : Z)
    (doc : document) :
  Z.min e (page_count doc) < s →
  main_document self fmt (PInt s) (PInt e) doc tt
  = ((if py_eq fmt (PStr (lit "json"))
      then [EZipWritestr (lit "tables-" ++ py_str (id doc) ++ lit ".json") (lit "[]")]
      else [])
     ++ (if py_eq fmt (PStr (lit "csv"))
         then [ESaveToCsv [] (lit "tables-" ++ py_str (id doc) ++ lit ".csv");
               EZipWrite (lit "tables-" ++ py_str (id doc) ++ lit ".csv")]
         else []),
     Return tt).
Proof.
  intros Hshort. unfold main_document. cbn [py_add py_gt py_lt].
  rewrite !lift_bind_return.
  assert (Hpages : py_range (PInt s)
            (if page_count doc <? e then PInt (page_count doc + 1) else PInt (e + 1))
          = Return []).
  { destruct (Z.ltb_spec (page_count doc) e); cbn; by rewrite seqZ_nil by lia. }
  rewrite Hpages, lift_bind_return. cbn [for_each].
  destruct (py_eq fmt (PStr (lit "json"))), (py_eq fmt (PStr (lit "csv"))); reflexivity.
Qed.

Lemma main_document_without_pages_witness :
  main_document csv_run (PStr (lit "csv")) (PInt 2) (PInt 2)
                {| id := PInt 6; page_count := 1 |} tt
  = ((if py_eq (PStr (lit "csv")) (PStr (lit "json"))
      then [EZipWritestr (lit "tables-" ++ py_str (PInt 6) ++ lit ".json") (lit "[]")]
      else [])
     ++ (if py_eq (PStr (lit "csv")) (PStr (lit "csv"))
         then [ESaveToCsv [] (lit "tables-" ++ py_str (PInt 6) ++ lit ".csv");
               EZipWrite (lit "tables-" ++ py_str (PInt 6) ++ lit ".csv")]
         else []),
     Return tt).
Proof.
  apply (main_document_without_pages csv_run (PStr (lit "csv")) 2 2
           {| id := PInt 6; page_count := 1 |}).
  simpl. lia.
Defined.

Lemma tables_of_pages_sorted (self : addon) (doc : document) (pages : list Z) :
  StronglySorted Z.le pages →
  StronglySorted Z.le (map page_number (tables_of_pages self doc pages))
  ∧ Forall (λ t, page_number t ∈ pages) (tables_of_pages self doc pages).
Proof.
  unfold tables_of_pages.
  induction pages as [|p pages IH]; intros Hsorted; [split; constructor|].
  apply StronglySorted_inv in Hsorted as [Hsorted Hle].
  destruct (IH Hsorted) as [IH1 IH2].
  cbn [map concat]. rewrite get_table_data_map.
  assert (Hhere : Forall (λ t, page_number t = p)
                    (map (λ table, {| page_number := p;
                                      cells := map shape_cell (Service.cells table) |})
                         (Service.tables (layout self (id doc) p)))).
  { apply List.Forall_forall. intros t (table & <- & _)%in_map_iff. reflexivity. }
  split.
  - assert (Hrest : Forall (λ t, p ≤ page_number t)
                      (concat (map (λ p, get_table_data (layout self (id doc) p) p)
                                   pages))).
    { eapply Forall_impl; [exact IH2|]. intros t Ht. cbv beta in Ht.
      rewrite List.Forall_forall in Hle. apply Hle. by apply list_elem_of_In. }
    revert Hhere.
    generalize (map (λ table, {| page_number := p;
                                 cells := map shape_cell (Service.cells table) |})
                    (Service.tables (layout self (id doc) p))).
    intros ts Hts. induction ts as [|t ts IHts]; [exact IH1|].
    apply Forall_cons in Hts as [Ht Hts].
    cbn [map app]. constructor; [by apply IHts|].
    apply List.Forall_forall. intros q Hq.
    apply in_map_iff in Hq as (t' & <- & Hin). apply in_app_or in Hin as [Hin | Hin].
    + rewrite Forall_forall in Hts. rewrite Ht, (Hts t'); [lia|].
      by apply list_elem_of_In.
    + rewrite Forall_forall in Hrest. rewrite Ht. apply Hrest.
      by apply list_elem_of_In.
  - apply Forall_app. split.
    + eapply Forall_impl; [exact Hhere|]. intros t ->. apply elem_of_cons. by left.
    + eapply Forall_impl; [exact IH2|]. intros t Ht. apply elem_of_cons. by right.
Qed.

(** X19. When the loop over the pages of a document goes through (no
    download, conversion or submission fails), it hands over the table
    records in page order: the page numbers of the records never decrease
    along the list, and each is a page in range, between the start page and
    the smaller of the end page and the page count. These are the records
    the document's json entry is written from. *)
Theorem main_pages_in_order (self : addon) (s e : Z) (doc : document)
    (table_data : list table_info) :
  outcome (for_each (seqZ s (Z.min e (page_count doc) - s + 1))
                    (main_page self doc) [])
  = Return table_data →
  archive_texts
    (trace (main_document self (PStr (lit "json")) (PInt s) (PInt e) doc tt))
  = [(lit "tables-" ++ py_str (id doc) ++ lit ".json",
      json_dumps (table_data_obj table_data))]
  ∧ StronglySorted Z.le (map page_number table_data)
  ∧ Forall (λ t, s ≤ page_number t ≤ Z.min e (page_count doc)) table_data.
Proof.
  intros Hret.
  change (seqZ s (Z.min e (page_count doc) - s + 1)) with (pages_in_range s e doc)
    in Hret.
  assert (Hloop : for_each (pages_in_range s e doc) (main_page self doc) []
                  = (concat (map (page_events doc) (pages_in_range s e doc)),
                     Return (tables_of_pages self doc (pages_in_range s e doc)))).
  { transitivity (for_each (pages_in_range s e doc) (main_page (calm self) doc) []);
      [|by rewrite main_pages_eq].
    eapply runs_like_return; [|exact Hret].
    apply runs_like_for_each. intros p td. apply main_page_runs_like. }
  rewrite Hloop in Hret. injection Hret as <-.
  split.
  { unfold main_document. cbn [py_add py_gt py_lt].
    rewrite !lift_bind_return.
    assert (Hpages : py_range (PInt s)
              (if page_count doc <? e then PInt (page_count doc + 1) else PInt (e + 1))
            = Return (pages_in_range s e doc)).
    { unfold pages_in_range.
      destruct (Z.ltb_spec (page_count doc) e); cbn; do 2 f_equal; lia. }
    rewrite Hpages, lift_bind_return, Hloop, io_bind_return.
    unfold trace. cbn [fst]. rewrite archive_texts_app.
    destruct (page_events_write_nothing doc (pages_in_range s e doc)) as (-> & _ & _).
    reflexivity. }
  assert (Hsorted : StronglySorted Z.le (pages_in_range s e doc)).
  { unfold pages_in_range, seqZ. generalize (Z.to_nat (Z.min e (page_count doc) - s + 1)).
    intros n. generalize 0%nat at 1.
    induction n as [|n IH]; intros k; [constructor|].
    cbn [seq fmap list_fmap]. constructor; [apply (IH (S k))|].
    apply List.Forall_forall. intros q Hq.
    apply list_elem_of_In, list_elem_of_fmap in Hq as (j & -> & Hj).
    apply elem_of_seq in Hj. lia. }
  destruct (tables_of_pages_sorted self doc _ Hsorted) as [H1 H2].
  split; [exact H1|].
  eapply Forall_impl; [exact H2|]. intros t Ht. cbv beta in Ht.
  unfold pages_in_range in Ht. apply elem_of_seqZ in Ht. lia.
Qed.

Lemma main_pages_in_order_witness :
  archive_texts
    (trace (main_document json_run (PStr (lit "json")) (PInt 2) (PInt 3)
              {| id := PInt 6; page_count := 7 |} tt))
  = [(lit "tables-" ++ py_str (PInt 6) ++ lit ".json",
      json_dumps (table_data_obj
                    (tables_of_pages json_run {| id := PInt 6; page_count := 7 |} [2; 3])))]
  ∧ StronglySorted Z.le
      (map page_number
           (tables_of_pages json_run {| id := PInt 6; page_count := 7 |} [2; 3]))
  ∧ Forall (λ t, 2 ≤ page_number t ≤ Z.min 3 7)
           (tables_of_pages json_run {| id := PInt 6; page_count := 7 |} [2; 3]).
Proof.
  apply (main_pages_in_order json_run 2 3 {| id := PInt 6; page_count := 7 |}).
  reflexivity.
Defined.
